(** * OpenCode Zen provider extension: the registry synchronisation engine

    A shallow embedding of [index.ts]: the merge of the authoritative id
    list with the models.dev metadata ([buildModels]), the three cache
    documents, the two fetches, the start-up controller (the default
    export), the dispatch function ([streamOpenCodeZen]) and the free-model
    diff, followed by the properties of the specification checked against
    them. *)

From Stdlib Require Import ZArith QArith String List Bool Lia.
From stdpp Require Import base option list strings gmap.
Import ListNotations.
Local Open Scope string_scope.
Local Open Scope list_scope.

(** ** JavaScript values as the source uses them *)

Module Js.

(** A JavaScript [number] as a JSON parser produces it: a finite value, or
    an infinity when the literal is out of range ([1e999]). [NaN] has no
    JSON literal. *)
Inductive number : Type :=
| Finite (q : Q)
| Infinity (negative : bool).

(** What a slot declared [number] holds in a record: a number, or [null]
    when the record was read back from a document in which the serialiser
    had written [null] for a non-finite number. *)
Inductive numberOrNull : Type :=
| Known (n : number)
| Null.

(** [n === 0]. *)
Definition isZero (n : numberOrNull) : bool :=
  match n with
  | Known (Finite q) => (Qnum q =? 0)%Z
  | _ => false
  end.

(** [n > 0], for the statements only. *)
Definition positive (n : numberOrNull) : Prop :=
  match n with
  | Known (Finite q) => (0 < q)%Q
  | Known (Infinity negative) => negative = false
  | Null => False
  end.

(** False for the two infinities only: the values [JSON.stringify] does
    not write as they are. *)
Definition finite (n : numberOrNull) : bool :=
  match n with
  | Known (Infinity _) => false
  | _ => true
  end.

(** [!s] is false exactly for a non-empty string. *)
Definition truthy (s : string) : bool := negb (String.eqb s "").

(** [o || d] for a string-or-undefined [o]. *)
Definition orElse (o : option string) (d : string) : string :=
  match o with
  | Some s => if truthy s then s else d
  | None => d
  end.

(** [o ?? d]. *)
Definition nullish {A : Type} (o : option A) (d : A) : A :=
  match o with
  | Some a => a
  | None => d
  end.

(** [o?.f]: optional chaining through an optional object. *)
Definition chain {A B : Type} (o : option A) (f : A -> option B) : option B :=
  match o with
  | Some a => f a
  | None => None
  end.

(** Truthiness of a string-or-undefined: [!o] is its negation. *)
Definition truthyStr (o : option string) : bool :=
  match o with
  | Some s => truthy s
  | None => false
  end.

(** [o === lit] for a string-or-undefined [o]. *)
Definition strictEq (o : option string) (lit : string) : bool :=
  match o with
  | Some s => String.eqb s lit
  | None => false
  end.

(** Truthiness of a boolean-or-undefined. *)
Definition truthyBool (o : option bool) : bool := nullish o false.

(** [l.includes(x)] on an array of strings. *)
Fixpoint includes (l : list string) (x : string) : bool :=
  match l with
  | [] => false
  | y :: l' => if String.eqb y x then true else includes l' x
  end.

End Js.

Coercion Js.Finite : Q >-> Js.number.
Coercion Js.Known : Js.number >-> Js.numberOrNull.

(** ** Types *)

Inductive Backend : Type :=
| anthropic
| openai_responses
| openai_completions
| google.

Inductive Modality : Type :=
| text
| image.

Record Cost : Type := mkCost {
  c_input : Js.numberOrNull;
  c_output : Js.numberOrNull;
  c_cacheRead : Js.numberOrNull;
  c_cacheWrite : Js.numberOrNull
}.

Record ModelConfig : Type := mkModelConfig {
  mc_id : string;
  mc_name : string;
  mc_backend : Backend;
  mc_reasoning : bool;
  mc_input : list Modality;
  mc_cost : Cost;
  mc_contextWindow : Js.numberOrNull;
  mc_maxTokens : Js.numberOrNull
}.

(** The models.dev document ([ModelsDevAPI]). Every field the interface
    marks optional is an [option]; [id] and [name] are read through [||],
    so a missing one is [None] as well. *)
Record DevCost : Type := mkDevCost {
  dc_input : option Js.number;
  dc_output : option Js.number;
  dc_cache_read : option Js.number;
  dc_cache_write : option Js.number
}.

Record DevLimit : Type := mkDevLimit {
  dl_context : option Js.number;
  dl_output : option Js.number
}.

Record DevProvider : Type := mkDevProvider {
  dp_npm : option string;
  dp_api : option string
}.

Record DevModel : Type := mkDevModel {
  dm_id : option string;
  dm_name : option string;
  dm_cost : option DevCost;
  dm_limit : option DevLimit;
  dm_reasoning : option bool;
  dm_attachment : option bool;
  dm_tool_call : option bool;
  dm_modalities : option (list string);
  dm_provider : option DevProvider
}.

(** [ModelsDevAPI["opencode"]]: the [models] record is a map keyed by
    model id. *)
Record OpencodeData : Type := mkOpencodeData {
  od_models : option (gmap string DevModel);
  od_provider : option DevProvider
}.

(** One entry of Zen's [/v1/models] answer ([ZenModelsResponse]). *)
Record ZenEntry : Type := mkZenEntry {
  ze_id : string;
  ze_object : string;
  ze_created : Z;
  ze_owned_by : string
}.

(** ** The merge *)

(** [m.cost.input === 0 && m.cost.output === 0], the test the source
    repeats wherever it separates free models from paid ones. *)
Definition isFreeModel (m : ModelConfig) : bool :=
  Js.isZero (c_input (mc_cost m)) && Js.isZero (c_output (mc_cost m)).

Definition getBackendFromNpmPackage
    (npmPackage defaultBackend : option string) : Backend :=
  if negb (Js.truthyStr npmPackage) then
    (* Use default from provider level or fall back to openai-completions *)
    if Js.strictEq defaultBackend "@ai-sdk/anthropic" then anthropic
    else if Js.strictEq defaultBackend "@ai-sdk/openai" then openai_responses
    else if Js.strictEq defaultBackend "@ai-sdk/google" then google
    else openai_completions
  else if Js.strictEq npmPackage "@ai-sdk/anthropic" then anthropic
  else if Js.strictEq npmPackage "@ai-sdk/openai" then openai_responses
  else if Js.strictEq npmPackage "@ai-sdk/google" then google
  else openai_completions.

(** [modelsDevData?.provider?.npm]. *)
Definition providerDefaultNpm (modelsDevData : option OpencodeData) : option string :=
  Js.chain (Js.chain modelsDevData od_provider) dp_npm.

(** The function members every parsed JSON object inherits from
    [Object.prototype], each with the [name] of the function. *)
Definition inheritedFunctions : list (string * string) :=
  [ ("constructor", "Object");
    ("hasOwnProperty", "hasOwnProperty");
    ("isPrototypeOf", "isPrototypeOf");
    ("propertyIsEnumerable", "propertyIsEnumerable");
    ("toLocaleString", "toLocaleString");
    ("toString", "toString");
    ("valueOf", "valueOf");
    ("__defineGetter__", "__defineGetter__");
    ("__defineSetter__", "__defineSetter__");
    ("__lookupGetter__", "__lookupGetter__");
    ("__lookupSetter__", "__lookupSetter__") ].

Fixpoint functionName (members : list (string * string)) (key : string)
    : option string :=
  match members with
  | [] => None
  | (k, name) :: rest => if String.eqb k key then Some name else functionName rest key
  end.

(** An inherited member seen through the fields [buildModels] reads of a
    [devModel]: a function has a [name] and none of the others; the
    prototype object itself has none at all. *)
Definition inheritedValue (name : option string) : DevModel :=
  {| dm_id := None; dm_name := name; dm_cost := None; dm_limit := None;
     dm_reasoning := None; dm_attachment := None; dm_tool_call := None;
     dm_modalities := None; dm_provider := None |}.

(** [models[key]] on the parsed [models] object: the own property when
    there is one, else what the key names on [Object.prototype]
    ([__proto__] is the prototype itself), else [undefined]. *)
Definition getProperty (models : gmap string DevModel) (key : string)
    : option DevModel :=
  match models !! key with
  | Some entry => Some entry
  | None =>
      if String.eqb key "__proto__" then Some (inheritedValue None)
      else
        match functionName inheritedFunctions key with
        | Some name => Some (inheritedValue (Some name))
        | None => None
        end
  end.

(** [modelsDevData?.models?.[modelId]]. *)
Definition devModelOf (modelsDevData : option OpencodeData) (modelId : string)
    : option DevModel :=
  Js.chain (Js.chain modelsDevData od_models) (fun ms => getProperty ms modelId).

(** The [input] array of an enriched record: ["text"], and ["image"] pushed
    when [attachment] is truthy or [modalities] is an array that includes
    "image". *)
Definition inputOf (devModel : DevModel) : list Modality :=
  if Js.truthyBool (dm_attachment devModel)
     || match dm_modalities devModel with
        | Some ms => Js.includes ms "image"
        | None => false
        end
  then [text; image]
  else [text].

(** The record pushed in the [if (devModel)] branch. *)
Definition enrichedModel (providerDefault : option string) (modelId : string)
    (devModel : DevModel) : ModelConfig :=
  {| mc_id := Js.orElse (dm_id devModel) modelId;
     mc_name := Js.orElse (dm_name devModel) modelId;
     mc_backend :=
       getBackendFromNpmPackage (Js.chain (dm_provider devModel) dp_npm)
                                providerDefault;
     mc_reasoning := Js.nullish (dm_reasoning devModel) false;
     mc_input := inputOf devModel;
     mc_cost :=
       {| c_input := Js.nullish (Js.chain (dm_cost devModel) dc_input) 0%Q;
          c_output := Js.nullish (Js.chain (dm_cost devModel) dc_output) 0%Q;
          c_cacheRead := Js.nullish (Js.chain (dm_cost devModel) dc_cache_read) 0%Q;
          c_cacheWrite := Js.nullish (Js.chain (dm_cost devModel) dc_cache_write) 0%Q |};
     mc_contextWindow := Js.nullish (Js.chain (dm_limit devModel) dl_context) 128000%Q;
     mc_maxTokens := Js.nullish (Js.chain (dm_limit devModel) dl_output) 16384%Q |}.

(** The record pushed in the [else] branch: sensible defaults. *)
Definition defaultModel (modelId : string) : ModelConfig :=
  {| mc_id := modelId;
     mc_name := modelId;
     mc_backend := openai_completions;
     mc_reasoning := false;
     mc_input := [text];
     mc_cost := {| c_input := 0%Q; c_output := 0%Q;
                   c_cacheRead := 0%Q; c_cacheWrite := 0%Q |};
     mc_contextWindow := 128000%Q;
     mc_maxTokens := 16384%Q |}.

(** One turn of the [for (const modelId of zenModelIds)] loop: the record
    it pushes. *)
Definition buildModel (modelsDevData : option OpencodeData) (modelId : string)
    : ModelConfig :=
  match devModelOf modelsDevData modelId with
  | Some devModel => enrichedModel (providerDefaultNpm modelsDevData) modelId devModel
  | None => defaultModel modelId
  end.

(** The loop itself: [models] starts empty and gets one push per id. *)
Definition mergeLoop (modelsDevData : option OpencodeData)
    (zenModelIds : list string) : list ModelConfig :=
  fold_left (fun models modelId => models ++ [buildModel modelsDevData modelId])
            zenModelIds [].

(** ** The persisted documents *)

(** A parsed JSON document. *)
#[local] Unset Elimination Schemes.
Inductive Json : Type :=
| JNull
| JBool (b : bool)
| JNum (n : Js.number)
| JStr (s : string)
| JArr (items : list Json)
| JObj (fields : list (string * Json)).
#[local] Set Elimination Schemes.

Module JSON.

Fixpoint get (fields : list (string * Json)) (key : string) : option Json :=
  match fields with
  | [] => None
  | (k, v) :: rest => if String.eqb k key then Some v else get rest key
  end.

(** [j.key]; [None] is [undefined]. Only an object has own properties
    here (the keys read are never [length]). *)
Definition prop (j : Json) (key : string) : option Json :=
  match j with
  | JObj fields => get fields key
  | _ => None
  end.

(** JavaScript truthiness of a property value. *)
Definition truthy (o : option Json) : bool :=
  match o with
  | None => false
  | Some JNull => false
  | Some (JBool b) => b
  | Some (JNum n) => negb (Js.isZero n)
  | Some (JStr s) => Js.truthy s
  | Some (JArr _) => true
  | Some (JObj _) => true
  end.

Definition backendName (b : Backend) : string :=
  match b with
  | anthropic => "anthropic"
  | openai_responses => "openai-responses"
  | openai_completions => "openai-completions"
  | google => "google"
  end.

Definition modalityName (m : Modality) : string :=
  match m with
  | text => "text"
  | image => "image"
  end.

(** [JSON.stringify] of a number slot: a finite number as it is, an
    infinity and [null] as [null]. *)
Definition ofNumber (n : Js.numberOrNull) : Json :=
  match n with
  | Js.Known (Js.Finite q) => JNum (Js.Finite q)
  | Js.Known (Js.Infinity _) => JNull
  | Js.Null => JNull
  end.

(** [JSON.stringify] of one [ModelConfig], as the document it denotes. *)
Definition ofModel (m : ModelConfig) : Json :=
  JObj [ ("id", JStr (mc_id m));
         ("name", JStr (mc_name m));
         ("backend", JStr (backendName (mc_backend m)));
         ("reasoning", JBool (mc_reasoning m));
         ("input", JArr (map (fun x => JStr (modalityName x)) (mc_input m)));
         ("cost", JObj [ ("input", ofNumber (c_input (mc_cost m)));
                         ("output", ofNumber (c_output (mc_cost m)));
                         ("cacheRead", ofNumber (c_cacheRead (mc_cost m)));
                         ("cacheWrite", ofNumber (c_cacheWrite (mc_cost m))) ]);
         ("contextWindow", ofNumber (mc_contextWindow m));
         ("maxTokens", ofNumber (mc_maxTokens m)) ].

Definition stringify (models : list ModelConfig) : Json :=
  JArr (map ofModel models).

(** The cast [as ModelConfig[]], made explicit: the record an element
    denotes when it has the declared type, field by field. *)
Definition asString (o : option Json) : option string :=
  match o with Some (JStr s) => Some s | _ => None end.

Definition asBool (o : option Json) : option bool :=
  match o with Some (JBool b) => Some b | _ => None end.

Definition asNumber (o : option Json) : option Js.numberOrNull :=
  match o with
  | Some (JNum n) => Some (Js.Known n)
  | Some JNull => Some Js.Null
  | _ => None
  end.

Definition asBackend (o : option Json) : option Backend :=
  match asString o with
  | Some s =>
      if String.eqb s "anthropic" then Some anthropic
      else if String.eqb s "openai-responses" then Some openai_responses
      else if String.eqb s "openai-completions" then Some openai_completions
      else if String.eqb s "google" then Some google
      else None
  | None => None
  end.

Definition asModality (j : Json) : option Modality :=
  match j with
  | JStr s =>
      if String.eqb s "text" then Some text
      else if String.eqb s "image" then Some image
      else None
  | _ => None
  end.

Fixpoint asAll {A B : Type} (f : A -> option B) (l : list A) : option (list B) :=
  match l with
  | [] => Some []
  | a :: l' =>
      match f a, asAll f l' with
      | Some b, Some bs => Some (b :: bs)
      | _, _ => None
      end
  end.

Definition asInput (o : option Json) : option (list Modality) :=
  match o with
  | Some (JArr items) => asAll asModality items
  | _ => None
  end.

Definition asCost (o : option Json) : option Cost :=
  match o with
  | Some c =>
      match asNumber (prop c "input"), asNumber (prop c "output"),
            asNumber (prop c "cacheRead"), asNumber (prop c "cacheWrite") with
      | Some i, Some o', Some r, Some w => Some (mkCost i o' r w)
      | _, _, _, _ => None
      end
  | None => None
  end.

Definition asModelConfig (j : Json) : option ModelConfig :=
  match asString (prop j "id"), asString (prop j "name"),
        asBackend (prop j "backend"), asBool (prop j "reasoning"),
        asInput (prop j "input"), asCost (prop j "cost"),
        asNumber (prop j "contextWindow"), asNumber (prop j "maxTokens") with
  | Some i, Some n, Some b, Some r, Some inp, Some c, Some cw, Some mt =>
      Some (mkModelConfig i n b r inp c cw mt)
  | _, _, _, _, _, _, _, _ => None
  end.

Definition asModelConfigs (items : list Json) : option (list ModelConfig) :=
  asAll asModelConfig items.

(** A number slot after a save and a load: an infinity has become
    [null]. *)
Definition reloadedNumber (n : Js.numberOrNull) : Js.numberOrNull :=
  match n with
  | Js.Known (Js.Infinity _) => Js.Null
  | _ => n
  end.

(** A record after a save and a load. *)
Definition reloaded (m : ModelConfig) : ModelConfig :=
  {| mc_id := mc_id m; mc_name := mc_name m; mc_backend := mc_backend m;
     mc_reasoning := mc_reasoning m; mc_input := mc_input m;
     mc_cost :=
       {| c_input := reloadedNumber (c_input (mc_cost m));
          c_output := reloadedNumber (c_output (mc_cost m));
          c_cacheRead := reloadedNumber (c_cacheRead (mc_cost m));
          c_cacheWrite := reloadedNumber (c_cacheWrite (mc_cost m)) |};
     mc_contextWindow := reloadedNumber (mc_contextWindow m);
     mc_maxTokens := reloadedNumber (mc_maxTokens m) |}.

(** No number slot of the record holds an infinity. *)
Definition finiteModel (m : ModelConfig) : bool :=
  Js.finite (c_input (mc_cost m)) && Js.finite (c_output (mc_cost m))
  && Js.finite (c_cacheRead (mc_cost m)) && Js.finite (c_cacheWrite (mc_cost m))
  && Js.finite (mc_contextWindow m) && Js.finite (mc_maxTokens m).

End JSON.

(** What a cache file holds: text that does not read or parse (the [catch]
    of the loader), or a document. The two id lists are taken at their
    declared type [string[]]. *)
Inductive FileContent (A : Type) : Type :=
| Unparseable
| Document (a : A).
Arguments Unparseable {A}.
Arguments Document {A} a.

Inductive CacheFile : Type :=
| ZEN_MODELS_CACHE_FILE
| MODELS_CACHE_FILE
| FREE_MODEL_IDS_FILE.

(** The cache directory: a file is absent ([None]) or has a content;
    [writable] is false when [ensureCacheDir] or [writeFileSync] throws. *)
Record Store : Type := mkStore {
  zen_models_json : option (FileContent (list string));
  models_json : option (FileContent Json);
  free_model_ids_json : option (FileContent (list string));
  writable : bool
}.

(** The fields of a model handed to [pi.registerProvider]: all but the
    backend. *)
Record ProviderModel : Type := mkProviderModel {
  pm_id : string;
  pm_name : string;
  pm_reasoning : bool;
  pm_input : list Modality;
  pm_cost : Cost;
  pm_contextWindow : Js.numberOrNull;
  pm_maxTokens : Js.numberOrNull
}.

(** The state the module works on: the cache directory, the module-level
    [MODEL_MAP] (a JS [Map]: insertion-ordered, keys unique), the calls made
    to [pi.registerProvider], the lines sent to [console.error], and the
    cache files written so far. *)
Record World : Type := mkWorld {
  disk : Store;
  MODEL_MAP : list (string * ModelConfig);
  registered : list (list ProviderModel);
  console : list string;
  written : list CacheFile
}.

Definition initialWorld (st : Store) : World :=
  {| disk := st; MODEL_MAP := []; registered := []; console := []; written := [] |}.

(** *** A state monad over [World] *)

Definition M (A : Type) : Type := World -> A * World.

Definition ret {A : Type} (a : A) : M A := fun w => (a, w).

Definition bind {A B : Type} (c : M A) (k : A -> M B) : M B :=
  fun w => let (a, w') := c w in k a w'.

Notation "x <- c ;; k" := (bind c (fun x => k))
  (at level 100, c at next level, right associativity).
Notation "c ;;; k" := (bind c (fun _ => k))
  (at level 100, right associativity).

Definition gets {A : Type} (f : World -> A) : M A := fun w => (f w, w).

Definition modify (f : World -> World) : M unit := fun w => (tt, f w).

Definition exec {A : Type} (c : M A) (w : World) : World := snd (c w).
Definition eval {A : Type} (c : M A) (w : World) : A := fst (c w).

(** [console.error(line, ...)]. *)
Definition consoleError (line : string) : M unit :=
  modify (fun w =>
    {| disk := disk w; MODEL_MAP := MODEL_MAP w; registered := registered w;
       console := console w ++ [line]; written := written w |}).

(** The body shared by the three [save...] functions: [ensureCacheDir();
    fs.writeFileSync(file, ...)] inside [try], the failure logged in
    [catch]. *)
Definition writeFileSync (file : CacheFile) (update : Store -> Store)
    (failure : string) : M unit :=
  fun w =>
    if writable (disk w) then
      (tt, {| disk := update (disk w); MODEL_MAP := MODEL_MAP w;
              registered := registered w; console := console w;
              written := written w ++ [file] |})
    else consoleError failure w.

(** *** The three documents *)

Definition loadZenModelsFromCache (st : Store) : option (list string) :=
  match zen_models_json st with
  | None => None
  | Some Unparseable => None
  | Some (Document modelIds) =>
      match modelIds with
      | [] => None
      | _ :: _ => Some modelIds
      end
  end.

Definition saveZenModelsToCache (modelIds : list string) : M unit :=
  writeFileSync ZEN_MODELS_CACHE_FILE
    (fun st => {| zen_models_json := Some (Document modelIds);
                  models_json := models_json st;
                  free_model_ids_json := free_model_ids_json st;
                  writable := writable st |})
    "Failed to save Zen models to cache:".

(** The basic validation of one element: [!model.id || !model.name ||
    !model.backend] rejects. An element that is [null] makes the property
    read throw, which the [catch] turns into the same [null]. *)
Definition validCachedModel (model : Json) : bool :=
  JSON.truthy (JSON.prop model "id")
  && JSON.truthy (JSON.prop model "name")
  && JSON.truthy (JSON.prop model "backend").

(** Returns the parsed array as it is, like the source. *)
Definition loadModelsFromCache (st : Store) : option (list Json) :=
  match models_json st with
  | None => None
  | Some Unparseable => None
  | Some (Document (JArr models)) =>
      match models with
      | [] => None
      | _ :: _ => if forallb validCachedModel models then Some models else None
      end
  | Some (Document _) => None
  end.

Definition saveModelsToCache (models : list ModelConfig) : M unit :=
  writeFileSync MODELS_CACHE_FILE
    (fun st => {| zen_models_json := zen_models_json st;
                  models_json := Some (Document (JSON.stringify models));
                  free_model_ids_json := free_model_ids_json st;
                  writable := writable st |})
    "Failed to save models to cache:".

Definition loadFreeModelIds (st : Store) : list string :=
  match free_model_ids_json st with
  | None => []
  | Some Unparseable => []
  | Some (Document ids) => ids
  end.

Definition saveFreeModelIds (ids : list string) : M unit :=
  writeFileSync FREE_MODEL_IDS_FILE
    (fun st => {| zen_models_json := zen_models_json st;
                  models_json := models_json st;
                  free_model_ids_json := Some (Document ids);
                  writable := writable st |})
    "Failed to save free model IDs:".

(** ** [buildModels] *)

Definition buildModels (zenModelIds : list string)
    (modelsDevData : option OpencodeData) (hasApiKey : bool)
    : M (list ModelConfig) :=
  let models := mergeLoop modelsDevData zenModelIds in
  (* Save enriched models to cache *)
  saveModelsToCache models ;;;
  (* Filter to free models if no API key *)
  ret (if negb hasApiKey then List.filter isFreeModel models else models).

(** ** The two remote sources *)

(** What one request meets: no answer at all ([fetch] rejects, or never
    resolves before any deadline), or a response that arrives after
    [latency] milliseconds with [response.ok] and a body; the body is [None]
    when [response.json()] rejects. *)
Inductive Endpoint (A : Type) : Type :=
| Unreachable
| Responds (latency : Z) (ok : bool) (body : option A).
Arguments Unreachable {A}.
Arguments Responds {A} latency ok body.

(** The [data] field of Zen's answer, as a JavaScript value: the source
    tests it with [!data.data] and [Array.isArray]. *)
Inductive DataField : Type :=
| DataMissing
| DataNull
| DataBool (b : bool)
| DataNumber (n : Js.number)
| DataString (s : string)
| DataObject
| DataArray (entries : list ZenEntry).

(** The parsed body of Zen's answer: [null] (reading [data.data] throws) or
    a value whose [data] property is read. *)
Inductive ZenPayload : Type :=
| ZenNull
| ZenValue (data : DataField).

Inductive DevPayload : Type :=
| DevNull
| DevValue (opencode : option OpencodeData).

Record Net : Type := mkNet {
  ZEN_MODELS_URL : Endpoint ZenPayload;
  MODELS_API_URL : Endpoint DevPayload
}.

(** A computation that may throw. *)
Inductive Result (A : Type) : Type :=
| Ok (a : A)
| Throw (message : string).
Arguments Ok {A} a.
Arguments Throw {A} message.

Definition dataTruthy (d : DataField) : bool :=
  match d with
  | DataMissing => false
  | DataNull => false
  | DataBool b => b
  | DataNumber n => negb (Js.isZero n)
  | DataString s => Js.truthy s
  | DataObject => true
  | DataArray _ => true
  end.

Definition isArray (d : DataField) : bool :=
  match d with
  | DataArray _ => true
  | _ => false
  end.

(** [data.data.map((m) => m.id)], reached only for an array. *)
Definition dataIds (d : DataField) : list string :=
  match d with
  | DataArray entries => map ze_id entries
  | _ => []
  end.

(** The messages of the errors thrown by the runtime ([fetch], [json()],
    the property read on [null]) and the status in the message of the
    non-ok case are not modelled: every caller discards them. *)
Definition fetchZenModels (net : Net) : Result (list string) :=
  match ZEN_MODELS_URL net with
  | Unreachable => Throw "fetch failed"
  | Responds _ ok body =>
      if negb ok then Throw "Failed to fetch Zen models"
      else
        match body with
        | None => Throw "Unexpected token in JSON"
        | Some ZenNull => Throw "Cannot read properties of null"
        | Some (ZenValue data) =>
            if negb (dataTruthy data) || negb (isArray data)
            then Throw "Invalid Zen API response: missing data array"
            else Ok (dataIds data)
        end
  end.

(** Fetch with a timeout. Returns null on failure or timeout. *)
Definition fetchWithTimeout {A : Type} (url : Endpoint A) (timeoutMs : Z)
    : option (option A) :=
  match url with
  | Unreachable => None
  | Responds latency ok body =>
      if (latency <? timeoutMs)%Z then (if ok then Some body else None) else None
  end.

(** Step 1 of [fetchFreshModels], up to the assignment of [zenModelIds];
    [None] is the [return null] of that block (its own, or its [catch]). *)
Definition zenModelIdsOf (timeoutMs : option Z) (net : Net) : option (list string) :=
  match timeoutMs with
  | Some t =>
      match fetchWithTimeout (ZEN_MODELS_URL net) t with
      | None => None
      | Some None => None
      | Some (Some ZenNull) => None
      | Some (Some (ZenValue data)) =>
          if negb (dataTruthy data) || negb (isArray data) then None
          else Some (dataIds data)
      end
  | None =>
      match fetchZenModels net with
      | Ok ids => Some ids
      | Throw _ => None
      end
  end.

(** Step 2: the models.dev document, or [undefined]. *)
Definition modelsDevDataOf (timeoutMs : option Z) (net : Net) : option OpencodeData :=
  let response :=
    match timeoutMs with
    | Some t => fetchWithTimeout (MODELS_API_URL net) t
    | None =>
        match MODELS_API_URL net with
        | Unreachable => None
        | Responds _ ok body => if ok then Some body else None
        end
    end in
  match response with
  | Some (Some (DevValue opencode)) => opencode
  | _ => None
  end.

(** Fetch fresh models from Zen + models.dev. Returns null on failure. *)
Definition fetchFreshModels (hasApiKey : bool) (timeoutMs : option Z) (net : Net)
    : M (option (list ModelConfig)) :=
  match zenModelIdsOf timeoutMs net with
  | None => ret None
  | Some zenModelIds =>
      saveZenModelsToCache zenModelIds ;;;
      models <- buildModels zenModelIds (modelsDevDataOf timeoutMs net) hasApiKey ;;
      ret (Some models)
  end.

(** ** Publishing *)

Module JsMap.

Fixpoint get (m : list (string * ModelConfig)) (key : string) : option ModelConfig :=
  match m with
  | [] => None
  | (k, v) :: rest => if String.eqb k key then Some v else get rest key
  end.

(** [Map.prototype.set]: an existing key keeps its place. *)
Fixpoint set (m : list (string * ModelConfig)) (key : string) (value : ModelConfig)
    : list (string * ModelConfig) :=
  match m with
  | [] => [(key, value)]
  | (k, v) :: rest =>
      if String.eqb k key then (k, value) :: rest
      else (k, v) :: set rest key value
  end.

Definition has (m : list (string * ModelConfig)) (key : string) : bool :=
  match get m key with
  | Some _ => true
  | None => false
  end.

Definition keys (m : list (string * ModelConfig)) : list string := map fst m.
Definition values (m : list (string * ModelConfig)) : list ModelConfig := map snd m.

End JsMap.

Definition providerModel (m : ModelConfig) : ProviderModel :=
  {| pm_id := mc_id m; pm_name := mc_name m; pm_reasoning := mc_reasoning m;
     pm_input := mc_input m; pm_cost := mc_cost m;
     pm_contextWindow := mc_contextWindow m; pm_maxTokens := mc_maxTokens m |}.

(** Register (or re-register) the opencode provider with the given models. *)
Definition registerModels (models : list ModelConfig) : M unit :=
  modify (fun w =>
    {| disk := disk w;
       MODEL_MAP := fold_left (fun m model => JsMap.set m (mc_id model) model) models [];
       registered := registered w ++ [map providerModel models];
       console := console w;
       written := written w |}).

(** ** The start-up controller (the default export) *)

Record Env : Type := mkEnv {
  OPENCODE_API_KEY : option string;
  (** the stored value of the notification setting, if any *)
  notify_free_model_changes : option string
}.

Definition getExtensionSetting (stored : option string) (defaultValue : string) : string :=
  Js.nullish stored defaultValue.

(** How the default export ends. *)
Inductive Outcome : Type :=
| NotRegistered
    (* the early [return] of the cold start *)
| Started (added removed : list string) (notify : bool) (refreshing : bool)
    (* the handlers are installed; [notify] tells whether the change
       notification is armed, [refreshing] whether a background refresh
       was launched *)
| CacheNotTyped
    (* the enriched cache passed the basic validation but is not a
       [ModelConfig[]]: outside this model *).

Definition freeIdsOf (models : list ModelConfig) : list string :=
  map mc_id (List.filter isFreeModel models).

Definition added (previousFreeIds currentFreeIds : list string) : list string :=
  List.filter (fun id => negb (Js.includes previousFreeIds id)) currentFreeIds.

Definition removed (previousFreeIds currentFreeIds : list string) : list string :=
  List.filter (fun id => negb (Js.includes currentFreeIds id)) previousFreeIds.

Definition nonEmpty {A : Type} (l : list A) : bool :=
  match l with
  | [] => false
  | _ :: _ => true
  end.

(** The part after the [if]: the free-model diff against the previous
    session and the decision to arm the notification. *)
Definition trackFreeModels (env : Env) (previousFreeIds : list string)
    (refreshing : bool) : M Outcome :=
  map_ <- gets MODEL_MAP ;;
  let currentFreeIds := freeIdsOf (JsMap.values map_) in
  let added_ := added previousFreeIds currentFreeIds in
  let removed_ := removed previousFreeIds currentFreeIds in
  let hasFreeModelChanges := nonEmpty added_ || nonEmpty removed_ in
  ret (Started added_ removed_
         (hasFreeModelChanges
          && String.eqb (getExtensionSetting (notify_free_model_changes env) "on") "on")
         refreshing).

Definition COLD_START_TIMEOUT_MS : Z := 3000.

(** The one line the cold start logs when it gives up. *)
Definition providerNotRegistered : string :=
  "OpenCode Zen: no cached models and fetch failed/timed out. Provider not registered.".

Definition hasApiKeyOf (env : Env) : bool := Js.truthyStr (OPENCODE_API_KEY env).

Definition default (env : Env) (net : Net) : M Outcome :=
  let hasApiKey := hasApiKeyOf env in
  previousFreeIds <- gets (fun w => loadFreeModelIds (disk w)) ;;
  cachedModels <- gets (fun w => loadModelsFromCache (disk w)) ;;
  match cachedModels with
  | Some (cached :: rest) =>
      (* Fast path: register from cache instantly, then refresh in background *)
      match JSON.asModelConfigs (cached :: rest) with
      | None => ret CacheNotTyped
      | Some cachedModels =>
          let models := if hasApiKey then cachedModels
                        else List.filter isFreeModel cachedModels in
          registerModels models ;;;
          trackFreeModels env previousFreeIds true
      end
  | _ =>
      (* Cold start: no cache exists. Blocking fetch with a short timeout. *)
      models <- fetchFreshModels hasApiKey (Some COLD_START_TIMEOUT_MS) net ;;
      match models with
      | Some (model :: rest) =>
          registerModels (model :: rest) ;;;
          saveFreeModelIds (freeIdsOf (model :: rest)) ;;;
          trackFreeModels env previousFreeIds false
      | _ =>
          consoleError providerNotRegistered ;;;
          ret NotRegistered
      end
  end.

(** The background refresh of the fast path: [fetchFreshModels(hasApiKey)]
    without a deadline and its [.then] callback. It runs after the
    synchronous part of [default] has finished. *)
Definition backgroundRefresh (env : Env) (net : Net) : M unit :=
  freshModels <- fetchFreshModels (hasApiKeyOf env) None net ;;
  match freshModels with
  | Some (model :: rest) =>
      (* Re-register with fresh models *)
      registerModels (model :: rest) ;;;
      saveFreeModelIds (freeIdsOf (model :: rest))
  | _ => ret tt
  end.

(** One process lifetime: the default export, then the background refresh
    when one was launched. *)
Definition session (env : Env) (net : Net) : M Outcome :=
  outcome <- default env net ;;
  match outcome with
  | Started _ _ _ true => backgroundRefresh env net ;;; ret outcome
  | _ => ret outcome
  end.

(** ** Dispatch: [streamOpenCodeZen] *)

Definition ZEN_BASE_URL : string := "https://opencode.ai/zen/v1".

(** The fields of [Model<Api>] the function reads. *)
Record Model : Type := mkModel {
  model_id : string;
  model_api : string;
  model_provider : string
}.

Record SimpleStreamOptions : Type := mkOptions {
  apiKey : option string
}.

Record Usage : Type := mkUsage {
  u_input : Z;
  u_output : Z;
  u_cacheRead : Z;
  u_cacheWrite : Z;
  u_totalTokens : Z;
  u_cost : Cost;
  u_cost_total : Js.number
}.

(** The assistant message carried by an error event. *)
Record AssistantMessage : Type := mkAssistantMessage {
  am_role : string;
  am_content : list string;
  am_api : string;
  am_provider : string;
  am_model : string;
  am_usage : Usage;
  am_stopReason : string;
  am_errorMessage : string;
  am_timestamp : Z
}.

Section Dispatch.

(** The conversation context and the events of the backend streams are
    the host library's; so are the four stream functions. A backend
    stream yields some events and then either finishes or throws. *)
Variables Context Event : Type.

Record Request : Type := mkRequest {
  req_model : Model;
  req_baseUrl : string;
  req_context : Context;
  req_apiKey : option string
}.

Record InnerStream : Type := mkInnerStream {
  yielded : list Event;
  thrown : option string
}.

Variables streamSimpleAnthropic streamSimpleOpenAIResponses
          streamSimpleGoogle streamSimpleOpenAICompletions
          : Request -> InnerStream.

(** [Date.now()] at the moment the error event is built. *)
Variable now : Z.

Inductive StreamEvent : Type :=
| Forwarded (event : Event)
| ErrorEvent (reason : string) (error : AssistantMessage).

(** The stream handed back to the caller, once the asynchronous body has
    run, and the calls that body made to a backend. *)
Record Dispatch : Type := mkDispatch {
  events : list StreamEvent;
  ended : bool;
  calls : list (Backend * Request)
}.

Definition getStreamFunction (backend : Backend) : Request -> InnerStream :=
  match backend with
  | anthropic => streamSimpleAnthropic
  | openai_responses => streamSimpleOpenAIResponses
  | google => streamSimpleGoogle
  | openai_completions => streamSimpleOpenAICompletions
  end.

Definition unknownModel (model : Model) : string :=
  String.append "Unknown model: " (model_id model).

Definition noApiKey : string :=
  "No OpenCode API key. Set OPENCODE_API_KEY env var. (This model requires an API key.)".

(** The event pushed by the [catch]. *)
Definition errorEvent (model : Model) (errorMessage : string) : StreamEvent :=
  ErrorEvent "error"
    {| am_role := "assistant";
       am_content := [];
       am_api := model_api model;
       am_provider := model_provider model;
       am_model := model_id model;
       am_usage := {| u_input := 0; u_output := 0; u_cacheRead := 0;
                      u_cacheWrite := 0; u_totalTokens := 0;
                      u_cost := mkCost 0%Q 0%Q 0%Q 0%Q; u_cost_total := 0%Q |};
       am_stopReason := "error";
       am_errorMessage := errorMessage;
       am_timestamp := now |}.

(** The [try] block up to the choice of the backend: the two checks. *)
Definition route (map_ : list (string * ModelConfig)) (model : Model)
    (context : Context) (options : option SimpleStreamOptions)
    : Result (Backend * Request) :=
  let apiKey_ := Js.chain options apiKey in
  match JsMap.get map_ (model_id model) with
  | None => Throw (unknownModel model)
  | Some cfg =>
      (* Check if API key is required for this model *)
      let isFreeModel_ := isFreeModel cfg in
      if negb (Js.truthyStr apiKey_) && negb isFreeModel_ then Throw noApiKey
      else Ok (mc_backend cfg,
               {| req_model := model; req_baseUrl := ZEN_BASE_URL;
                  req_context := context; req_apiKey := apiKey_ |})
  end.

Definition streamOpenCodeZen (map_ : list (string * ModelConfig)) (model : Model)
    (context : Context) (options : option SimpleStreamOptions) : Dispatch :=
  match route map_ model context options with
  | Throw message =>
      {| events := [errorEvent model message]; ended := true; calls := [] |}
  | Ok (backend, request) =>
      let innerStream := getStreamFunction backend request in
      {| events :=
           map Forwarded (yielded innerStream)
           ++ match thrown innerStream with
              | Some message => [errorEvent model message]
              | None => []
              end;
         ended := true;
         calls := [(backend, request)] |}
  end.

End Dispatch.

Arguments mkRequest {Context}.
Arguments req_model {Context}.
Arguments req_baseUrl {Context}.
Arguments req_context {Context}.
Arguments req_apiKey {Context}.
Arguments mkInnerStream {Event}.
Arguments yielded {Event}.
Arguments thrown {Event}.
Arguments Forwarded {Event}.
Arguments ErrorEvent {Event}.
Arguments events {Context Event}.
Arguments ended {Context Event}.
Arguments calls {Context Event}.
Arguments getStreamFunction {Context Event}.
Arguments errorEvent {Event}.
Arguments route {Context}.
Arguments streamOpenCodeZen {Context Event}.

(** ** The change notification and the event handlers *)

(** What a handler's [ctx] offers: [ctx.hasUI], and whether
    [ctx.ui.setWidget] and [ctx.ui.notify] exist. *)
Record Ctx : Type := mkCtx {
  hasUI : bool;
  ui_setWidget : bool;
  ui_notify : bool
}.

(** The interface as the module drives it: the content of the widget
    [opencode-zen-info], the module-level [widgetDismissTimeout], the
    timers armed by [setTimeout] and not yet fired or cleared (each with
    the [ctx] its callback closes over), the next timer handle, the
    warnings sent through [ctx.ui.notify] and those sent to
    [console.warn]. *)
Record Ui : Type := mkUi {
  widget : option (list string);
  widgetDismissTimeout : option nat;
  timers : list (nat * Ctx);
  nextTimer : nat;
  notified : list string;
  warned : list string
}.

Definition initialUi : Ui :=
  {| widget := None; widgetDismissTimeout := None; timers := [];
     nextTimer := 0; notified := []; warned := [] |}.

(** [clearTimeout(handle)]. *)
Definition clearTimeout (handle : nat) (ui : Ui) : Ui :=
  {| widget := widget ui; widgetDismissTimeout := widgetDismissTimeout ui;
     timers := List.filter (fun t => negb (Nat.eqb (fst t) handle)) (timers ui);
     nextTimer := nextTimer ui; notified := notified ui; warned := warned ui |}.

Definition clearWidgetNotification (ctx : Ctx) (ui : Ui) : Ui :=
  let ui1 :=
    match widgetDismissTimeout ui with
    | Some handle =>
        let ui' := clearTimeout handle ui in
        {| widget := widget ui'; widgetDismissTimeout := None;
           timers := timers ui'; nextTimer := nextTimer ui';
           notified := notified ui'; warned := warned ui' |}
    | None => ui
    end in
  if ui_setWidget ctx then
    {| widget := None; widgetDismissTimeout := widgetDismissTimeout ui1;
       timers := timers ui1; nextTimer := nextTimer ui1;
       notified := notified ui1; warned := warned ui1 |}
  else ui1.

Definition notificationTitle : string :=
  "OpenCode Zen: Free model availability changed".

Definition notificationFooter : string :=
  "(Dismisses in 10 seconds or on next interaction)".

(** The [lines] array of [showFreeModelChangeNotification], push by push. *)
Definition notificationLines (added_ removed_ : list string) : list string :=
  let lines := [notificationTitle] in
  let lines :=
    if nonEmpty added_
    then (lines ++ [""] ++ ["Added:"]) ++ map (String.append "  + ") added_
    else lines in
  let lines :=
    if nonEmpty removed_
    then (lines ++ [""] ++ ["Removed:"]) ++ map (String.append "  - ") removed_
    else lines in
  lines ++ [""] ++ [notificationFooter].

Definition showFreeModelChangeNotification (ctx : Ctx)
    (added_ removed_ : list string) (ui : Ui) : Ui :=
  if negb (ui_setWidget ctx) then ui
  else
    let lines := notificationLines added_ removed_ in
    (* Auto-dismiss after 10 seconds *)
    let ui1 :=
      match widgetDismissTimeout ui with
      | Some handle => clearTimeout handle ui
      | None => ui
      end in
    {| widget := Some lines;
       widgetDismissTimeout := Some (nextTimer ui1);
       timers := timers ui1 ++ [(nextTimer ui1, ctx)];
       nextTimer := S (nextTimer ui1);
       notified := notified ui1; warned := warned ui1 |}.

(** The timer with this handle fires, if it is still armed: its callback
    is [clearWidgetNotification(ctx)]. *)
Definition fireTimer (handle : nat) (ui : Ui) : Ui :=
  match List.find (fun t => Nat.eqb (fst t) handle) (timers ui) with
  | Some (_, ctx) => clearWidgetNotification ctx (clearTimeout handle ui)
  | None => ui
  end.

(** The state the handlers installed by the default export share: the
    [notificationShown] flag of the closure and the interface. *)
Record Handlers : Type := mkHandlers {
  notificationShown : bool;
  ui : Ui
}.

(** The handler installed on both [input] and [session_start] when the
    notification is armed. *)
Definition notifyHandler (added_ removed_ : list string) (ctx : Ctx)
    (h : Handlers) : Handlers :=
  if negb (notificationShown h) && hasUI ctx then
    {| notificationShown := true;
       ui := showFreeModelChangeNotification ctx added_ removed_ (ui h) |}
  else h.

(** The last [input] handler: dismiss the widget on user input. *)
Definition dismissHandler (ctx : Ctx) (h : Handlers) : Handlers :=
  {| notificationShown := notificationShown h;
     ui := clearWidgetNotification ctx (ui h) |}.

Definition noLongerAvailable (modelId : string) : string :=
  String.append "Model " (String.append modelId " is no longer available in OpenCode Zen").

Definition selectedNoLongerAvailable (modelId : string) : string :=
  String.append "Selected model "
    (String.append modelId " is no longer available in OpenCode Zen").

(** The [model_select] handler, over the published map. *)
Definition modelSelectHandler (map_ : list (string * ModelConfig)) (model : Model)
    (ctx : Ctx) (ui_ : Ui) : Ui :=
  let modelId := model_id model in
  if negb (String.eqb (model_provider model) "opencode") then ui_
  else if negb (JsMap.has map_ modelId) then
    if ui_notify ctx then
      {| widget := widget ui_; widgetDismissTimeout := widgetDismissTimeout ui_;
         timers := timers ui_; nextTimer := nextTimer ui_;
         notified := notified ui_ ++ [noLongerAvailable modelId];
         warned := warned ui_ |}
    else
      {| widget := widget ui_; widgetDismissTimeout := widgetDismissTimeout ui_;
         timers := timers ui_; nextTimer := nextTimer ui_;
         notified := notified ui_;
         warned := warned ui_ ++ [selectedNoLongerAvailable modelId] |}
  else ui_.

(** What can happen to the interface after start-up. *)
Inductive UiEvent : Type :=
| ShowNotification (ctx : Ctx) (added_ removed_ : list string)
| ClearWidget (ctx : Ctx)
| FireTimer (handle : nat).

Definition uiStep (ui_ : Ui) (e : UiEvent) : Ui :=
  match e with
  | ShowNotification ctx added_ removed_ =>
      showFreeModelChangeNotification ctx added_ removed_ ui_
  | ClearWidget ctx => clearWidgetNotification ctx ui_
  | FireTimer handle => fireTimer handle ui_
  end.

(** At most one dismiss timer is armed, it is the one remembered in
    [widgetDismissTimeout], and its callback holds a [ctx] that can set the
    widget. *)
Definition oneTimer (ui_ : Ui) : Prop :=
  (timers ui_ = [] /\ widgetDismissTimeout ui_ = None)
  \/ exists handle ctx,
       timers ui_ = [(handle, ctx)]
       /\ widgetDismissTimeout ui_ = Some handle
       /\ ui_setWidget ctx = true.

(** ** The specification's own notions *)

Module Spec.

(** The four routing hints the specification knows, with their backends
    (the table of the README). *)
Definition knownHint (hint : string) : option Backend :=
  if String.eqb hint "@ai-sdk/anthropic" then Some anthropic
  else if String.eqb hint "@ai-sdk/openai" then Some openai_responses
  else if String.eqb hint "@ai-sdk/google" then Some google
  else if String.eqb hint "@ai-sdk/openai-compatible" then Some openai_completions
  else None.

Definition genericDefault : Backend := openai_completions.

(** A hint is omitted when the entry has none. *)
Definition omitted (hint : option string) : bool :=
  match hint with
  | Some _ => false
  | None => true
  end.

(** "map its routing hint (falling back to the provider-level default,
    then to a generic default backend) to one of the fixed backend enum
    values via exact string match on four known hint values, else the
    generic default". *)
Definition backendOf (entryHint providerDefault : option string) : Backend :=
  let hint := if omitted entryHint then providerDefault else entryHint in
  match hint with
  | Some h =>
      match knownHint h with
      | Some b => b
      | None => genericDefault
      end
  | None => genericDefault
  end.

(** "the generic default backend, inputModalities = {text}, all costs 0,
    context window 128000, max output tokens 16384, display name equal to
    the id", reasoning false. *)
Definition hasDefaults (modelId : string) (r : ModelConfig) : Prop :=
  mc_id r = modelId
  /\ mc_name r = modelId
  /\ mc_backend r = genericDefault
  /\ mc_reasoning r = false
  /\ mc_input r = [text]
  /\ mc_cost r = mkCost 0%Q 0%Q 0%Q 0%Q
  /\ mc_contextWindow r = 128000%Q
  /\ mc_maxTokens r = 16384%Q.

(** "current minus previous", in the order of the first sequence. *)
Definition minus (l1 l2 : list string) : list string :=
  filter (fun x => x ∉ l2) l1.

Definition idSet (l : list string) : gset string := list_to_set l.

(** "Never contains an identifier absent from the most recent authoritative
    fetch (or, in fallback, the most recent cached authoritative list)":
    every published id is in the authoritative list. *)
Definition onlyListed (published authoritative : list string) : Prop :=
  forall modelId, In modelId published -> In modelId authoritative.

End Spec.

(** ** Concrete data used by the scenarios *)

Module Scenario.

Definition emptyStore : Store :=
  {| zen_models_json := None; models_json := None;
     free_model_ids_json := None; writable := true |}.

Definition noDevModel : DevModel :=
  {| dm_id := None; dm_name := None; dm_cost := None; dm_limit := None;
     dm_reasoning := None; dm_attachment := None; dm_tool_call := None;
     dm_modalities := None; dm_provider := None |}.

(** [m1] priced at input 0.01, output 0.03, no routing hint of its own. *)
Definition paid (i : string) : DevModel :=
  {| dm_id := Some i; dm_name := Some i;
     dm_cost := Some {| dc_input := Some (Js.Finite (1 # 100));
                          dc_output := Some (Js.Finite (3 # 100));
                        dc_cache_read := None; dc_cache_write := None |};
     dm_limit := None; dm_reasoning := None; dm_attachment := None;
     dm_tool_call := None; dm_modalities := None; dm_provider := None |}.

(** Scenario B: the enrichment knows [m1] only, and the provider-level
    default hint is the anthropic one. *)
Definition enrichmentB : option OpencodeData :=
  Some {| od_models := Some {[ "m1" := paid "m1" ]};
          od_provider := Some {| dp_npm := Some "@ai-sdk/anthropic"; dp_api := None |} |}.

(** An entry filed under [m1] that calls itself [ghost]. *)
Definition enrichmentRenamed : option OpencodeData :=
  Some {| od_models :=
            Some {[ "m1" := {| dm_id := Some "ghost"; dm_name := Some "Ghost";
                               dm_cost := None; dm_limit := None;
                               dm_reasoning := None; dm_attachment := None;
                               dm_tool_call := None; dm_modalities := None;
                               dm_provider := None |} ]};
          od_provider := None |}.

Definition zenEntry (i : string) : ZenEntry :=
  {| ze_id := i; ze_object := "model"; ze_created := 0; ze_owned_by := "opencode" |}.

Definition zenAnswers (ids : list string) : Endpoint ZenPayload :=
  Responds 100 true (Some (ZenValue (DataArray (map zenEntry ids)))).

Definition devAnswers (data : option OpencodeData) : Endpoint DevPayload :=
  Responds 100 true (Some (DevValue data)).

Definition offline : Net :=
  {| ZEN_MODELS_URL := Unreachable; MODELS_API_URL := Unreachable |}.

Definition withKey : Env :=
  {| OPENCODE_API_KEY := Some "sk-test-key"; notify_free_model_changes := None |}.

Definition withoutKey : Env :=
  {| OPENCODE_API_KEY := None; notify_free_model_changes := None |}.

(** Zen answers in time, with a well-formed body whose [data] is the empty
    array; models.dev is not reachable. *)
Definition zenListsNothing : Net :=
  {| ZEN_MODELS_URL := zenAnswers []; MODELS_API_URL := Unreachable |}.

(** Zen answers [{"object": "list"}]: no [data] field. *)
Definition zenWithoutData : Net :=
  {| ZEN_MODELS_URL := Responds 100 true (Some (ZenValue DataMissing));
     MODELS_API_URL := Unreachable |}.

(** A registry as Scenario C has it: [m1] paid, [m2] free. *)
Definition registryC : list ModelConfig :=
  mergeLoop enrichmentB ["m1"; "m2"].

Definition publishedC : list (string * ModelConfig) :=
  MODEL_MAP (exec (registerModels registryC) (initialWorld emptyStore)).

Definition request (i : string) : Model :=
  {| model_id := i; model_api := "opencode-api"; model_provider := "opencode" |}.

(** A backend that yields one event and finishes. *)
Definition echo (r : Request unit) : InnerStream string :=
  {| yielded := [model_id (req_model r)]; thrown := None |}.

(** Zen lists [p1] only and models.dev prices it. *)
Definition onlyPaid : Net :=
  {| ZEN_MODELS_URL := zenAnswers ["p1"];
     MODELS_API_URL :=
       devAnswers (Some {| od_models := Some {[ "p1" := paid "p1" ]};
                           od_provider := None |}) |}.

(** Zen lists [m1]; the models.dev entry filed under [m1] calls itself
    [ghost]. *)
Definition renamedEntry : Net :=
  {| ZEN_MODELS_URL := zenAnswers ["m1"];
     MODELS_API_URL := devAnswers enrichmentRenamed |}.

(** The cache a cold start leaves after Zen listed the single id [f1] and
    models.dev was not reachable. *)
Definition freeStore : Store :=
  {| zen_models_json := Some (Document ["f1"]);
     models_json := Some (Document (JSON.stringify [defaultModel "f1"]));
     free_model_ids_json := Some (Document ["f1"]);
     writable := true |}.

Definition onlyFree : Net :=
  {| ZEN_MODELS_URL := zenAnswers ["f1"]; MODELS_API_URL := Unreachable |}.

(** The cache a cold start with a key leaves after Zen listed [m1] and
    models.dev filed under [m1] an entry that calls itself [ghost]. *)
Definition ghostStore : Store :=
  {| zen_models_json := Some (Document ["m1"]);
     models_json :=
       Some (Document (JSON.stringify (mergeLoop enrichmentRenamed ["m1"])));
     free_model_ids_json := Some (Document ["ghost"]);
     writable := true |}.

(** An entry with a name and an image attachment, nothing else. *)
Definition vision : DevModel :=
  {| dm_id := None; dm_name := Some "Vision"; dm_cost := None; dm_limit := None;
     dm_reasoning := None; dm_attachment := Some true; dm_tool_call := None;
     dm_modalities := None; dm_provider := None |}.

Definition enrichmentVision : option OpencodeData :=
  Some {| od_models := Some {[ "v1" := vision ]}; od_provider := None |}.

(** Zen answers after five seconds. *)
Definition zenSlow : Net :=
  {| ZEN_MODELS_URL :=
       Responds 5000 true (Some (ZenValue (DataArray [zenEntry "m1"])));
     MODELS_API_URL := Unreachable |}.

(** Both sources answer at once; models.dev knows [m1] (paid). *)
Definition bothAnswer : Net :=
  {| ZEN_MODELS_URL := zenAnswers ["m1"; "m2"];
     MODELS_API_URL := devAnswers enrichmentB |}.

(** Zen answers, models.dev answers with a server error. *)
Definition devDown : Net :=
  {| ZEN_MODELS_URL := zenAnswers ["m1"; "m2"];
     MODELS_API_URL := Responds 100 false None |}.

Definition readOnlyStore : Store :=
  {| zen_models_json := None; models_json := None;
     free_model_ids_json := None; writable := false |}.

(** A cache that holds the paid [m1] only, and a snapshot from the time it
    was free. *)
Definition paidStore : Store :=
  {| zen_models_json := Some (Document ["m1"]);
     models_json := Some (Document (JSON.stringify [buildModel enrichmentB "m1"]));
     free_model_ids_json := Some (Document ["m1"]);
     writable := true |}.

Definition interactive : Ctx :=
  {| hasUI := true; ui_setWidget := true; ui_notify := true |}.

(** A context that reports a user interface but offers no widget. *)
Definition noWidget : Ctx :=
  {| hasUI := true; ui_setWidget := false; ui_notify := false |}.

Definition freshHandlers : Handlers :=
  {| notificationShown := false; ui := initialUi |}.

(** [m1] carries the empty string as routing hint, under the anthropic
    provider-level default. *)
Definition enrichmentEmptyHint : option OpencodeData :=
  Some {| od_models :=
            Some {[ "m1" := {| dm_id := Some "m1"; dm_name := Some "m1";
                               dm_cost := None; dm_limit := None;
                               dm_reasoning := None; dm_attachment := None;
                               dm_tool_call := None; dm_modalities := None;
                               dm_provider :=
                                 Some {| dp_npm := Some ""; dp_api := None |} |} ]};
          od_provider := Some {| dp_npm := Some "@ai-sdk/anthropic"; dp_api := None |} |}.

(** models.dev gives [m1] a context limit out of range ([1e999]). *)
Definition enrichmentInfinite : option OpencodeData :=
  Some {| od_models :=
            Some {[ "m1" := {| dm_id := Some "m1"; dm_name := Some "m1";
                               dm_cost := None;
                               dm_limit := Some {| dl_context := Some (Js.Infinity false);
                                                   dl_output := None |};
                               dm_reasoning := None; dm_attachment := None;
                               dm_tool_call := None; dm_modalities := None;
                               dm_provider := None |} ]};
          od_provider := None |}.

End Scenario.

(** ** Properties of the merge *)

Lemma mergeLoop_from (data : option OpencodeData) (ids : list string)
    (acc : list ModelConfig) :
  fold_left (fun models modelId => models ++ [buildModel data modelId]) ids acc
  = acc ++ map (buildModel data) ids.
Proof.
  revert acc. induction ids as [|i ids IH]; intros acc; simpl.
  - now rewrite app_nil_r.
  - rewrite IH. now rewrite <- app_assoc.
Qed.

Lemma mergeLoop_map (data : option OpencodeData) (ids : list string) :
  mergeLoop data ids = map (buildModel data) ids.
Proof. unfold mergeLoop. now rewrite mergeLoop_from. Qed.

Lemma buildModels_eval (ids : list string) (data : option OpencodeData)
    (hasApiKey : bool) (w : World) :
  eval (buildModels ids data hasApiKey) w
  = if hasApiKey then mergeLoop data ids
    else List.filter isFreeModel (mergeLoop data ids).
Proof.
  unfold eval, buildModels, bind, saveModelsToCache, writeFileSync, consoleError, modify, ret.
  destruct (writable (disk w)), hasApiKey; reflexivity.
Qed.


Lemma orElse_own_key (o : option string) (modelId : string) :
  o = None \/ o = Some "" \/ o = Some modelId -> Js.orElse o modelId = modelId.
Proof.
  intros [-> | [-> | ->]]; simpl; trivial.
  unfold Js.truthy. now destruct (String.eqb modelId "").
Qed.


Lemma mergeLoop_ids (ids : list string) (data : option OpencodeData) :
  (forall modelId devModel,
      In modelId ids -> devModelOf data modelId = Some devModel ->
      dm_id devModel = None \/ dm_id devModel = Some ""
      \/ dm_id devModel = Some modelId) ->
  forall l, (forall x, In x l -> In x ids) ->
            map (fun x => mc_id (buildModel data x)) l = l.
Proof.
  intros Hkeys. induction l as [|x l IH]; intros Hin; simpl; trivial.
  f_equal.
  - unfold buildModel.
    destruct (devModelOf data x) as [dm|] eqn:E; [|reflexivity].
    simpl. apply orElse_own_key. apply (Hkeys x dm); [apply Hin; now left | exact E].
  - apply IH. intros y Hy. apply Hin. now right.
Qed.




Lemma defaultModel_hasDefaults (modelId : string) :
  Spec.hasDefaults modelId (defaultModel modelId).
Proof. repeat split. Qed.

Lemma defaultModel_free (modelId : string) : isFreeModel (defaultModel modelId) = true.
Proof. reflexivity. Qed.

Lemma filter_all {A : Type} (p : A -> bool) (l : list A) :
  (forall a, In a l -> p a = true) -> List.filter p l = l.
Proof.
  induction l as [|a l IH]; intros H; simpl; trivial.
  rewrite (H a (or_introl eq_refl)). f_equal. apply IH.
  intros b Hb. apply H. now right.
Qed.

Lemma buildModel_absent (modelId : string) : buildModel None modelId = defaultModel modelId.
Proof. reflexivity. Qed.

(** The default branch: an id for which the property lookup finds nothing
    gets the default record (generic backend, text only, all four costs 0,
    context window 128000, max output 16384, no reasoning, named after the
    id); with the enrichment absent [buildModels] returns, with or without
    credential, one such record per id, each of them free. *)
Theorem buildModel_defaults :
  (forall data modelId,
      devModelOf data modelId = None ->
      Spec.hasDefaults modelId (buildModel data modelId))
  /\ (forall ids hasApiKey w,
      let models := eval (buildModels ids None hasApiKey) w in
      models = map defaultModel ids
      /\ length models = length ids
      /\ Forall2 Spec.hasDefaults ids models
      /\ Forall (fun r => isFreeModel r = true) models).
Proof.
  split.
  - intros data modelId Hnone. unfold buildModel. rewrite Hnone.
    apply defaultModel_hasDefaults.
  - intros ids hasApiKey w models.
    assert (Hm : models = map defaultModel ids).
    { unfold models. rewrite buildModels_eval, mergeLoop_map.
      destruct hasApiKey; [reflexivity|].
      apply filter_all. intros r Hr. apply in_map_iff in Hr.
      destruct Hr as (i & <- & _). reflexivity. }
    rewrite Hm. clear Hm models.
    split; [reflexivity|]. split; [apply length_map|]. split.
    + induction ids as [|i ids IH]; simpl; constructor.
      * apply defaultModel_hasDefaults.
      * apply IH.
    + apply Forall_forall. intros r Hr. apply list_elem_of_In, in_map_iff in Hr.
      destruct Hr as (i & <- & _). reflexivity.
Qed.

(** Scenario A through the theorem: ids [m1], [m2], enrichment absent. *)
Lemma buildModel_defaults_witness :
  Spec.hasDefaults "m2" (buildModel Scenario.enrichmentB "m2")
  /\ eval (buildModels ["m1"; "m2"] None false) (initialWorld Scenario.emptyStore)
     = [defaultModel "m1"; defaultModel "m2"].
Proof.
  split.
  - apply (proj1 buildModel_defaults). vm_compute. reflexivity.
  - apply (proj2 buildModel_defaults ["m1"; "m2"] false).
Defined.

(** C6 at the failing input: the [models] object of models.dev is empty,
    so no id has an enrichment entry, and Zen lists the ids [constructor]
    and [__proto__]. The property lookup of line 235 finds what every object
    inherits under these keys, and the loop takes the enrichment branch:
    the record of [constructor] is named [Object] and both records are
    routed by the provider-level hint to the anthropic backend, where the
    default record is named after the id and has the generic backend. An id
    that no object inherits, [m1], gets the default record from the same
    document. *)
Theorem inherited_member_is_enriched :
  let models : gmap string DevModel := ∅ in
  let provider := Some {| dp_npm := Some "@ai-sdk/anthropic"; dp_api := None |} in
  let data := Some {| od_models := Some models; od_provider := provider |} in
  models !! "constructor" = None
  /\ models !! "__proto__" = None
  /\ mc_name (buildModel data "constructor") = "Object"
  /\ mc_backend (buildModel data "constructor") = anthropic
  /\ mc_backend (buildModel data "__proto__") = anthropic
  /\ ~ Spec.hasDefaults "constructor" (buildModel data "constructor")
  /\ ~ Spec.hasDefaults "__proto__" (buildModel data "__proto__")
  /\ buildModel data "m1" = defaultModel "m1"
  /\ map mc_backend
       (eval (buildModels ["constructor"; "__proto__"; "m1"] data false)
             (initialWorld Scenario.emptyStore))
     = [anthropic; anthropic; openai_completions].
Proof.
  cbv zeta. repeat split; try reflexivity.
  - intros (_ & Hname & _). vm_compute in Hname. discriminate Hname.
  - intros (_ & _ & Hbackend & _). vm_compute in Hbackend. discriminate Hbackend.
Qed.

Lemma getBackend_spec (npmPackage defaultBackend : option string) :
  npmPackage <> Some "" ->
  getBackendFromNpmPackage npmPackage defaultBackend
  = Spec.backendOf npmPackage defaultBackend.
Proof.
  unfold getBackendFromNpmPackage, Spec.backendOf, Spec.omitted, Spec.knownHint,
    Spec.genericDefault, Js.truthyStr, Js.truthy, Js.strictEq.
  intros Hne. destruct npmPackage as [p|]; simpl.
  - destruct (String.eqb_spec p "") as [-> | Hp]; [congruence|]. simpl.
    repeat match goal with |- context [String.eqb p ?s] => destruct (String.eqb p s) end;
      trivial.
  - destruct defaultBackend as [d|]; trivial.
    repeat match goal with |- context [String.eqb d ?s] => destruct (String.eqb d s) end;
      trivial.
Qed.

Lemma getBackend_empty (defaultBackend : option string) :
  getBackendFromNpmPackage (Some "") defaultBackend
  = Spec.backendOf None defaultBackend.
Proof.
  unfold getBackendFromNpmPackage, Spec.backendOf, Spec.omitted, Spec.knownHint,
    Spec.genericDefault, Js.truthyStr, Js.truthy, Js.strictEq. simpl.
  destruct defaultBackend as [d|]; trivial.
  repeat match goal with |- context [String.eqb d ?s] => destruct (String.eqb d s) end;
    trivial.
Qed.

Lemma isZero_false_of_pos (n : Js.numberOrNull) : Js.positive n -> Js.isZero n = false.
Proof.
  destruct n as [[q | negative]|]; simpl; trivial.
  unfold Qlt. simpl. intros H. apply Z.eqb_neq. lia.
Qed.

Lemma buildModel_own_entry (models : gmap string DevModel)
    (provider : option DevProvider) (modelId : string) (devModel : DevModel) :
  models !! modelId = Some devModel ->
  buildModel (Some {| od_models := Some models; od_provider := provider |}) modelId
  = enrichedModel (match provider with Some p => dp_npm p | None => None end)
                  modelId devModel.
Proof.
  intros Hentry. unfold buildModel, devModelOf, getProperty, providerDefaultNpm.
  simpl. rewrite Hentry. now destruct provider.
Qed.

(** C7, as the code has it: for every entry of the [models] object, the
    backend of its record is the specification's mapping (exact match on
    the four known hints, else the generic default) of the entry's own
    [provider.npm]; when the entry has none, or has the empty string, the
    document's provider-level [provider.npm] stands in for it, and the
    generic default when there is none either. An entry without hint under
    the anthropic provider-level hint gets the anthropic backend, and a
    record whose input and output costs are both positive is not free. *)
Theorem enriched_backend :
  (forall (models : gmap string DevModel) (provider : option DevProvider)
          (modelId : string) (devModel : DevModel),
      models !! modelId = Some devModel ->
      let r := buildModel (Some {| od_models := Some models; od_provider := provider |})
                 modelId in
      let entryHint :=
        match dm_provider devModel with Some p => dp_npm p | None => None end in
      let providerHint := match provider with Some p => dp_npm p | None => None end in
      (entryHint <> Some "" -> mc_backend r = Spec.backendOf entryHint providerHint)
      /\ (entryHint = Some "" -> mc_backend r = Spec.backendOf None providerHint)
      /\ (entryHint = None -> providerHint = Some "@ai-sdk/anthropic" ->
          mc_backend r = anthropic))
  /\ (forall r : ModelConfig,
      Js.positive (c_input (mc_cost r)) -> Js.positive (c_output (mc_cost r)) ->
      isFreeModel r = false).
Proof.
  split.
  - intros models provider modelId devModel Hentry r entryHint providerHint.
    unfold r. rewrite (buildModel_own_entry models provider modelId devModel Hentry).
    unfold enrichedModel. cbn [mc_backend]. fold providerHint.
    assert (Hhint : Js.chain (dm_provider devModel) dp_npm = entryHint).
    { unfold entryHint. now destruct (dm_provider devModel). }
    rewrite Hhint. split; [|split].
    + apply getBackend_spec.
    + intros ->. apply getBackend_empty.
    + intros -> ->. reflexivity.
  - intros r Hi _. unfold isFreeModel. now rewrite (isZero_false_of_pos _ Hi).
Qed.

(** Scenario B, through the theorem: [m1] priced 0.01 / 0.03, no hint of
    its own, anthropic default. *)
Lemma enriched_backend_witness :
  mc_backend (buildModel Scenario.enrichmentB "m1") = anthropic
  /\ isFreeModel (buildModel Scenario.enrichmentB "m1") = false.
Proof.
  destruct enriched_backend as (Hb & Hf). split.
  - apply (Hb {[ "m1" := Scenario.paid "m1" ]}
              (Some {| dp_npm := Some "@ai-sdk/anthropic"; dp_api := None |})
              "m1" (Scenario.paid "m1")); vm_compute; reflexivity.
  - apply Hf; vm_compute; reflexivity.
Defined.

(** C7 as stated fails for an entry whose routing hint is the empty string:
    the entry does carry a hint, it matches none of the four known values,
    and the statement gives the generic default; the code treats it as
    missing and takes the provider-level default, here anthropic. *)
Lemma enriched_backend_counterexample :
  mc_backend (buildModel Scenario.enrichmentEmptyHint "m1") = anthropic
  /\ Spec.backendOf (Some "") (Some "@ai-sdk/anthropic") = openai_completions
  /\ mc_backend (buildModel Scenario.enrichmentEmptyHint "m1")
     <> Spec.backendOf (Some "") (Some "@ai-sdk/anthropic").
Proof.
  split; [vm_compute; reflexivity|]. split; [reflexivity|].
  vm_compute. discriminate.
Qed.

(** ** The free-model diff *)

Lemma includes_elem_of (l : list string) (x : string) :
  Js.includes l x = true <-> x ∈ l.
Proof.
  induction l as [|y l IH]; simpl.
  - split; [discriminate | intros H; inversion H].
  - rewrite elem_of_cons. destruct (String.eqb_spec y x) as [-> | Hne].
    + split; auto.
    + rewrite IH. split; [auto | intros [-> | H]; [contradiction | exact H]].
Qed.

Lemma includes_false (l : list string) (x : string) :
  Js.includes l x = false <-> x ∉ l.
Proof.
  rewrite <- includes_elem_of. destruct (Js.includes l x); split; congruence.
Qed.

Lemma filter_not_includes (l1 l2 : list string) :
  List.filter (fun id => negb (Js.includes l2 id)) l1 = Spec.minus l1 l2.
Proof.
  unfold Spec.minus. induction l1 as [|x l1 IH]; simpl; trivial.
  rewrite filter_cons, IH.
  destruct (Js.includes l2 x) eqn:E; simpl.
  - apply includes_elem_of in E. now rewrite decide_False by auto.
  - apply includes_false in E. now rewrite decide_True.
Qed.

(** C5: [added] is the current sequence without the ids of the previous
    one, [removed] the previous sequence without the ids of the current
    one, each in the order of its source; the two are disjoint, [added]
    with the common ids makes up the current set and [removed] with the
    common ids the previous set. *)
Theorem freeModelDiff (previousFreeIds currentFreeIds : list string) :
  let added_ := added previousFreeIds currentFreeIds in
  let removed_ := removed previousFreeIds currentFreeIds in
  added_ = Spec.minus currentFreeIds previousFreeIds
  /\ removed_ = Spec.minus previousFreeIds currentFreeIds
  /\ Spec.idSet added_ ∩ Spec.idSet removed_ = ∅
  /\ Spec.idSet added_ ∪ (Spec.idSet currentFreeIds ∩ Spec.idSet previousFreeIds)
     = Spec.idSet currentFreeIds
  /\ Spec.idSet removed_ ∪ (Spec.idSet currentFreeIds ∩ Spec.idSet previousFreeIds)
     = Spec.idSet previousFreeIds.
Proof.
  intros added_ removed_. unfold added_, removed_, added, removed.
  rewrite !filter_not_includes. unfold Spec.minus, Spec.idSet.
  split; [reflexivity|]. split; [reflexivity|].
  split; [|split]; apply set_eq; intros x;
    rewrite ?elem_of_intersection, ?elem_of_union, ?elem_of_intersection,
      ?elem_of_list_to_set, ?list_elem_of_filter, ?elem_of_empty.
  - tauto.
  - destruct (decide (x ∈ previousFreeIds)); tauto.
  - destruct (decide (x ∈ currentFreeIds)); tauto.
Qed.

(** Scenario D: the snapshot holds [m2], the run computes [m1]. *)
Example freeModelDiff_scenarioD :
  added ["m2"] ["m1"] = ["m1"] /\ removed ["m2"] ["m1"] = ["m2"].
Proof. split; reflexivity. Qed.

(** ** The authoritative list *)

Lemma zenModelIdsOf_array (timeoutMs : option Z) (net : Net) (latency : Z)
    (entries : list ZenEntry) :
  ZEN_MODELS_URL net = Responds latency true (Some (ZenValue (DataArray entries))) ->
  (forall t, timeoutMs = Some t -> (latency < t)%Z) ->
  zenModelIdsOf timeoutMs net = Some (map ze_id entries).
Proof.
  intros Hurl Hlat. unfold zenModelIdsOf, fetchZenModels, fetchWithTimeout.
  rewrite Hurl. destruct timeoutMs as [t|]; simpl; trivial.
  specialize (Hlat t eq_refl). apply Z.ltb_lt in Hlat. now rewrite Hlat.
Qed.

Lemma zenModelIdsOf_not_array (timeoutMs : option Z) (net : Net) (latency : Z)
    (ok : bool) (data : DataField) :
  ZEN_MODELS_URL net = Responds latency ok (Some (ZenValue data)) ->
  isArray data = false ->
  zenModelIdsOf timeoutMs net = None.
Proof.
  intros Hurl Harr. unfold zenModelIdsOf, fetchZenModels, fetchWithTimeout.
  rewrite Hurl. destruct timeoutMs as [t|]; simpl.
  - destruct (latency <? t)%Z, ok; trivial. rewrite Harr. simpl.
    now rewrite orb_true_r.
  - destruct ok; simpl; trivial. rewrite Harr. simpl. now rewrite orb_true_r.
Qed.

(** The payload check of the authoritative-list step: it fails, with or
    without deadline, whenever the [data] field is missing or is not a
    sequence; for a sequence that arrives in time it returns the ids of the
    entries in order, and for the empty sequence that is the empty id
    list. *)
Theorem listIds_payload (net : Net) (latency : Z) (data : DataField) :
  ZEN_MODELS_URL net = Responds latency true (Some (ZenValue data)) ->
  (isArray data = false ->
   (exists message, fetchZenModels net = Throw message)
   /\ forall timeoutMs, zenModelIdsOf timeoutMs net = None)
  /\ (forall entries, data = DataArray entries ->
      fetchZenModels net = Ok (map ze_id entries)
      /\ zenModelIdsOf None net = Some (map ze_id entries)
      /\ forall t, (latency < t)%Z ->
           zenModelIdsOf (Some t) net = Some (map ze_id entries))
  /\ (data = DataArray [] ->
      fetchZenModels net = Ok []
      /\ forall t, (latency < t)%Z -> zenModelIdsOf (Some t) net = Some []).
Proof.
  intros Hurl. split; [|split].
  - intros Harr. split.
    + unfold fetchZenModels. rewrite Hurl. simpl. rewrite Harr. simpl.
      rewrite orb_true_r. eauto.
    + intros timeoutMs. eapply zenModelIdsOf_not_array; eauto.
  - intros entries ->. split; [|split].
    + unfold fetchZenModels. now rewrite Hurl.
    + apply (zenModelIdsOf_array None net latency entries Hurl). discriminate.
    + intros t Ht. apply (zenModelIdsOf_array (Some t) net latency entries Hurl).
      intros t' [= <-]. exact Ht.
  - intros ->. split.
    + unfold fetchZenModels. now rewrite Hurl.
    + intros t Ht. apply (zenModelIdsOf_array (Some t) net latency [] Hurl).
      intros t' [= <-]. exact Ht.
Qed.

Lemma listIds_payload_witness :
  (exists message, fetchZenModels Scenario.zenWithoutData = Throw message)
  /\ zenModelIdsOf (Some COLD_START_TIMEOUT_MS) Scenario.zenWithoutData = None
  /\ fetchZenModels Scenario.zenListsNothing = Ok [].
Proof.
  split; [|split].
  - apply (listIds_payload Scenario.zenWithoutData 100 DataMissing); reflexivity.
  - apply (listIds_payload Scenario.zenWithoutData 100 DataMissing); reflexivity.
  - apply (listIds_payload Scenario.zenListsNothing 100 (DataArray [])); reflexivity.
Defined.

(** C3 at the failing input: Zen answers [{"data": []}]. Both forms of the
    authoritative-list step return the empty id list where the claim asks
    for a failure. The refresh that follows a warm start from a good cache
    therefore goes on: it overwrites the id-list document and the enriched
    document with empty ones, which the loaders of the same file reject, so
    that the next start finds no cache where it had one. *)
Theorem empty_list_is_not_failure :
  fetchZenModels Scenario.zenListsNothing = Ok []
  /\ zenModelIdsOf None Scenario.zenListsNothing = Some []
  /\ zenModelIdsOf (Some COLD_START_TIMEOUT_MS) Scenario.zenListsNothing = Some []
  /\ (let st := disk (exec (session Scenario.withKey Scenario.zenListsNothing)
                           (initialWorld Scenario.freeStore)) in
      loadZenModelsFromCache Scenario.freeStore = Some ["f1"]
      /\ loadModelsFromCache Scenario.freeStore
         = Some (map JSON.ofModel [defaultModel "f1"])
      /\ zen_models_json st = Some (Document [])
      /\ models_json st = Some (Document (JArr []))
      /\ loadZenModelsFromCache st = None
      /\ loadModelsFromCache st = None).
Proof. cbv zeta. repeat split. Qed.

(** What the empty list then does at start-up: both caches are overwritten
    with empty documents, the emptiness guard of the caller gives up. *)
Example empty_list_cold_start :
  let w := exec (default Scenario.withKey Scenario.zenListsNothing)
                (initialWorld Scenario.emptyStore) in
  eval (default Scenario.withKey Scenario.zenListsNothing)
       (initialWorld Scenario.emptyStore) = NotRegistered
  /\ zen_models_json (disk w) = Some (Document [])
  /\ models_json (disk w) = Some (Document (JArr []))
  /\ MODEL_MAP w = [].
Proof. repeat split. Qed.

(** ** Dispatch *)

Section DispatchProperties.

Variables Context Event : Type.
Variables anthropicFn responsesFn googleFn completionsFn
  : Request Context -> InnerStream Event.
Variable now : Z.

(** C4: the stream handed back is always a finished stream. A model id
    that is not in the published map gives exactly one event, the error
    event saying the model is unknown, and no backend is called; a paid
    record without credential gives exactly one event, the error event
    asking for the API key, and no backend is called; a free record is
    dispatched to its backend whatever the credential. *)
Theorem streamOpenCodeZen_errors (map_ : list (string * ModelConfig))
    (model : Model) (context : Context) (options : option SimpleStreamOptions) :
  let d := streamOpenCodeZen anthropicFn responsesFn googleFn completionsFn now
             map_ model context options in
  let backendFn := getStreamFunction anthropicFn responsesFn googleFn completionsFn in
  let failure := @errorEvent Event now in
  let request :=
    {| req_model := model; req_baseUrl := ZEN_BASE_URL;
       req_context := context; req_apiKey := Js.chain options apiKey |} in
  ended d = true
  /\ (JsMap.get map_ (model_id model) = None ->
      events d = [failure model (unknownModel model)] /\ calls d = [])
  /\ (forall cfg,
      JsMap.get map_ (model_id model) = Some cfg ->
      isFreeModel cfg = false ->
      Js.truthyStr (Js.chain options apiKey) = false ->
      events d = [failure model noApiKey] /\ calls d = [])
  /\ (forall cfg,
      JsMap.get map_ (model_id model) = Some cfg ->
      isFreeModel cfg = true ->
      calls d = [(mc_backend cfg, request)]
      /\ events d
         = map Forwarded (yielded (backendFn (mc_backend cfg) request))
           ++ match thrown (backendFn (mc_backend cfg) request) with
              | Some message => [failure model message]
              | None => []
              end).
Proof.
  intros d backendFn failure request. subst d backendFn failure.
  unfold streamOpenCodeZen, route. fold request.
  destruct (JsMap.get map_ (model_id model)) as [cfg|] eqn:Hget.
  - split.
    { destruct (negb (Js.truthyStr (Js.chain options apiKey)) && negb (isFreeModel cfg));
        reflexivity. }
    split; [discriminate|]. split.
    + intros cfg' [= <-] Hpaid Hkey. rewrite Hpaid, Hkey. simpl. split; reflexivity.
    + intros cfg' [= <-] Hfree. rewrite Hfree, andb_false_r. simpl. split; reflexivity.
  - split; [reflexivity|]. split; [split; reflexivity|].
    split; intros cfg; discriminate.
Qed.

End DispatchProperties.

(** Scenario C's registry published, no credential: the unknown [m3] and
    the paid [m1] are refused on the stream, the free [m2] is served. *)
Lemma streamOpenCodeZen_errors_witness :
  let stream := streamOpenCodeZen Scenario.echo Scenario.echo Scenario.echo
                  Scenario.echo 0 Scenario.publishedC in
  (events (stream (Scenario.request "m3") tt None)
   = [errorEvent 0 (Scenario.request "m3") "Unknown model: m3"]
   /\ calls (stream (Scenario.request "m3") tt None) = [])
  /\ (events (stream (Scenario.request "m1") tt None)
      = [errorEvent 0 (Scenario.request "m1") noApiKey]
      /\ calls (stream (Scenario.request "m1") tt None) = [])
  /\ events (stream (Scenario.request "m2") tt None) = [Forwarded "m2"].
Proof.
  intros stream. split; [|split].
  - apply (streamOpenCodeZen_errors unit string Scenario.echo Scenario.echo
             Scenario.echo Scenario.echo 0 Scenario.publishedC
             (Scenario.request "m3") tt None).
    vm_compute. reflexivity.
  - apply (proj1 (proj2 (proj2 (streamOpenCodeZen_errors unit string Scenario.echo
             Scenario.echo Scenario.echo Scenario.echo 0 Scenario.publishedC
             (Scenario.request "m1") tt None)))
             (buildModel Scenario.enrichmentB "m1"));
      vm_compute; reflexivity.
  - apply (proj2 (proj2 (proj2 (streamOpenCodeZen_errors unit string Scenario.echo
             Scenario.echo Scenario.echo Scenario.echo 0 Scenario.publishedC
             (Scenario.request "m2") tt None)))
             (buildModel Scenario.enrichmentB "m2"));
      vm_compute; reflexivity.
Defined.

(** ** The persisted registry *)

Lemma asModality_name (inp : list Modality) :
  JSON.asAll JSON.asModality (map (fun x => JStr (JSON.modalityName x)) inp) = Some inp.
Proof.
  induction inp as [|x inp IH]; simpl; trivial.
  rewrite IH. now destruct x.
Qed.

Lemma asNumber_ofNumber (n : Js.numberOrNull) :
  JSON.asNumber (Some (JSON.ofNumber n)) = Some (JSON.reloadedNumber n).
Proof. now destruct n as [[q | negative]|]. Qed.

Lemma asModelConfig_ofModel (m : ModelConfig) :
  JSON.asModelConfig (JSON.ofModel m) = Some (JSON.reloaded m).
Proof.
  destruct m as [i n b r inp [ci co cr cw] cwn mt].
  unfold JSON.asModelConfig, JSON.ofModel, JSON.reloaded, JSON.asCost.
  cbn -[JSON.asNumber JSON.ofNumber JSON.reloadedNumber].
  rewrite !asNumber_ofNumber, asModality_name. now destruct b.
Qed.

Lemma asModelConfigs_stringify (models : list ModelConfig) :
  JSON.asModelConfigs (map JSON.ofModel models) = Some (map JSON.reloaded models).
Proof.
  unfold JSON.asModelConfigs.
  induction models as [|m models IH]; simpl; trivial.
  now rewrite asModelConfig_ofModel, IH.
Qed.

Lemma reloadedNumber_finite (n : Js.numberOrNull) :
  Js.finite n = true <-> JSON.reloadedNumber n = n.
Proof.
  destruct n as [[q | negative]|]; simpl; split; trivial; discriminate.
Qed.

Lemma reloaded_finite (m : ModelConfig) :
  JSON.finiteModel m = true <-> JSON.reloaded m = m.
Proof.
  destruct m as [i n b r inp [ci co cr cw] cwn mt].
  unfold JSON.finiteModel, JSON.reloaded. simpl.
  rewrite !andb_true_iff, !reloadedNumber_finite. split.
  - intros [[[[[-> ->] ->] ->] ->] ->]. reflexivity.
  - intros H. injection H as H1 H2 H3 H4 H5 H6. tauto.
Qed.

Lemma map_reloaded_finite (models : list ModelConfig) :
  (forall m, In m models -> JSON.finiteModel m = true) <->
  map JSON.reloaded models = models.
Proof.
  induction models as [|m models IH]; simpl; [tauto|]. split.
  - intros H. f_equal.
    + apply reloaded_finite, H. now left.
    + apply IH. intros x Hx. apply H. now right.
  - intros H x [<- | Hx]; injection H as H1 H2.
    + now apply reloaded_finite.
    + now apply (proj2 IH H2).
Qed.

Lemma isZero_reloadedNumber (n : Js.numberOrNull) :
  Js.isZero (JSON.reloadedNumber n) = Js.isZero n.
Proof. now destruct n as [[q | negative]|]. Qed.

Lemma isFreeModel_reloaded (m : ModelConfig) :
  isFreeModel (JSON.reloaded m) = isFreeModel m.
Proof.
  unfold isFreeModel, JSON.reloaded. cbn [mc_cost c_input c_output].
  now rewrite !isZero_reloadedNumber.
Qed.

Lemma ids_reloaded (models : list ModelConfig) :
  map mc_id (map JSON.reloaded models) = map mc_id models.
Proof. rewrite map_map. reflexivity. Qed.

Lemma freeIdsOf_reloaded (models : list ModelConfig) :
  freeIdsOf (map JSON.reloaded models) = freeIdsOf models.
Proof.
  unfold freeIdsOf. induction models as [|m models IH]; simpl; trivial.
  rewrite isFreeModel_reloaded. destruct (isFreeModel m); simpl; now rewrite IH.
Qed.

Lemma validCachedModel_ofModel (m : ModelConfig) :
  validCachedModel (JSON.ofModel m) = Js.truthy (mc_id m) && Js.truthy (mc_name m).
Proof.
  unfold validCachedModel. simpl. destruct (mc_backend m); simpl; now rewrite andb_true_r.
Qed.

Lemma truthy_nonempty (s : string) : Js.truthy s = true <-> s <> "".
Proof.
  unfold Js.truthy. destruct (String.eqb_spec s ""); simpl; split; congruence.
Qed.

Lemma saveModelsToCache_disk (models : list ModelConfig) (w : World) :
  writable (disk w) = true ->
  models_json (disk (exec (saveModelsToCache models) w))
  = Some (Document (JSON.stringify models)).
Proof.
  intros Hw. unfold exec, saveModelsToCache, writeFileSync. now rewrite Hw.
Qed.

(** C8, as the code has it: a registry with at least one record, all of
    whose records have a non-empty id and a non-empty name, written to the
    enriched cache (the write succeeding) and loaded again, comes back with
    every infinite number replaced by [null] and otherwise field for field:
    it is the same registry when no number of it is infinite, and a
    different one when one is. A registry with a record whose id or name is
    empty does not pass the validation of the loader and comes back as
    absent. *)
Theorem models_cache_roundtrip (models : list ModelConfig) (w : World) :
  writable (disk w) = true ->
  models <> [] ->
  let st := disk (exec (saveModelsToCache models) w) in
  ((forall m, In m models -> mc_id m <> "" /\ mc_name m <> "") ->
   exists items,
     loadModelsFromCache st = Some items
     /\ JSON.asModelConfigs items = Some (map JSON.reloaded models)
     /\ ((forall m, In m models -> JSON.finiteModel m = true) ->
         JSON.asModelConfigs items = Some models)
     /\ ((exists m, In m models /\ JSON.finiteModel m = false) ->
         JSON.asModelConfigs items <> Some models))
  /\ ((exists m, In m models /\ (mc_id m = "" \/ mc_name m = "")) ->
      loadModelsFromCache st = None).
Proof.
  intros Hw Hne st.
  assert (Hst : models_json st = Some (Document (JArr (map JSON.ofModel models)))).
  { apply saveModelsToCache_disk, Hw. }
  unfold loadModelsFromCache. rewrite Hst.
  destruct models as [|m0 rest]; [contradiction|].
  remember (m0 :: rest) as models eqn:Hmodels.
  assert (Hcons : exists j js, map JSON.ofModel models = j :: js).
  { subst models. simpl. eauto. }
  destruct Hcons as (j & js & Hcons). rewrite Hcons, <- Hcons. clear j js Hcons.
  split.
  - intros Hall. exists (map JSON.ofModel models). split; [|split; [|split]].
    + replace (forallb validCachedModel (map JSON.ofModel models)) with true; trivial.
      symmetry. apply forallb_forall. intros x Hx. apply in_map_iff in Hx.
      destruct Hx as (m & <- & Hm). rewrite validCachedModel_ofModel.
      destruct (Hall m Hm) as [Hi Hn].
      apply truthy_nonempty in Hi, Hn. now rewrite Hi, Hn.
    + apply asModelConfigs_stringify.
    + intros Hfin. rewrite asModelConfigs_stringify. f_equal.
      now apply map_reloaded_finite.
    + intros (m & Hm & Hinf) Heq. rewrite asModelConfigs_stringify in Heq.
      injection Heq as Heq.
      rewrite (proj2 (map_reloaded_finite models) Heq m Hm) in Hinf.
      discriminate.
  - intros (m & Hm & Hempty).
    replace (forallb validCachedModel (map JSON.ofModel models)) with false; trivial.
    symmetry. apply not_true_is_false. intros Hall.
    rewrite forallb_forall in Hall.
    specialize (Hall (JSON.ofModel m) (in_map JSON.ofModel models m Hm)).
    rewrite validCachedModel_ofModel in Hall. apply andb_true_iff in Hall.
    destruct Hall as [Hi Hn]. apply truthy_nonempty in Hi, Hn.
    destruct Hempty; contradiction.
Qed.

(** Scenario C's registry goes through the cache unchanged. *)
Lemma models_cache_roundtrip_witness :
  exists items,
    loadModelsFromCache
      (disk (exec (saveModelsToCache Scenario.registryC)
                  (initialWorld Scenario.emptyStore))) = Some items
    /\ JSON.asModelConfigs items = Some Scenario.registryC.
Proof.
  destruct (proj1 (models_cache_roundtrip Scenario.registryC
                     (initialWorld Scenario.emptyStore) eq_refl
                     ltac:(vm_compute; discriminate)))
    as (items & Hload & _ & Hsame & _).
  - intros m Hm. vm_compute in Hm.
    destruct Hm as [<- | [<- | []]]; split; vm_compute; discriminate.
  - exists items. split; [exact Hload|]. apply Hsame.
    intros m Hm. vm_compute in Hm.
    destruct Hm as [<- | [<- | []]]; vm_compute; reflexivity.
Defined.

(** C8 as stated fails in two ways. A registry with a record whose id is
    empty (the one [buildModels] produces when Zen lists the id [""]) is
    written to the cache and rejected by the loader. And a registry with an
    infinite number (the one [buildModels] produces when models.dev gives a
    limit of [1e999]) has a non-empty id and name, is written with [null] in
    place of the number, and is read back with that [null]: not the registry
    that was saved. *)
Lemma models_cache_roundtrip_counterexample :
  (let models := eval (buildModels [""] None true) (initialWorld Scenario.emptyStore) in
   let st := disk (exec (saveModelsToCache models) (initialWorld Scenario.emptyStore)) in
   models = [defaultModel ""]
   /\ models_json st = Some (Document (JSON.stringify models))
   /\ loadModelsFromCache st = None)
  /\ (let models := eval (buildModels ["m1"] Scenario.enrichmentInfinite true)
                         (initialWorld Scenario.emptyStore) in
      let st := disk (exec (saveModelsToCache models) (initialWorld Scenario.emptyStore)) in
      map mc_contextWindow models = [Js.Known (Js.Infinity false)]
      /\ exists items reread,
           loadModelsFromCache st = Some items
           /\ JSON.asModelConfigs items = Some reread
           /\ map mc_contextWindow reread = [Js.Null]
           /\ reread <> models).
Proof.
  split; [repeat split|]. cbv zeta. split; [vm_compute; reflexivity|].
  eexists. eexists. split; [vm_compute; reflexivity|].
  split; [vm_compute; reflexivity|]. split; [reflexivity|].
  vm_compute. discriminate.
Qed.

(** ** The start-up controller *)

Lemma filter_none {A : Type} (p : A -> bool) (l : list A) :
  (forall a, In a l -> p a = false) -> List.filter p l = [].
Proof.
  induction l as [|a l IH]; intros H; simpl; trivial.
  rewrite (H a (or_introl eq_refl)). apply IH. intros b Hb. apply H. now right.
Qed.

(** What [fetchFreshModels] leaves behind: it never touches the free-id
    snapshot, the published map or the provider registration, and the files
    it writes are the id list and the enriched registry. *)
Lemma fetchFreshModels_frame (hasApiKey : bool) (timeoutMs : option Z) (net : Net)
    (w : World) :
  let w' := exec (fetchFreshModels hasApiKey timeoutMs net) w in
  MODEL_MAP w' = MODEL_MAP w
  /\ registered w' = registered w
  /\ free_model_ids_json (disk w') = free_model_ids_json (disk w)
  /\ writable (disk w') = writable (disk w)
  /\ exists new, written w' = written w ++ new /\ ~ In FREE_MODEL_IDS_FILE new.
Proof.
  unfold exec, fetchFreshModels.
  destruct (zenModelIdsOf timeoutMs net) as [ids|]; simpl.
  - unfold bind, saveZenModelsToCache, buildModels, saveModelsToCache, bind,
      writeFileSync, consoleError, modify, ret.
    destruct (writable (disk w)) eqn:Hw; simpl; rewrite ?Hw; simpl.
    + repeat split; trivial.
      exists [ZEN_MODELS_CACHE_FILE; MODELS_CACHE_FILE]. split.
      * now rewrite <- app_assoc.
      * intros [H | [H | []]]; discriminate H.
    + repeat split; trivial. exists []. split; [now rewrite app_nil_r | intros []].
  - repeat split; trivial. exists []. split; [now rewrite app_nil_r | intros []].
Qed.

Lemma fetchFreshModels_failure (hasApiKey : bool) (timeoutMs : option Z) (net : Net)
    (w : World) :
  zenModelIdsOf timeoutMs net = None ->
  fetchFreshModels hasApiKey timeoutMs net w = (None, w).
Proof. intros H. unfold fetchFreshModels. now rewrite H. Qed.

Lemma fetchFreshModels_eval (hasApiKey : bool) (timeoutMs : option Z) (net : Net)
    (w : World) (ids : list string) :
  zenModelIdsOf timeoutMs net = Some ids ->
  eval (fetchFreshModels hasApiKey timeoutMs net) w
  = Some (if hasApiKey then mergeLoop (modelsDevDataOf timeoutMs net) ids
          else List.filter isFreeModel (mergeLoop (modelsDevDataOf timeoutMs net) ids)).
Proof.
  intros H. unfold eval, fetchFreshModels. rewrite H.
  unfold bind, saveZenModelsToCache, buildModels, saveModelsToCache, bind,
    writeFileSync, consoleError, modify, ret.
  destruct (writable (disk w)) eqn:Hw; simpl; rewrite ?Hw; simpl;
    destruct hasApiKey; reflexivity.
Qed.

Lemma loadModelsFromCache_nonempty (st : Store) (items : list Json) :
  loadModelsFromCache st = Some items -> items <> [].
Proof.
  unfold loadModelsFromCache.
  destruct (models_json st) as [[|[| | | |models|]]|]; try discriminate.
  destruct models as [|m models]; [discriminate|].
  destruct (forallb validCachedModel (m :: models)); [|discriminate].
  intros [= <-]. discriminate.
Qed.

Lemma trackFreeModels_exec (env : Env) (previousFreeIds : list string)
    (refreshing : bool) (w : World) :
  exec (trackFreeModels env previousFreeIds refreshing) w = w.
Proof. reflexivity. Qed.

(** The fast path: the cached registry (its free part without credential)
    is published, nothing is written, a refresh is launched. *)
Lemma default_warm (env : Env) (net : Net) (w : World) (items : list Json)
    (cachedModels : list ModelConfig) :
  loadModelsFromCache (disk w) = Some items ->
  JSON.asModelConfigs items = Some cachedModels ->
  let models := if hasApiKeyOf env then cachedModels
                else List.filter isFreeModel cachedModels in
  exec (default env net) w = exec (registerModels models) w
  /\ exists added_ removed_ notify,
       eval (default env net) w = Started added_ removed_ notify true.
Proof.
  intros Hload Hcast models.
  pose proof (loadModelsFromCache_nonempty _ _ Hload) as Hne.
  unfold exec, eval, default, bind, gets. rewrite Hload.
  destruct items as [|item items]; [contradiction|].
  rewrite Hcast. fold models. unfold trackFreeModels, bind, gets, ret.
  destruct (registerModels models w) as [u w1] eqn:Hreg. simpl.
  split; [reflexivity | eauto].
Qed.

Lemma session_warm (env : Env) (net : Net) (w : World) (items : list Json)
    (cachedModels : list ModelConfig) :
  loadModelsFromCache (disk w) = Some items ->
  JSON.asModelConfigs items = Some cachedModels ->
  exec (session env net) w
  = exec (backgroundRefresh env net) (exec (default env net) w).
Proof.
  intros Hload Hcast.
  destruct (default_warm env net w items cachedModels Hload Hcast)
    as (_ & a & r & n & Hout).
  unfold exec, eval, session, bind in *.
  destruct (default env net w) as [o w1]. simpl in *. subst o.
  destruct (backgroundRefresh env net w1) as [u w2]. reflexivity.
Qed.

(** C9: cold start, no credential, the authoritative fetch succeeds with a
    non-empty list, every merged record is paid. Nothing is registered and
    nothing is published (the lookup of any id fails), the free-id snapshot
    is left alone, and the run ends on the same log line and the same early
    return as a failed authoritative fetch. *)
Theorem cold_start_without_free_model (env : Env) (net : Net) (st : Store)
    (ids : list string) :
  hasApiKeyOf env = false ->
  loadModelsFromCache st = None ->
  zenModelIdsOf (Some COLD_START_TIMEOUT_MS) net = Some ids ->
  ids <> [] ->
  (forall modelId, In modelId ids ->
     isFreeModel (buildModel (modelsDevDataOf (Some COLD_START_TIMEOUT_MS) net) modelId)
     = false) ->
  let w' := exec (default env net) (initialWorld st) in
  eval (default env net) (initialWorld st) = NotRegistered
  /\ MODEL_MAP w' = []
  /\ registered w' = []
  /\ (forall modelId, JsMap.get (MODEL_MAP w') modelId = None)
  /\ free_model_ids_json (disk w') = free_model_ids_json st
  /\ (exists log, console w' = log ++ [providerNotRegistered]
                  /\ (writable st = true -> log = []))
  /\ (forall net',
        zenModelIdsOf (Some COLD_START_TIMEOUT_MS) net' = None ->
        eval (default env net') (initialWorld st) = NotRegistered
        /\ MODEL_MAP (exec (default env net') (initialWorld st)) = []
        /\ console (exec (default env net') (initialWorld st)) = [providerNotRegistered]).
Proof.
  intros Hkey Hload Hzen _ Hpaid w'.
  assert (Hnone : List.filter isFreeModel
                    (mergeLoop (modelsDevDataOf (Some COLD_START_TIMEOUT_MS) net) ids) = []).
  { apply filter_none. intros r Hr. rewrite mergeLoop_map in Hr.
    apply in_map_iff in Hr. destruct Hr as (i & <- & Hi). now apply Hpaid. }
  assert (Hrun : default env net (initialWorld st)
                 = (NotRegistered,
                    exec (consoleError providerNotRegistered)
                      (exec (fetchFreshModels false (Some COLD_START_TIMEOUT_MS) net)
                            (initialWorld st)))).
  { unfold default, bind, gets. simpl. rewrite Hload, Hkey.
    pose proof (fetchFreshModels_eval false (Some COLD_START_TIMEOUT_MS) net
                  (initialWorld st) ids Hzen) as Heval.
    unfold eval, exec in *.
    destruct (fetchFreshModels false (Some COLD_START_TIMEOUT_MS) net (initialWorld st))
      as [models w1]. simpl in *. rewrite Heval, Hnone. reflexivity. }
  destruct (fetchFreshModels_frame false (Some COLD_START_TIMEOUT_MS) net (initialWorld st))
    as (Hmap & Hreg & Hfree & _ & _).
  assert (Hlog : writable st = true ->
                 console (exec (fetchFreshModels false (Some COLD_START_TIMEOUT_MS) net)
                               (initialWorld st)) = []).
  { intros Hw. unfold exec, fetchFreshModels. rewrite Hzen.
    unfold bind, saveZenModelsToCache, buildModels, saveModelsToCache, bind,
      writeFileSync, ret. simpl. rewrite Hw. simpl. rewrite ?Hw. reflexivity. }
  remember (exec (fetchFreshModels false (Some COLD_START_TIMEOUT_MS) net)
                 (initialWorld st)) as wf eqn:Hwf.
  unfold w', eval, exec. rewrite Hrun. simpl. simpl in Hmap, Hreg, Hfree.
  split; [reflexivity|]. split; [exact Hmap|]. split; [exact Hreg|].
  split; [intros modelId; now rewrite Hmap|].
  split; [exact Hfree|]. split.
  - exists (console wf). split; [reflexivity | exact Hlog].
  - intros net' Hfail.
    assert (Hf : zenModelIdsOf (Some COLD_START_TIMEOUT_MS) net' = None) by exact Hfail.
    unfold default, bind, gets. cbn [disk initialWorld]. rewrite Hload.
    rewrite (fetchFreshModels_failure _ _ _ _ Hf). repeat split.
Qed.

(** Zen lists the paid [p1], the cache is empty, there is no key. *)
Lemma cold_start_without_free_model_witness :
  eval (default Scenario.withoutKey Scenario.onlyPaid) (initialWorld Scenario.emptyStore)
  = NotRegistered
  /\ MODEL_MAP (exec (default Scenario.withoutKey Scenario.onlyPaid)
                     (initialWorld Scenario.emptyStore)) = [].
Proof.
  destruct (cold_start_without_free_model Scenario.withoutKey Scenario.onlyPaid
              Scenario.emptyStore ["p1"]) as (Hout & Hmap & _).
  - reflexivity.
  - reflexivity.
  - reflexivity.
  - discriminate.
  - intros modelId [<- | []]. vm_compute. reflexivity.
  - split; [exact Hout | exact Hmap].
Defined.

(** C10: on the fast path the synchronous part writes no cache file; when
    the authoritative fetch of the background refresh fails, the refresh
    leaves the whole state as it found it (published map, id list, enriched
    registry, free-id snapshot); and whenever the session writes the free-id
    snapshot, the refresh has returned a non-empty registry. *)
Theorem refresh_failure_frame (env : Env) (net : Net) (w : World)
    (items : list Json) (cachedModels : list ModelConfig) :
  loadModelsFromCache (disk w) = Some items ->
  JSON.asModelConfigs items = Some cachedModels ->
  let w1 := exec (default env net) w in
  let w2 := exec (session env net) w in
  (disk w1 = disk w /\ written w1 = written w)
  /\ (zenModelIdsOf None net = None ->
      w2 = w1
      /\ MODEL_MAP w2 = MODEL_MAP w1
      /\ zen_models_json (disk w2) = zen_models_json (disk w)
      /\ models_json (disk w2) = models_json (disk w)
      /\ free_model_ids_json (disk w2) = free_model_ids_json (disk w))
  /\ (forall new,
        written w2 = written w ++ new -> In FREE_MODEL_IDS_FILE new ->
        exists model rest,
          eval (fetchFreshModels (hasApiKeyOf env) None net) w1 = Some (model :: rest))
  /\ (free_model_ids_json (disk w2) <> free_model_ids_json (disk w) ->
      exists model rest,
        eval (fetchFreshModels (hasApiKeyOf env) None net) w1 = Some (model :: rest)).
Proof.
  intros Hload Hcast w1 w2.
  destruct (default_warm env net w items cachedModels Hload Hcast) as (Hexec & _).
  assert (Hsync : disk w1 = disk w /\ written w1 = written w).
  { unfold w1. rewrite Hexec. split; reflexivity. }
  destruct Hsync as [Hdisk Hwritten].
  assert (Hw2 : w2 = exec (backgroundRefresh env net) w1).
  { unfold w2, w1. eapply session_warm; eauto. }
  split; [split; assumption|]. split.
  - intros Hfail.
    assert (Hsame : w2 = w1).
    { rewrite Hw2. unfold exec, backgroundRefresh, bind.
      now rewrite (fetchFreshModels_failure _ _ _ _ Hfail). }
    rewrite Hsame, Hdisk. repeat split.
  - destruct (fetchFreshModels_frame (hasApiKeyOf env) None net w1)
      as (_ & _ & Hfree & _ & new0 & Hnew0 & Hnotin).
    assert (Hcases :
      (exists model rest,
          eval (fetchFreshModels (hasApiKeyOf env) None net) w1 = Some (model :: rest))
      \/ w2 = exec (fetchFreshModels (hasApiKeyOf env) None net) w1).
    { rewrite Hw2. unfold exec, eval, backgroundRefresh, bind.
      destruct (fetchFreshModels (hasApiKeyOf env) None net w1) as [[[|m rest]|] wf];
        simpl; eauto. }
    split.
    + intros new Hnew Hin. destruct Hcases as [Hok | Heq]; [exact Hok|].
      exfalso. rewrite Heq, Hnew0, Hwritten in Hnew.
      apply app_inv_head in Hnew. subst new0. contradiction.
    + intros Hchanged. destruct Hcases as [Hok | Heq]; [exact Hok|].
      exfalso. apply Hchanged. rewrite Heq, Hfree, Hdisk. reflexivity.
Qed.

(** A warm cache, no network. *)
Lemma refresh_failure_frame_witness :
  let w := initialWorld Scenario.freeStore in
  exec (session Scenario.withKey Scenario.offline) w
  = exec (default Scenario.withKey Scenario.offline) w
  /\ disk (exec (session Scenario.withKey Scenario.offline) w)
     = Scenario.freeStore.
Proof.
  intros w.
  destruct (refresh_failure_frame Scenario.withKey Scenario.offline w
              (map JSON.ofModel [defaultModel "f1"]) [defaultModel "f1"])
    as ((Hdisk & _) & Hfail & _).
  - reflexivity.
  - reflexivity.
  - destruct (Hfail eq_refl) as (Hsame & _). split; [exact Hsame|].
    rewrite Hsame. exact Hdisk.
Defined.

(** An empty list on the background refresh is not a failed fetch: the two
    caches are overwritten with empty documents, while the published map
    and the free-id snapshot stay. *)
Example empty_list_refresh :
  let w1 := exec (default Scenario.withKey Scenario.zenListsNothing)
                 (initialWorld Scenario.freeStore) in
  let w2 := exec (session Scenario.withKey Scenario.zenListsNothing)
                 (initialWorld Scenario.freeStore) in
  MODEL_MAP w2 = MODEL_MAP w1
  /\ JsMap.keys (MODEL_MAP w2) = ["f1"]
  /\ zen_models_json (disk w2) = Some (Document [])
  /\ models_json (disk w2) = Some (Document (JArr []))
  /\ free_model_ids_json (disk w2) = Some (Document ["f1"]).
Proof. repeat split. Qed.

(** ** The published registry and the authoritative list *)

(** The two stores of the scenario module are the ones the program writes
    itself, starting from an empty cache directory. *)
Example stores_reached :
  disk (exec (session Scenario.withoutKey Scenario.onlyFree)
             (initialWorld Scenario.emptyStore)) = Scenario.freeStore
  /\ disk (exec (session Scenario.withKey Scenario.renamedEntry)
                (initialWorld Scenario.emptyStore)) = Scenario.ghostStore.
Proof. split; vm_compute; reflexivity. Qed.

(** C2 does not hold of the code. Three sessions, each from a cache the
    program wrote itself:
    - cold start with a key, Zen lists [m1], the models.dev entry filed
      under [m1] calls itself [ghost]: [ghost] is published, [m1] is not;
    - the next session, without network: the fast path publishes [ghost]
      from the enriched cache while the cached id list is [m1];
    - fast path, no credential, cache listing the free [f1]; the refresh
      fetches the list [p1] (a paid model) successfully and stores it, the
      filtered registry is empty, the callback returns early: [f1] stays
      published although the fetched list and the cached list are [p1]. *)
Theorem published_outside_authoritative_list :
  (let w := exec (session Scenario.withKey Scenario.renamedEntry)
                 (initialWorld Scenario.emptyStore) in
   zenModelIdsOf (Some COLD_START_TIMEOUT_MS) Scenario.renamedEntry = Some ["m1"]
   /\ JsMap.keys (MODEL_MAP w) = ["ghost"]
   /\ ~ Spec.onlyListed (JsMap.keys (MODEL_MAP w)) ["m1"])
  /\ (let w := exec (session Scenario.withKey Scenario.offline)
                    (initialWorld Scenario.ghostStore) in
      loadZenModelsFromCache (disk w) = Some ["m1"]
      /\ JsMap.keys (MODEL_MAP w) = ["ghost"]
      /\ ~ Spec.onlyListed (JsMap.keys (MODEL_MAP w)) ["m1"])
  /\ (let w := exec (session Scenario.withoutKey Scenario.onlyPaid)
                    (initialWorld Scenario.freeStore) in
      zenModelIdsOf None Scenario.onlyPaid = Some ["p1"]
      /\ loadZenModelsFromCache (disk w) = Some ["p1"]
      /\ JsMap.keys (MODEL_MAP w) = ["f1"]
      /\ ~ Spec.onlyListed (JsMap.keys (MODEL_MAP w)) ["p1"]).
Proof.
  assert (Hout : forall a b : string, a <> b -> ~ Spec.onlyListed [a] [b]).
  { intros a b Hab H. destruct (H a (or_introl eq_refl)) as [Hba | []]. congruence. }
  split; [|split]; cbv zeta.
  - split; [reflexivity|]. split; [vm_compute; reflexivity|].
    replace (JsMap.keys _) with ["ghost"] by (vm_compute; reflexivity).
    apply Hout. discriminate.
  - split; [vm_compute; reflexivity|]. split; [vm_compute; reflexivity|].
    replace (JsMap.keys _) with ["ghost"] by (vm_compute; reflexivity).
    apply Hout. discriminate.
  - split; [reflexivity|]. split; [vm_compute; reflexivity|].
    split; [vm_compute; reflexivity|].
    replace (JsMap.keys _) with ["f1"] by (vm_compute; reflexivity).
    apply Hout. discriminate.
Qed.

(** *** What the code does keep *)

Lemma JsMap_set_keys (m : list (string * ModelConfig)) (key : string)
    (value : ModelConfig) (x : string) :
  In x (JsMap.keys (JsMap.set m key value)) <-> x = key \/ In x (JsMap.keys m).
Proof.
  unfold JsMap.keys. induction m as [|[k v] m IH]; simpl.
  - split; [intros [<- | []]; now left | intros [-> | []]; now left].
  - destruct (String.eqb_spec k key) as [-> | Hne]; simpl.
    + split; [intros [H | H] | intros [H | [H | H]]]; auto.
    + rewrite IH. split; [intros [H | [H | H]] | intros [H | [H | H]]]; auto.
Qed.

Lemma registerModels_keys (models : list ModelConfig) (w : World) (x : string) :
  In x (JsMap.keys (MODEL_MAP (exec (registerModels models) w)))
  <-> In x (map mc_id models).
Proof.
  unfold exec, registerModels, modify. simpl.
  assert (H : forall acc,
             In x (JsMap.keys (fold_left (fun m model => JsMap.set m (mc_id model) model)
                                         models acc))
             <-> In x (JsMap.keys acc) \/ In x (map mc_id models)).
  { induction models as [|m models IH]; intros acc; simpl.
    - tauto.
    - rewrite IH, JsMap_set_keys. split; [intros [[-> | H] | H] | intros [H | [<- | H]]]; auto. }
  rewrite H. simpl. tauto.
Qed.

(** A cold start publishes listed ids only, as long as every enrichment
    entry of a listed id is filed under its own id. *)
Lemma cold_start_only_listed (env : Env) (net : Net) (st : Store) (ids : list string) :
  loadModelsFromCache st = None ->
  zenModelIdsOf (Some COLD_START_TIMEOUT_MS) net = Some ids ->
  (forall modelId devModel,
      In modelId ids ->
      devModelOf (modelsDevDataOf (Some COLD_START_TIMEOUT_MS) net) modelId
      = Some devModel ->
      dm_id devModel = None \/ dm_id devModel = Some ""
      \/ dm_id devModel = Some modelId) ->
  Spec.onlyListed (JsMap.keys (MODEL_MAP (exec (default env net) (initialWorld st)))) ids.
Proof.
  intros Hload Hzen Hkeys.
  set (data := modelsDevDataOf (Some COLD_START_TIMEOUT_MS) net) in *.
  pose proof (fetchFreshModels_eval (hasApiKeyOf env) (Some COLD_START_TIMEOUT_MS) net
                (initialWorld st) ids Hzen) as Heval.
  destruct (fetchFreshModels_frame (hasApiKeyOf env) (Some COLD_START_TIMEOUT_MS) net
              (initialWorld st)) as (Hmap & _).
  fold data in Heval.
  assert (Hsub : forall models,
            Some models = Some (if hasApiKeyOf env then mergeLoop data ids
                                else List.filter isFreeModel (mergeLoop data ids)) ->
            forall x, In x (map mc_id models) -> In x ids).
  { intros models [= ->] x Hx. apply in_map_iff in Hx. destruct Hx as (r & <- & Hr).
    assert (Hr' : In r (mergeLoop data ids)).
    { destruct (hasApiKeyOf env); [exact Hr | apply List.filter_In in Hr; tauto]. }
    rewrite mergeLoop_map in Hr'. apply in_map_iff in Hr'.
    destruct Hr' as (i & <- & Hi).
    pose proof (mergeLoop_ids ids data Hkeys [i]) as Hown. simpl in Hown.
    assert (Hi' : forall y, i = y \/ False -> In y ids) by (intros y [<- | []]; exact Hi).
    specialize (Hown Hi'). injection Hown as ->. exact Hi. }
  unfold Spec.onlyListed, exec, eval, default, bind, gets in *.
  cbn [disk initialWorld] in *. rewrite Hload.
  destruct (fetchFreshModels (hasApiKeyOf env) (Some COLD_START_TIMEOUT_MS) net
              (initialWorld st)) as [models w1]. cbn [fst snd] in *.
  destruct models as [[|model rest]|].
  - simpl. rewrite Hmap. intros x [].
  - intros x Hx. apply (Hsub (model :: rest)); [now rewrite Heval|].
    apply (registerModels_keys (model :: rest) w1 x).
    unfold exec. unfold saveFreeModelIds, writeFileSync, consoleError, modify,
      trackFreeModels, bind, gets, ret in Hx.
    destruct (registerModels (model :: rest) w1) as [u w2] eqn:Hreg.
    cbn [snd]. destruct (writable (disk w2)); exact Hx.
  - simpl. rewrite Hmap. intros x [].
Qed.

(** * Further properties of the code *)

(** ** Enriched records *)

Lemma orElse_nonempty (o : option string) (d : string) :
  d <> "" -> Js.orElse o d <> "".
Proof.
  intros Hd. destruct o as [s|]; simpl; trivial.
  destruct (Js.truthy s) eqn:E; trivial. now apply truthy_nonempty.
Qed.

(** X1: an enrichment entry without [cost] object gives a record whose four
    costs are 0, hence a free one; and whatever the entry, each cost of the
    record is the entry's when it has one and 0 otherwise. *)
Theorem enriched_cost_defaults (data : option OpencodeData) (modelId : string)
    (devModel : DevModel) :
  devModelOf data modelId = Some devModel ->
  let r := buildModel data modelId in
  (dm_cost devModel = None ->
   mc_cost r = mkCost 0%Q 0%Q 0%Q 0%Q /\ isFreeModel r = true)
  /\ (forall c, dm_cost devModel = Some c ->
      c_input (mc_cost r) = Js.nullish (dc_input c) 0%Q
      /\ c_output (mc_cost r) = Js.nullish (dc_output c) 0%Q
      /\ c_cacheRead (mc_cost r) = Js.nullish (dc_cache_read c) 0%Q
      /\ c_cacheWrite (mc_cost r) = Js.nullish (dc_cache_write c) 0%Q
      /\ (dc_input c = None -> dc_output c = None -> isFreeModel r = true)).
Proof.
  intros Hdev r. unfold r, buildModel. rewrite Hdev. split.
  - intros Hc. unfold enrichedModel, isFreeModel. simpl. rewrite Hc. simpl. now split.
  - intros c Hc. unfold enrichedModel, isFreeModel. simpl. rewrite Hc. simpl.
    repeat split. intros -> ->. reflexivity.
Qed.

Lemma enriched_cost_defaults_witness :
  mc_cost (buildModel Scenario.enrichmentVision "v1") = mkCost 0%Q 0%Q 0%Q 0%Q
  /\ isFreeModel (buildModel Scenario.enrichmentVision "v1") = true.
Proof.
  apply (enriched_cost_defaults Scenario.enrichmentVision "v1" Scenario.vision);
    vm_compute; reflexivity.
Defined.

(** X2: the input modalities of an enriched record always start with text,
    and contain image exactly when the entry's [attachment] is true or its
    [modalities] array includes "image"; nothing else ever appears. *)
Theorem enriched_input (data : option OpencodeData) (modelId : string)
    (devModel : DevModel) :
  devModelOf data modelId = Some devModel ->
  let r := buildModel data modelId in
  (mc_input r = [text] \/ mc_input r = [text; image])
  /\ (In image (mc_input r)
      <-> dm_attachment devModel = Some true
          \/ exists ms, dm_modalities devModel = Some ms /\ "image" ∈ ms).
Proof.
  intros Hdev r. unfold r, buildModel. rewrite Hdev. unfold enrichedModel, inputOf.
  simpl. destruct (dm_attachment devModel) as [[|]|]; simpl.
  - split; [now right|]. split; [now left | intros _; right; now left].
  - destruct (dm_modalities devModel) as [ms|]; simpl.
    + destruct (Js.includes ms "image") eqn:E.
      * split; [now right|]. split; [|intros _; right; now left].
        intros _. right. exists ms. split; trivial. now apply includes_elem_of.
      * split; [now left|]. split; [intros [H | []]; discriminate H|].
        intros [H | (ms' & [= <-] & Hin)]; [discriminate H|].
        apply includes_elem_of in Hin. congruence.
    + split; [now left|]. split; [intros [H | []]; discriminate H|].
      intros [H | (ms' & H & _)]; discriminate H.
  - destruct (dm_modalities devModel) as [ms|]; simpl.
    + destruct (Js.includes ms "image") eqn:E.
      * split; [now right|]. split; [|intros _; right; now left].
        intros _. right. exists ms. split; trivial. now apply includes_elem_of.
      * split; [now left|]. split; [intros [H | []]; discriminate H|].
        intros [H | (ms' & [= <-] & Hin)]; [discriminate H|].
        apply includes_elem_of in Hin. congruence.
    + split; [now left|]. split; [intros [H | []]; discriminate H|].
      intros [H | (ms' & H & _)]; discriminate H.
Qed.

Lemma enriched_input_witness :
  In image (mc_input (buildModel Scenario.enrichmentVision "v1")).
Proof.
  apply (enriched_input Scenario.enrichmentVision "v1" Scenario.vision).
  - vm_compute. reflexivity.
  - left. reflexivity.
Defined.

(** X3: a routing hint the entry does carry (non-empty) decides alone: the
    provider-level default is not consulted, so an unknown hint gives the
    generic backend even under an anthropic default. *)
Theorem entry_hint_overrides_default (npmPackage : string)
    (default1 default2 : option string) :
  npmPackage <> "" ->
  getBackendFromNpmPackage (Some npmPackage) default1
  = getBackendFromNpmPackage (Some npmPackage) default2
  /\ (npmPackage <> "@ai-sdk/anthropic" -> npmPackage <> "@ai-sdk/openai" ->
      npmPackage <> "@ai-sdk/google" ->
      getBackendFromNpmPackage (Some npmPackage) default1 = openai_completions).
Proof.
  intros Hne. apply truthy_nonempty in Hne.
  unfold getBackendFromNpmPackage, Js.truthyStr. rewrite Hne. simpl.
  split; [reflexivity|]. intros H1 H2 H3.
  apply String.eqb_neq in H1, H2, H3. now rewrite H1, H2, H3.
Qed.

Lemma entry_hint_overrides_default_witness :
  getBackendFromNpmPackage (Some "@ai-sdk/openai-compatible") (Some "@ai-sdk/anthropic")
  = openai_completions.
Proof.
  apply (entry_hint_overrides_default "@ai-sdk/openai-compatible"
           (Some "@ai-sdk/anthropic") None); discriminate.
Defined.

(** ** The fetches *)

(** X4: [fetchZenModels] returns a list exactly when the request is
    answered with an ok status and a body whose [data] is an array, and the
    list is the ids of the entries in order; an unreachable host, a non-ok
    status, an unparseable or [null] body all throw. *)
Theorem fetchZenModels_success (net : Net) (ids : list string) :
  fetchZenModels net = Ok ids
  <-> exists latency entries,
        ZEN_MODELS_URL net
        = Responds latency true (Some (ZenValue (DataArray entries)))
        /\ ids = map ze_id entries.
Proof.
  unfold fetchZenModels. split.
  - destruct (ZEN_MODELS_URL net) as [|latency ok body]; [discriminate|].
    destruct ok; simpl; [|discriminate].
    destruct body as [[|data]|]; try discriminate.
    destruct data; simpl; try discriminate;
      try (destruct (negb _); discriminate).
    intros [= <-]. eauto.
  - intros (latency & entries & -> & ->). reflexivity.
Qed.

Lemma fetchZenModels_success_witness :
  fetchZenModels Scenario.bothAnswer = Ok ["m1"; "m2"].
Proof.
  apply (proj2 (fetchZenModels_success Scenario.bothAnswer ["m1"; "m2"])).
  exists 100%Z, (map Scenario.zenEntry ["m1"; "m2"]). split; reflexivity.
Defined.

Lemma zenModelIdsOf_in_time (t : Z) (net : Net) :
  (ZEN_MODELS_URL net = Unreachable
   \/ exists latency ok body,
        ZEN_MODELS_URL net = Responds latency ok body /\ (latency < t)%Z) ->
  zenModelIdsOf (Some t) net = zenModelIdsOf None net.
Proof.
  unfold zenModelIdsOf, fetchZenModels, fetchWithTimeout.
  intros [-> | (latency & ok & body & -> & Hlt)]; trivial.
  apply Z.ltb_lt in Hlt. rewrite Hlt.
  destruct ok; simpl; trivial.
  destruct body as [[|data]|]; trivial.
  now destruct (negb (dataTruthy data) || negb (isArray data)).
Qed.

Lemma modelsDevDataOf_in_time (t : Z) (net : Net) :
  (MODELS_API_URL net = Unreachable
   \/ exists latency ok body,
        MODELS_API_URL net = Responds latency ok body /\ (latency < t)%Z) ->
  modelsDevDataOf (Some t) net = modelsDevDataOf None net.
Proof.
  unfold modelsDevDataOf, fetchWithTimeout.
  intros [-> | (latency & ok & body & -> & Hlt)]; trivial.
  apply Z.ltb_lt in Hlt. now rewrite Hlt.
Qed.

(** X5: the deadline only cuts slow answers. When Zen answers at or after
    the deadline, the fetch with deadline returns null and leaves the state
    alone, however good the answer; when each source is unreachable or
    answers before the deadline, the fetch with deadline and the fetch
    without give the same result and the same state. *)
Theorem deadline_cuts_slow_answers (hasApiKey : bool) (t : Z) (net : Net) (w : World) :
  (forall latency ok body,
      ZEN_MODELS_URL net = Responds latency ok body -> (t <= latency)%Z ->
      fetchFreshModels hasApiKey (Some t) net w = (None, w))
  /\ ((ZEN_MODELS_URL net = Unreachable
       \/ exists latency ok body,
            ZEN_MODELS_URL net = Responds latency ok body /\ (latency < t)%Z) ->
      (MODELS_API_URL net = Unreachable
       \/ exists latency ok body,
            MODELS_API_URL net = Responds latency ok body /\ (latency < t)%Z) ->
      fetchFreshModels hasApiKey (Some t) net w
      = fetchFreshModels hasApiKey None net w).
Proof.
  split.
  - intros latency ok body Hurl Hle. apply fetchFreshModels_failure.
    unfold zenModelIdsOf, fetchWithTimeout. rewrite Hurl.
    apply Z.ltb_ge in Hle. now rewrite Hle.
  - intros Hzen Hdev. unfold fetchFreshModels.
    now rewrite (zenModelIdsOf_in_time t net Hzen), (modelsDevDataOf_in_time t net Hdev).
Qed.

Lemma deadline_cuts_slow_answers_witness :
  fetchFreshModels true (Some COLD_START_TIMEOUT_MS) Scenario.zenSlow
    (initialWorld Scenario.emptyStore)
  = (None, initialWorld Scenario.emptyStore)
  /\ fetchFreshModels true (Some COLD_START_TIMEOUT_MS) Scenario.bothAnswer
       (initialWorld Scenario.emptyStore)
     = fetchFreshModels true None Scenario.bothAnswer (initialWorld Scenario.emptyStore).
Proof.
  split.
  - apply (proj1 (deadline_cuts_slow_answers true COLD_START_TIMEOUT_MS Scenario.zenSlow
                    (initialWorld Scenario.emptyStore))
             5000%Z true (Some (ZenValue (DataArray [Scenario.zenEntry "m1"])))).
    + reflexivity.
    + vm_compute. discriminate.
  - apply (proj2 (deadline_cuts_slow_answers true COLD_START_TIMEOUT_MS
                    Scenario.bothAnswer (initialWorld Scenario.emptyStore))).
    + right. exists 100%Z, true,
        (Some (ZenValue (DataArray (map Scenario.zenEntry ["m1"; "m2"])))).
      split; reflexivity.
    + right. exists 100%Z, true, (Some (DevValue Scenario.enrichmentB)).
      split; reflexivity.
Defined.

Lemma mergeLoop_absent (ids : list string) : mergeLoop None ids = map defaultModel ids.
Proof. now rewrite mergeLoop_map. Qed.

Lemma defaults_all_free (ids : list string) :
  List.filter isFreeModel (map defaultModel ids) = map defaultModel ids.
Proof.
  apply filter_all. intros r Hr. apply in_map_iff in Hr.
  destruct Hr as (i & <- & _). reflexivity.
Qed.

(** X6: the enrichment never makes the fetch fail. When Zen's list arrives
    and models.dev is unreachable, answers with a non-ok status, with a body
    that does not parse, with [null], without [opencode] field, or (under a
    deadline) too late, the result is the default record of every listed
    id, with or without credential. *)
Theorem enrichment_failure_gives_defaults (hasApiKey : bool) (timeoutMs : option Z)
    (net : Net) (w : World) (ids : list string) :
  zenModelIdsOf timeoutMs net = Some ids ->
  (MODELS_API_URL net = Unreachable
   \/ (exists latency body, MODELS_API_URL net = Responds latency false body)
   \/ (exists latency ok, MODELS_API_URL net = Responds latency ok None)
   \/ (exists latency ok, MODELS_API_URL net = Responds latency ok (Some DevNull))
   \/ (exists latency ok,
         MODELS_API_URL net = Responds latency ok (Some (DevValue None)))
   \/ (exists t latency ok body,
         timeoutMs = Some t /\ MODELS_API_URL net = Responds latency ok body
         /\ (t <= latency)%Z)) ->
  eval (fetchFreshModels hasApiKey timeoutMs net) w = Some (map defaultModel ids).
Proof.
  intros Hzen Hdev.
  assert (Hnone : modelsDevDataOf timeoutMs net = None).
  { unfold modelsDevDataOf, fetchWithTimeout.
    destruct Hdev as [-> | [(l & b & ->) | [(l & ok & ->) | [(l & ok & ->)
      | [(l & ok & ->) | (t & l & ok & b & -> & -> & Hle)]]]]].
    - now destruct timeoutMs.
    - destruct timeoutMs as [t|]; trivial. now destruct (l <? t)%Z.
    - destruct timeoutMs as [t|]; [destruct (l <? t)%Z|]; now destruct ok.
    - destruct timeoutMs as [t|]; [destruct (l <? t)%Z|]; now destruct ok.
    - destruct timeoutMs as [t|]; [destruct (l <? t)%Z|]; now destruct ok.
    - apply Z.ltb_ge in Hle. now rewrite Hle. }
  rewrite (fetchFreshModels_eval _ _ _ _ _ Hzen), Hnone, mergeLoop_absent.
  destruct hasApiKey; [reflexivity | now rewrite defaults_all_free].
Qed.

Lemma enrichment_failure_gives_defaults_witness :
  eval (fetchFreshModels false None Scenario.devDown) (initialWorld Scenario.emptyStore)
  = Some [defaultModel "m1"; defaultModel "m2"].
Proof.
  apply (enrichment_failure_gives_defaults false None Scenario.devDown
           (initialWorld Scenario.emptyStore) ["m1"; "m2"]).
  - reflexivity.
  - right. left. exists 100%Z, None. reflexivity.
Defined.

(** ** The cache documents *)

Lemma fetchFreshModels_exec (hasApiKey : bool) (timeoutMs : option Z) (net : Net)
    (w : World) (ids : list string) :
  writable (disk w) = true ->
  zenModelIdsOf timeoutMs net = Some ids ->
  exec (fetchFreshModels hasApiKey timeoutMs net) w
  = {| disk :=
         {| zen_models_json := Some (Document ids);
            models_json :=
              Some (Document (JSON.stringify
                                (mergeLoop (modelsDevDataOf timeoutMs net) ids)));
            free_model_ids_json := free_model_ids_json (disk w);
            writable := true |};
       MODEL_MAP := MODEL_MAP w;
       registered := registered w;
       console := console w;
       written := written w ++ [ZEN_MODELS_CACHE_FILE; MODELS_CACHE_FILE] |}.
Proof.
  intros Hw Hzen. unfold exec, fetchFreshModels. rewrite Hzen.
  unfold bind, saveZenModelsToCache, buildModels, saveModelsToCache, bind,
    writeFileSync, ret. rewrite Hw. simpl. rewrite ?Hw. simpl.
  now rewrite <- app_assoc.
Qed.

Lemma loadModels_stringify (st : Store) (models : list ModelConfig) :
  models_json st = Some (Document (JSON.stringify models)) ->
  models <> [] ->
  (forall m, In m models -> mc_id m <> "" /\ mc_name m <> "") ->
  loadModelsFromCache st = Some (map JSON.ofModel models).
Proof.
  intros Hst Hne Hall. unfold loadModelsFromCache. rewrite Hst. unfold JSON.stringify.
  destruct models as [|m0 rest]; [contradiction|].
  remember (m0 :: rest) as models eqn:Hmodels.
  assert (Hvalid : forallb validCachedModel (map JSON.ofModel models) = true).
  { apply forallb_forall. intros x Hx. apply in_map_iff in Hx.
    destruct Hx as (m & <- & Hm). rewrite validCachedModel_ofModel.
    destruct (Hall m Hm) as [Hi Hn]. apply truthy_nonempty in Hi, Hn.
    now rewrite Hi, Hn. }
  rewrite Hvalid. subst models. reflexivity.
Qed.

Lemma buildModel_named (data : option OpencodeData) (modelId : string) :
  modelId <> "" ->
  mc_id (buildModel data modelId) <> "" /\ mc_name (buildModel data modelId) <> "".
Proof.
  intros Hne. unfold buildModel.
  destruct (devModelOf data modelId) as [dm|]; simpl.
  - split; now apply orElse_nonempty.
  - now split.
Qed.

(** X7: what a successful fetch saves can always be loaded again. On a
    writable cache, when Zen's list is non-empty and holds no empty id, the
    id list document reloads as that list and the enriched document reloads
    as the full merged registry (paid records included, whatever the
    credential) with every infinite number replaced by [null]: as the
    merged registry itself when models.dev gave no infinite number, and as
    a different registry when it gave one. The free-id snapshot is not
    touched. *)
Theorem fetched_caches_reload (hasApiKey : bool) (timeoutMs : option Z) (net : Net)
    (w : World) (ids : list string) :
  writable (disk w) = true ->
  zenModelIdsOf timeoutMs net = Some ids ->
  ids <> [] ->
  (forall modelId, In modelId ids -> modelId <> "") ->
  let st := disk (exec (fetchFreshModels hasApiKey timeoutMs net) w) in
  let merged := mergeLoop (modelsDevDataOf timeoutMs net) ids in
  loadZenModelsFromCache st = Some ids
  /\ (exists items,
        loadModelsFromCache st = Some items
        /\ JSON.asModelConfigs items = Some (map JSON.reloaded merged)
        /\ ((forall m, In m merged -> JSON.finiteModel m = true) ->
            JSON.asModelConfigs items = Some merged)
        /\ ((exists m, In m merged /\ JSON.finiteModel m = false) ->
            JSON.asModelConfigs items <> Some merged))
  /\ free_model_ids_json st = free_model_ids_json (disk w).
Proof.
  intros Hw Hzen Hne Hids st merged. unfold st.
  rewrite (fetchFreshModels_exec _ _ _ _ _ Hw Hzen). simpl.
  split; [|split; [|reflexivity]].
  - unfold loadZenModelsFromCache. simpl. destruct ids; [contradiction | reflexivity].
  - exists (map JSON.ofModel merged). split; [|split; [|split]].
    + apply loadModels_stringify; [reflexivity | |].
      * unfold merged. rewrite mergeLoop_map.
        destruct ids; [contradiction | discriminate].
      * intros m Hm. unfold merged in Hm. rewrite mergeLoop_map in Hm.
        apply in_map_iff in Hm.
        destruct Hm as (i & <- & Hi). apply buildModel_named. now apply Hids.
    + apply asModelConfigs_stringify.
    + intros Hfin. rewrite asModelConfigs_stringify. f_equal.
      now apply map_reloaded_finite.
    + intros (m & Hm & Hinf) Heq. rewrite asModelConfigs_stringify in Heq.
      injection Heq as Heq.
      rewrite (proj2 (map_reloaded_finite merged) Heq m Hm) in Hinf.
      discriminate.
Qed.

Lemma fetched_caches_reload_witness :
  loadZenModelsFromCache
    (disk (exec (fetchFreshModels false None Scenario.bothAnswer)
                (initialWorld Scenario.emptyStore))) = Some ["m1"; "m2"].
Proof.
  apply (fetched_caches_reload false None Scenario.bothAnswer
           (initialWorld Scenario.emptyStore) ["m1"; "m2"]).
  - reflexivity.
  - reflexivity.
  - discriminate.
  - intros modelId [<- | [<- | []]]; discriminate.
Defined.

(** X8: the id-list document. Written on a writable cache and loaded again,
    a non-empty list comes back as it was and the empty list comes back as
    absent. *)
Theorem zen_cache_roundtrip (modelIds : list string) (w : World) :
  writable (disk w) = true ->
  let st := disk (exec (saveZenModelsToCache modelIds) w) in
  (modelIds <> [] -> loadZenModelsFromCache st = Some modelIds)
  /\ (modelIds = [] -> loadZenModelsFromCache st = None).
Proof.
  intros Hw st. unfold st, exec, saveZenModelsToCache, writeFileSync.
  rewrite Hw. unfold loadZenModelsFromCache. simpl.
  split; intros H; destruct modelIds; congruence.
Qed.

Lemma zen_cache_roundtrip_witness :
  loadZenModelsFromCache
    (disk (exec (saveZenModelsToCache ["m1"]) (initialWorld Scenario.emptyStore)))
  = Some ["m1"].
Proof.
  apply (zen_cache_roundtrip ["m1"] (initialWorld Scenario.emptyStore)).
  - reflexivity.
  - discriminate.
Defined.

(** X9: the free-id snapshot. Written on a writable cache and loaded again,
    any list (the empty one too) comes back as it was; and loading never
    fails: an absent or unreadable snapshot reads as the empty list, so it
    cannot be told from a saved empty one. *)
Theorem free_ids_roundtrip (ids : list string) (w : World) :
  writable (disk w) = true ->
  loadFreeModelIds (disk (exec (saveFreeModelIds ids) w)) = ids
  /\ (forall st,
        free_model_ids_json st = None \/ free_model_ids_json st = Some Unparseable ->
        loadFreeModelIds st = []).
Proof.
  intros Hw. unfold exec, saveFreeModelIds, writeFileSync. rewrite Hw.
  unfold loadFreeModelIds. simpl. split; [reflexivity|].
  intros st [-> | ->]; reflexivity.
Qed.

Lemma free_ids_roundtrip_witness :
  loadFreeModelIds
    (disk (exec (saveFreeModelIds ["m2"]) (initialWorld Scenario.emptyStore)))
  = ["m2"].
Proof.
  apply (free_ids_roundtrip ["m2"] (initialWorld Scenario.emptyStore)). reflexivity.
Defined.

(** X10: a write that fails is swallowed. When the cache directory cannot
    be written, each of the three saves leaves every document, the
    published map and the registrations as they were, records no write, and
    logs exactly one line; the computation goes on. *)
Theorem failed_write_is_swallowed (w : World) (modelIds ids : list string)
    (models : list ModelConfig) :
  writable (disk w) = false ->
  let unchanged (w' : World) (line : string) :=
    disk w' = disk w /\ MODEL_MAP w' = MODEL_MAP w /\ registered w' = registered w
    /\ written w' = written w /\ console w' = console w ++ [line] in
  unchanged (exec (saveZenModelsToCache modelIds) w) "Failed to save Zen models to cache:"
  /\ unchanged (exec (saveModelsToCache models) w) "Failed to save models to cache:"
  /\ unchanged (exec (saveFreeModelIds ids) w) "Failed to save free model IDs:".
Proof.
  intros Hw unchanged. unfold unchanged, exec, saveZenModelsToCache, saveModelsToCache,
    saveFreeModelIds, writeFileSync. rewrite Hw. simpl. repeat split.
Qed.

Lemma failed_write_is_swallowed_witness :
  disk (exec (saveModelsToCache [defaultModel "m1"])
             (initialWorld Scenario.readOnlyStore)) = Scenario.readOnlyStore.
Proof.
  apply (failed_write_is_swallowed (initialWorld Scenario.readOnlyStore) [] []
           [defaultModel "m1"]).
  reflexivity.
Defined.

Lemma asAll_Forall2 {A B : Type} (f : A -> option B) (l : list A) (l' : list B) :
  JSON.asAll f l = Some l' -> Forall2 (fun a b => f a = Some b) l l'.
Proof.
  revert l'. induction l as [|a l IH]; intros l'; simpl.
  - intros [= <-]. constructor.
  - destruct (f a) as [b|] eqn:Ha; [|discriminate].
    destruct (JSON.asAll f l) as [bs|]; [|discriminate].
    intros [= <-]. constructor; [exact Ha | now apply IH].
Qed.

Lemma asString_truthy (o : option Json) (s : string) :
  JSON.asString o = Some s -> JSON.truthy o = Js.truthy s.
Proof. destruct o as [[]|]; simpl; congruence. Qed.

Lemma asModelConfig_named (j : Json) (m : ModelConfig) :
  JSON.asModelConfig j = Some m ->
  validCachedModel j = true ->
  mc_id m <> "" /\ mc_name m <> "".
Proof.
  unfold JSON.asModelConfig, validCachedModel.
  destruct (JSON.asString (JSON.prop j "id")) as [i|] eqn:Hi; [|discriminate].
  destruct (JSON.asString (JSON.prop j "name")) as [n|] eqn:Hn; [|discriminate].
  destruct (JSON.asBackend (JSON.prop j "backend")),
    (JSON.asBool (JSON.prop j "reasoning")), (JSON.asInput (JSON.prop j "input")),
    (JSON.asCost (JSON.prop j "cost")),
    (JSON.asNumber (JSON.prop j "contextWindow")),
    (JSON.asNumber (JSON.prop j "maxTokens")); try discriminate.
  intros [= <-]. simpl.
  rewrite (asString_truthy _ _ Hi), (asString_truthy _ _ Hn).
  intros H. apply andb_true_iff in H. destruct H as [H _].
  apply andb_true_iff in H. destruct H as [H1 H2].
  split; now apply truthy_nonempty.
Qed.

(** X11: what the loader lets through. A registry read from the enriched
    cache has at least one record, as many records as the document has
    elements, and no record with an empty id or an empty name. *)
Theorem loaded_models_are_named (st : Store) (items : list Json)
    (models : list ModelConfig) :
  loadModelsFromCache st = Some items ->
  JSON.asModelConfigs items = Some models ->
  models <> []
  /\ length models = length items
  /\ forall m, In m models -> mc_id m <> "" /\ mc_name m <> "".
Proof.
  intros Hload Hcast.
  pose proof (loadModelsFromCache_nonempty _ _ Hload) as Hne.
  assert (Hvalid : forallb validCachedModel items = true).
  { unfold loadModelsFromCache in Hload.
    destruct (models_json st) as [[|[| | | |l|]]|]; try discriminate.
    destruct l as [|x l]; [discriminate|].
    destruct (forallb validCachedModel (x :: l)) eqn:E; [|discriminate].
    now injection Hload as <-. }
  apply asAll_Forall2 in Hcast.
  split; [|split].
  - intros ->. inversion Hcast. congruence.
  - symmetry. eapply Forall2_length; eauto.
  - rewrite forallb_forall in Hvalid. clear Hload Hne. revert Hvalid.
    induction Hcast as [|j m items' models' Hjm _ IH]; intros Hvalid m' Hm';
      [destruct Hm'|].
    destruct Hm' as [<- | Hm'].
    + apply (asModelConfig_named j m Hjm). apply Hvalid. now left.
    + apply IH; [|exact Hm']. intros x Hx. apply Hvalid. now right.
Qed.

Lemma loaded_models_are_named_witness :
  [defaultModel "f1"] <> []
  /\ length [defaultModel "f1"] = length (map JSON.ofModel [defaultModel "f1"])
  /\ mc_id (defaultModel "f1") <> "".
Proof.
  destruct (loaded_models_are_named Scenario.freeStore
              (map JSON.ofModel [defaultModel "f1"]) [defaultModel "f1"]
              eq_refl eq_refl) as (Hne & Hlen & Hnamed).
  split; [exact Hne|]. split; [exact Hlen|].
  apply (Hnamed (defaultModel "f1")). now left.
Defined.

(** ** The published map *)

Lemma JsMap_get_set (m : list (string * ModelConfig)) (key key' : string)
    (value : ModelConfig) :
  JsMap.get (JsMap.set m key value) key'
  = if String.eqb key key' then Some value else JsMap.get m key'.
Proof.
  induction m as [|[k v] m IH]; simpl; trivial.
  destruct (String.eqb_spec k key) as [-> | Hne]; simpl.
  - now destruct (String.eqb key key').
  - rewrite IH. destruct (String.eqb_spec k key') as [-> | Hne']; trivial.
    destruct (String.eqb_spec key key'); [congruence | reflexivity].
Qed.

Lemma find_snoc {A : Type} (p : A -> bool) (l : list A) (a : A) :
  List.find p (l ++ [a])
  = match List.find p l with
    | Some x => Some x
    | None => if p a then Some a else None
    end.
Proof.
  induction l as [|x l IH]; simpl; trivial. now destruct (p x).
Qed.

Lemma JsMap_get_fold (models : list ModelConfig) (acc : list (string * ModelConfig))
    (key : string) :
  JsMap.get (fold_left (fun m model => JsMap.set m (mc_id model) model) models acc) key
  = match List.find (fun m => String.eqb (mc_id m) key) (rev models) with
    | Some m => Some m
    | None => JsMap.get acc key
    end.
Proof.
  revert acc. induction models as [|m models IH]; intros acc; simpl; trivial.
  rewrite IH, find_snoc, JsMap_get_set.
  destruct (List.find (fun m0 => String.eqb (mc_id m0) key) (rev models));
    [reflexivity|].
  now destruct (String.eqb (mc_id m) key).
Qed.

Lemma registerModels_get (models : list ModelConfig) (w : World) (key : string) :
  JsMap.get (MODEL_MAP (exec (registerModels models) w)) key
  = List.find (fun m => String.eqb (mc_id m) key) (rev models).
Proof.
  unfold exec, registerModels, modify. simpl. rewrite JsMap_get_fold. simpl.
  now destruct (List.find _ _).
Qed.

Lemma registerModels_get_In (models : list ModelConfig) (w : World) (key : string)
    (cfg : ModelConfig) :
  JsMap.get (MODEL_MAP (exec (registerModels models) w)) key = Some cfg ->
  In cfg models /\ mc_id cfg = key.
Proof.
  rewrite registerModels_get. intros H. apply List.find_some in H.
  destruct H as [Hin Heq]. split; [now apply in_rev | now apply String.eqb_eq].
Qed.

(** X12: looking up the published map after [registerModels]. The record
    found under an id is the last record of the registered list that
    carries this id (a later duplicate replaces an earlier one), it is
    always one of the registered records, and nothing of the map published
    before survives. *)
Theorem registerModels_lookup (models : list ModelConfig) (w : World) (key : string) :
  JsMap.get (MODEL_MAP (exec (registerModels models) w)) key
  = List.find (fun m => String.eqb (mc_id m) key) (rev models)
  /\ (forall cfg,
        JsMap.get (MODEL_MAP (exec (registerModels models) w)) key = Some cfg ->
        In cfg models /\ mc_id cfg = key)
  /\ (JsMap.get (MODEL_MAP (exec (registerModels models) w)) key = None
      <-> ~ In key (map mc_id models)).
Proof.
  split; [apply registerModels_get|]. split; [apply registerModels_get_In|].
  rewrite registerModels_get. split.
  - intros Hnone Hin. apply in_map_iff in Hin. destruct Hin as (m & Hm & Hin).
    apply in_rev in Hin.
    apply (List.find_none _ _ Hnone) in Hin. rewrite Hm, String.eqb_refl in Hin.
    discriminate.
  - intros Hnot. destruct (List.find _ _) as [m|] eqn:E; trivial.
    apply List.find_some in E. destruct E as [Hin Heq]. exfalso. apply Hnot.
    apply String.eqb_eq in Heq. subst key. apply in_map. now apply in_rev.
Qed.

Lemma registerModels_lookup_witness :
  In (buildModel Scenario.enrichmentB "m2") Scenario.registryC.
Proof.
  apply (proj1 (proj2 (registerModels_lookup Scenario.registryC
                         (initialWorld Scenario.emptyStore) "m2"))).
  vm_compute. reflexivity.
Defined.

Lemma JsMap_set_fresh (m : list (string * ModelConfig)) (key : string)
    (value : ModelConfig) :
  ~ In key (JsMap.keys m) -> JsMap.set m key value = m ++ [(key, value)].
Proof.
  unfold JsMap.keys. induction m as [|[k v] m IH]; simpl; intros Hnot; trivial.
  destruct (String.eqb_spec k key) as [-> | Hne]; [tauto|].
  f_equal. apply IH. tauto.
Qed.

Lemma JsMap_set_present (m : list (string * ModelConfig)) (key : string)
    (value : ModelConfig) :
  In key (JsMap.keys m) -> JsMap.keys (JsMap.set m key value) = JsMap.keys m.
Proof.
  unfold JsMap.keys. induction m as [|[k v] m IH]; simpl; intros Hin; [destruct Hin|].
  destruct (String.eqb_spec k key) as [-> | Hne]; simpl; trivial.
  f_equal. apply IH. destruct Hin; [contradiction | assumption].
Qed.

Lemma JsMap_set_NoDup (m : list (string * ModelConfig)) (key : string)
    (value : ModelConfig) :
  List.NoDup (JsMap.keys m) -> List.NoDup (JsMap.keys (JsMap.set m key value)).
Proof.
  intros Hnd. destruct (in_dec String.string_dec key (JsMap.keys m)) as [Hin | Hnot].
  - now rewrite JsMap_set_present.
  - rewrite (JsMap_set_fresh _ _ _ Hnot). unfold JsMap.keys in *.
    rewrite map_app. simpl. apply List.NoDup_app; [exact Hnd | |].
    + constructor; [intros [] | constructor].
    + intros x Hx [<- | []]. contradiction.
Qed.

Lemma registerModels_exact (models : list ModelConfig) (w : World) :
  List.NoDup (map mc_id models) ->
  MODEL_MAP (exec (registerModels models) w) = map (fun m => (mc_id m, m)) models.
Proof.
  unfold exec, registerModels, modify. simpl. intros Hnd.
  assert (H : forall acc,
            List.NoDup (JsMap.keys acc ++ map mc_id models) ->
            fold_left (fun m model => JsMap.set m (mc_id model) model) models acc
            = acc ++ map (fun m => (mc_id m, m)) models).
  { clear Hnd. induction models as [|m models IH]; intros acc Hacc; simpl.
    - now rewrite app_nil_r.
    - assert (Hfresh : ~ In (mc_id m) (JsMap.keys acc)).
      { intros Hin. simpl in Hacc. apply List.NoDup_remove_2 in Hacc.
        apply Hacc, in_or_app. now left. }
      rewrite (JsMap_set_fresh _ _ _ Hfresh), IH.
      + now rewrite <- app_assoc.
      + unfold JsMap.keys in *. rewrite map_app. simpl. rewrite <- app_assoc. exact Hacc. }
  now apply (H []).
Qed.

(** X13: the published map is a [Map]: after [registerModels] no id occurs
    twice among its keys, even when the registered list repeats ids; and
    when the registered list has no repeated id, the map holds exactly these
    records, in the order of the list. *)
Theorem registerModels_keys_unique (models : list ModelConfig) (w : World) :
  List.NoDup (JsMap.keys (MODEL_MAP (exec (registerModels models) w)))
  /\ (List.NoDup (map mc_id models) ->
      JsMap.keys (MODEL_MAP (exec (registerModels models) w)) = map mc_id models
      /\ JsMap.values (MODEL_MAP (exec (registerModels models) w)) = models).
Proof.
  split.
  - unfold exec, registerModels, modify. simpl.
    assert (H : forall acc, List.NoDup (JsMap.keys acc) ->
              List.NoDup (JsMap.keys
                (fold_left (fun m model => JsMap.set m (mc_id model) model) models acc))).
    { induction models as [|m models IH]; intros acc Hacc; simpl; trivial.
      apply IH. now apply JsMap_set_NoDup. }
    apply H. constructor.
  - intros Hnd. rewrite (registerModels_exact models w Hnd).
    unfold JsMap.keys, JsMap.values. rewrite !map_map. simpl.
    split; [reflexivity | apply map_id].
Qed.

Lemma registerModels_keys_unique_witness :
  JsMap.values (MODEL_MAP (exec (registerModels Scenario.registryC)
                                (initialWorld Scenario.emptyStore)))
  = Scenario.registryC.
Proof.
  apply (proj2 (registerModels_keys_unique Scenario.registryC
                  (initialWorld Scenario.emptyStore))).
  vm_compute. repeat constructor; simpl; intuition discriminate.
Defined.

(** ** The controller, path by path *)

Lemma fetchFreshModels_without_key (timeoutMs : option Z) (net : Net) (w : World)
    (models : list ModelConfig) :
  eval (fetchFreshModels false timeoutMs net) w = Some models ->
  forall m, In m models -> isFreeModel m = true.
Proof.
  destruct (zenModelIdsOf timeoutMs net) as [ids|] eqn:Hzen.
  - rewrite (fetchFreshModels_eval _ _ _ _ _ Hzen). intros [= <-] m Hm.
    apply List.filter_In in Hm. tauto.
  - unfold eval. now rewrite (fetchFreshModels_failure _ _ _ _ Hzen).
Qed.

(** The cold start, when the fetch returns a non-empty registry. *)
Lemma default_cold_run (env : Env) (net : Net) (w : World)
    (model : ModelConfig) (rest : list ModelConfig) :
  loadModelsFromCache (disk w) = None ->
  eval (fetchFreshModels (hasApiKeyOf env) (Some COLD_START_TIMEOUT_MS) net) w
  = Some (model :: rest) ->
  default env net w
  = trackFreeModels env (loadFreeModelIds (disk w)) false
      (exec (saveFreeModelIds (freeIdsOf (model :: rest)))
         (exec (registerModels (model :: rest))
            (exec (fetchFreshModels (hasApiKeyOf env) (Some COLD_START_TIMEOUT_MS) net)
                  w))).
Proof.
  intros Hload Heval. unfold exec, eval, default, bind, gets in *. rewrite Hload.
  destruct (fetchFreshModels (hasApiKeyOf env) (Some COLD_START_TIMEOUT_MS) net w)
    as [models w1]. cbn [fst] in Heval. subst models. cbn [snd].
  destruct (registerModels (model :: rest) w1) as [u w2]. cbn [snd].
  destruct (saveFreeModelIds (freeIdsOf (model :: rest)) w2) as [u' w3].
  reflexivity.
Qed.

Lemma default_cold_success (env : Env) (net : Net) (w : World)
    (model : ModelConfig) (rest : list ModelConfig) :
  loadModelsFromCache (disk w) = None ->
  eval (fetchFreshModels (hasApiKeyOf env) (Some COLD_START_TIMEOUT_MS) net) w
  = Some (model :: rest) ->
  exec (default env net) w
  = exec (saveFreeModelIds (freeIdsOf (model :: rest)))
      (exec (registerModels (model :: rest))
         (exec (fetchFreshModels (hasApiKeyOf env) (Some COLD_START_TIMEOUT_MS) net) w)).
Proof.
  intros Hload Heval. unfold exec at 1.
  now rewrite (default_cold_run env net w model rest Hload Heval).
Qed.

(** The cold start, when the fetch returns null or an empty registry. *)
Lemma default_cold_failure (env : Env) (net : Net) (w : World) :
  loadModelsFromCache (disk w) = None ->
  (eval (fetchFreshModels (hasApiKeyOf env) (Some COLD_START_TIMEOUT_MS) net) w = None
   \/ eval (fetchFreshModels (hasApiKeyOf env) (Some COLD_START_TIMEOUT_MS) net) w
      = Some []) ->
  default env net w
  = (NotRegistered,
     exec (consoleError providerNotRegistered)
       (exec (fetchFreshModels (hasApiKeyOf env) (Some COLD_START_TIMEOUT_MS) net) w)).
Proof.
  intros Hload Heval. unfold exec, eval, default, bind, gets in *. rewrite Hload.
  destruct (fetchFreshModels (hasApiKeyOf env) (Some COLD_START_TIMEOUT_MS) net w)
    as [models w1]. cbn [fst] in Heval. destruct Heval as [-> | ->]; reflexivity.
Qed.

Lemma default_cold_failure_exec (env : Env) (net : Net) (w : World) :
  loadModelsFromCache (disk w) = None ->
  (eval (fetchFreshModels (hasApiKeyOf env) (Some COLD_START_TIMEOUT_MS) net) w = None
   \/ eval (fetchFreshModels (hasApiKeyOf env) (Some COLD_START_TIMEOUT_MS) net) w
      = Some []) ->
  MODEL_MAP (exec (default env net) w) = MODEL_MAP w
  /\ registered (exec (default env net) w) = registered w.
Proof.
  intros Hload Heval.
  destruct (fetchFreshModels_frame (hasApiKeyOf env) (Some COLD_START_TIMEOUT_MS) net w)
    as (Hmap & Hreg & _).
  assert (Hexec : exec (default env net) w
                  = exec (consoleError providerNotRegistered)
                      (exec (fetchFreshModels (hasApiKeyOf env)
                               (Some COLD_START_TIMEOUT_MS) net) w)).
  { unfold exec at 1. now rewrite (default_cold_failure env net w Hload Heval). }
  rewrite Hexec. split; [exact Hmap | exact Hreg].
Qed.

Lemma default_not_typed (env : Env) (net : Net) (w : World) (items : list Json) :
  loadModelsFromCache (disk w) = Some items ->
  JSON.asModelConfigs items = None ->
  default env net w = (CacheNotTyped, w).
Proof.
  intros Hload Hcast.
  pose proof (loadModelsFromCache_nonempty _ _ Hload) as Hne.
  unfold default, bind, gets. rewrite Hload.
  destruct items as [|item items]; [contradiction|]. now rewrite Hcast.
Qed.

Lemma session_not_warm (env : Env) (net : Net) (w : World) :
  (loadModelsFromCache (disk w) = None
   \/ exists items, loadModelsFromCache (disk w) = Some items
                    /\ JSON.asModelConfigs items = None) ->
  exec (session env net) w = exec (default env net) w.
Proof.
  intros Hcase.
  assert (Hout : forall a r n, eval (default env net) w <> Started a r n true).
  { intros a r n. destruct Hcase as [Hload | (items & Hload & Hcast)].
    - destruct (eval (fetchFreshModels (hasApiKeyOf env) (Some COLD_START_TIMEOUT_MS)
                        net) w) as [[|m rest]|] eqn:Heval.
      + unfold eval. now rewrite (default_cold_failure env net w Hload (or_intror Heval)).
      + unfold eval. rewrite (default_cold_run env net w m rest Hload Heval).
        discriminate.
      + unfold eval. now rewrite (default_cold_failure env net w Hload (or_introl Heval)).
    - unfold eval. now rewrite (default_not_typed _ _ _ _ Hload Hcast). }
  unfold exec, eval, session, bind in *.
  destruct (default env net w) as [o w1]. cbn [fst snd] in *.
  destruct o as [|a r n [|]|]; trivial. now destruct (Hout a r n).
Qed.

Lemma saveFreeModelIds_MODEL_MAP (ids : list string) (w : World) :
  MODEL_MAP (exec (saveFreeModelIds ids) w) = MODEL_MAP w
  /\ registered (exec (saveFreeModelIds ids) w) = registered w.
Proof.
  unfold exec, saveFreeModelIds, writeFileSync, consoleError, modify.
  now destruct (writable (disk w)).
Qed.

(** The map a refresh leaves: the one it found, or the one made of the
    non-empty registry it fetched. *)
Lemma backgroundRefresh_published (env : Env) (net : Net) (w : World) :
  (MODEL_MAP (exec (backgroundRefresh env net) w) = MODEL_MAP w
   /\ (eval (fetchFreshModels (hasApiKeyOf env) None net) w = None
       \/ eval (fetchFreshModels (hasApiKeyOf env) None net) w = Some []))
  \/ exists model rest,
       eval (fetchFreshModels (hasApiKeyOf env) None net) w = Some (model :: rest)
       /\ MODEL_MAP (exec (backgroundRefresh env net) w)
          = MODEL_MAP (exec (registerModels (model :: rest)) w).
Proof.
  destruct (fetchFreshModels_frame (hasApiKeyOf env) None net w) as (Hmap & _).
  unfold exec, eval, backgroundRefresh, bind in *.
  destruct (fetchFreshModels (hasApiKeyOf env) None net w) as [[[|m rest]|] w1];
    cbn [fst snd] in *; [left; auto | | left; auto].
  right. exists m, rest. split; trivial.
  pose proof (saveFreeModelIds_MODEL_MAP (freeIdsOf (m :: rest))
                (snd (registerModels (m :: rest) w1))) as [H _].
  unfold exec in H.
  destruct (registerModels (m :: rest) w1) as [u w2] eqn:Hreg. cbn [snd] in *.
  rewrite H. unfold registerModels, modify in *. injection Hreg as _ <-. reflexivity.
Qed.

(** The map the default export leaves: the one it found, or the one made
    of the models it registered; without credential these are all free. *)
Lemma default_published (env : Env) (net : Net) (w : World) :
  MODEL_MAP (exec (default env net) w) = MODEL_MAP w
  \/ exists models,
       MODEL_MAP (exec (default env net) w) = MODEL_MAP (exec (registerModels models) w)
       /\ (hasApiKeyOf env = false -> forall m, In m models -> isFreeModel m = true).
Proof.
  destruct (loadModelsFromCache (disk w)) as [items|] eqn:Hload.
  - destruct (JSON.asModelConfigs items) as [cached|] eqn:Hcast.
    + right. destruct (default_warm env net w items cached Hload Hcast) as (Hexec & _).
      eexists. split; [rewrite Hexec; reflexivity|].
      intros -> m Hm. apply List.filter_In in Hm. tauto.
    + left. unfold exec. now rewrite (default_not_typed _ _ _ _ Hload Hcast).
  - destruct (fetchFreshModels_frame (hasApiKeyOf env) (Some COLD_START_TIMEOUT_MS) net w)
      as (Hmap & _).
    destruct (eval (fetchFreshModels (hasApiKeyOf env) (Some COLD_START_TIMEOUT_MS) net) w)
      as [[|m rest]|] eqn:Heval.
    + left. apply (default_cold_failure_exec env net w Hload (or_intror Heval)).
    + right. exists (m :: rest). split.
      * rewrite (default_cold_success env net w m rest Hload Heval).
        now rewrite (proj1 (saveFreeModelIds_MODEL_MAP _ _)).
      * intros Hkey. rewrite Hkey in Heval.
        now apply (fetchFreshModels_without_key _ _ _ _ Heval).
    + left. apply (default_cold_failure_exec env net w Hload (or_introl Heval)).
Qed.

(** X14: without a credential no paid model is ever published. From the
    start of the process to the end of the background refresh, on every
    path, each record the dispatch lookup can find is a free one. *)
Theorem no_key_publishes_free_only (env : Env) (net : Net) (st : Store)
    (key : string) (cfg : ModelConfig) :
  hasApiKeyOf env = false ->
  (JsMap.get (MODEL_MAP (exec (default env net) (initialWorld st))) key = Some cfg ->
   isFreeModel cfg = true)
  /\ (JsMap.get (MODEL_MAP (exec (session env net) (initialWorld st))) key = Some cfg ->
      isFreeModel cfg = true).
Proof.
  intros Hkey.
  assert (Hdef : JsMap.get (MODEL_MAP (exec (default env net) (initialWorld st))) key
                 = Some cfg -> isFreeModel cfg = true).
  { destruct (default_published env net (initialWorld st)) as [-> | (models & -> & Hfree)].
    - discriminate.
    - intros Hget. apply registerModels_get_In in Hget. apply (Hfree Hkey). tauto. }
  split; [exact Hdef|].
  destruct (loadModelsFromCache st) as [items|] eqn:Hload.
  - destruct (JSON.asModelConfigs items) as [cached|] eqn:Hcast.
    + rewrite (session_warm env net (initialWorld st) items cached Hload Hcast).
      destruct (backgroundRefresh_published env net (exec (default env net) (initialWorld st)))
        as [(-> & _) | (m & rest & Heval & ->)]; [exact Hdef|].
      intros Hget. apply registerModels_get_In in Hget. rewrite Hkey in Heval.
      apply (fetchFreshModels_without_key _ _ _ _ Heval). tauto.
    + rewrite session_not_warm; [exact Hdef|]. right. eauto.
  - rewrite session_not_warm; [exact Hdef|]. now left.
Qed.

Lemma no_key_publishes_free_only_witness :
  isFreeModel (buildModel Scenario.enrichmentB "m2") = true.
Proof.
  apply (proj2 (no_key_publishes_free_only Scenario.withoutKey Scenario.bothAnswer
                  Scenario.emptyStore "m2" (buildModel Scenario.enrichmentB "m2")
                  eq_refl)).
  vm_compute. reflexivity.
Defined.

Lemma default_warm_run (env : Env) (net : Net) (w : World) (items : list Json)
    (cachedModels : list ModelConfig) :
  loadModelsFromCache (disk w) = Some items ->
  JSON.asModelConfigs items = Some cachedModels ->
  default env net w
  = trackFreeModels env (loadFreeModelIds (disk w)) true
      (exec (registerModels (if hasApiKeyOf env then cachedModels
                             else List.filter isFreeModel cachedModels)) w).
Proof.
  intros Hload Hcast.
  pose proof (loadModelsFromCache_nonempty _ _ Hload) as Hne.
  unfold exec, default, bind, gets. rewrite Hload.
  destruct items as [|item items]; [contradiction|].
  rewrite Hcast.
  destruct (registerModels _ w) as [u w1]. reflexivity.
Qed.

Lemma added_nothing (previousFreeIds : list string) : added previousFreeIds [] = [].
Proof. reflexivity. Qed.

Lemma removed_everything (previousFreeIds : list string) :
  removed previousFreeIds [] = previousFreeIds.
Proof. unfold removed. apply filter_all. reflexivity. Qed.

(** X15: a warm start without credential whose cached registry holds paid
    records only does not give up as the cold start does: it registers the
    provider with an empty model list, publishes an empty map, launches the
    refresh, and reports every id of the previous free snapshot as
    removed. *)
Theorem warm_start_nothing_free (env : Env) (net : Net) (w : World)
    (items : list Json) (cachedModels : list ModelConfig) :
  hasApiKeyOf env = false ->
  loadModelsFromCache (disk w) = Some items ->
  JSON.asModelConfigs items = Some cachedModels ->
  (forall m, In m cachedModels -> isFreeModel m = false) ->
  MODEL_MAP (exec (default env net) w) = []
  /\ registered (exec (default env net) w) = registered w ++ [[]]
  /\ exists notify,
       eval (default env net) w = Started [] (loadFreeModelIds (disk w)) notify true.
Proof.
  intros Hkey Hload Hcast Hpaid.
  unfold exec, eval. rewrite (default_warm_run env net w items cachedModels Hload Hcast).
  rewrite Hkey, (filter_none _ _ Hpaid).
  unfold trackFreeModels, bind, gets, ret, exec, registerModels, modify. simpl.
  rewrite removed_everything. split; [reflexivity|]. split; [reflexivity|]. eauto.
Qed.

Lemma warm_start_nothing_free_witness :
  registered (exec (default Scenario.withoutKey Scenario.offline)
                   (initialWorld Scenario.paidStore)) = [[]]
  /\ exists notify,
       eval (default Scenario.withoutKey Scenario.offline)
            (initialWorld Scenario.paidStore) = Started [] ["m1"] notify true.
Proof.
  destruct (warm_start_nothing_free Scenario.withoutKey Scenario.offline
              (initialWorld Scenario.paidStore)
              (map JSON.ofModel [buildModel Scenario.enrichmentB "m1"])
              [buildModel Scenario.enrichmentB "m1"]) as (_ & Hreg & Hout).
  - reflexivity.
  - reflexivity.
  - vm_compute. reflexivity.
  - intros m [<- | []]. vm_compute. reflexivity.
  - split; [exact Hreg | exact Hout].
Defined.

Lemma backgroundRefresh_success (env : Env) (net : Net) (w : World)
    (model : ModelConfig) (rest : list ModelConfig) :
  eval (fetchFreshModels (hasApiKeyOf env) None net) w = Some (model :: rest) ->
  exec (backgroundRefresh env net) w
  = exec (saveFreeModelIds (freeIdsOf (model :: rest)))
      (exec (registerModels (model :: rest))
            (exec (fetchFreshModels (hasApiKeyOf env) None net) w)).
Proof.
  intros Heval. unfold exec, eval, backgroundRefresh, bind in *.
  destruct (fetchFreshModels (hasApiKeyOf env) None net w) as [models w1].
  cbn [fst] in Heval. subst models. cbn [snd].
  destruct (registerModels (model :: rest) w1) as [u w2]. reflexivity.
Qed.

(** X16: a refresh that returns a non-empty registry replaces the published
    registry wholesale. After it, a lookup finds exactly the records of the
    fresh registry (an id that only the cache had is gone), the provider has
    been registered twice (first with the cached models, then with the fresh
    ones), and on a writable cache the free-id snapshot is the list of the
    free ids of the fresh registry. *)
Theorem refresh_replaces_registry (env : Env) (net : Net) (w : World)
    (items : list Json) (cachedModels : list ModelConfig)
    (model : ModelConfig) (rest : list ModelConfig) :
  loadModelsFromCache (disk w) = Some items ->
  JSON.asModelConfigs items = Some cachedModels ->
  eval (fetchFreshModels (hasApiKeyOf env) None net) (exec (default env net) w)
  = Some (model :: rest) ->
  let w2 := exec (session env net) w in
  (forall key,
      JsMap.get (MODEL_MAP w2) key
      = List.find (fun m => String.eqb (mc_id m) key) (rev (model :: rest)))
  /\ registered w2
     = registered w
       ++ [map providerModel (if hasApiKeyOf env then cachedModels
                              else List.filter isFreeModel cachedModels);
           map providerModel (model :: rest)]
  /\ (writable (disk w) = true ->
      free_model_ids_json (disk w2) = Some (Document (freeIdsOf (model :: rest)))).
Proof.
  intros Hload Hcast Heval w2.
  destruct (default_warm env net w items cachedModels Hload Hcast) as (Hexec & _).
  assert (Hw2 : w2 = exec (saveFreeModelIds (freeIdsOf (model :: rest)))
                       (exec (registerModels (model :: rest))
                          (exec (fetchFreshModels (hasApiKeyOf env) None net)
                                (exec (default env net) w)))).
  { unfold w2. rewrite (session_warm env net w items cachedModels Hload Hcast).
    now apply backgroundRefresh_success. }
  destruct (fetchFreshModels_frame (hasApiKeyOf env) None net (exec (default env net) w))
    as (_ & Hreg & _ & Hwr & _).
  set (wf := exec (fetchFreshModels (hasApiKeyOf env) None net)
                  (exec (default env net) w)) in *.
  split; [|split].
  - intros key. rewrite Hw2, (proj1 (saveFreeModelIds_MODEL_MAP _ _)).
    apply registerModels_get.
  - rewrite Hw2, (proj2 (saveFreeModelIds_MODEL_MAP _ _)).
    unfold exec at 1. unfold registerModels, modify. cbn [snd registered].
    rewrite Hreg, Hexec. unfold exec, registerModels, modify. cbn [snd registered].
    now rewrite <- app_assoc.
  - intros Hw. rewrite Hw2.
    assert (Hwf : writable (disk wf) = true).
    { rewrite Hwr, Hexec. exact Hw. }
    unfold exec at 1. unfold saveFreeModelIds, writeFileSync.
    unfold exec at 1. unfold registerModels, modify. cbn [snd disk].
    now rewrite Hwf.
Qed.

Lemma refresh_replaces_registry_witness :
  JsMap.get (MODEL_MAP (exec (session Scenario.withKey Scenario.bothAnswer)
                             (initialWorld Scenario.freeStore))) "f1" = None.
Proof.
  rewrite (proj1 (refresh_replaces_registry Scenario.withKey Scenario.bothAnswer
                    (initialWorld Scenario.freeStore)
                    (map JSON.ofModel [defaultModel "f1"]) [defaultModel "f1"]
                    (buildModel Scenario.enrichmentB "m1")
                    [buildModel Scenario.enrichmentB "m2"]
                    eq_refl eq_refl eq_refl) "f1").
  vm_compute. reflexivity.
Defined.

(** ** The change report *)

Lemma filter_nil_iff {A : Type} (p : A -> bool) (l : list A) :
  List.filter p l = [] <-> forall a, In a l -> p a = false.
Proof.
  split; [|apply filter_none].
  intros H a Ha. destruct (p a) eqn:E; trivial.
  assert (Hin : In a (List.filter p l)) by (apply List.filter_In; auto).
  rewrite H in Hin. destruct Hin.
Qed.

Lemma includes_In (l : list string) (x : string) : Js.includes l x = true <-> In x l.
Proof. rewrite includes_elem_of. apply list_elem_of_In. Qed.

Lemma no_change_iff (previousFreeIds currentFreeIds : list string) :
  (added previousFreeIds currentFreeIds = []
   /\ removed previousFreeIds currentFreeIds = [])
  <-> (forall x, In x previousFreeIds <-> In x currentFreeIds).
Proof.
  unfold added, removed. rewrite !filter_nil_iff. split.
  - intros [Ha Hr] x. split; intros Hx.
    + specialize (Hr x Hx). apply negb_false_iff, includes_In in Hr. exact Hr.
    + specialize (Ha x Hx). apply negb_false_iff, includes_In in Ha. exact Ha.
  - intros Hsame. split; intros x Hx; apply negb_false_iff, includes_In, Hsame, Hx.
Qed.

(** X17: when the diff reports nothing. Both [added] and [removed] are
    empty exactly when the previous and the current sequence hold the same
    ids, whatever their order and repetitions; and against an empty previous
    snapshot (first run, or snapshot unreadable) every current id is
    reported as added and none as removed. *)
Theorem diff_reports_nothing (previousFreeIds currentFreeIds : list string) :
  ((added previousFreeIds currentFreeIds = []
    /\ removed previousFreeIds currentFreeIds = [])
   <-> (forall x, In x previousFreeIds <-> In x currentFreeIds))
  /\ added [] currentFreeIds = currentFreeIds
  /\ removed [] currentFreeIds = [].
Proof.
  split; [apply no_change_iff|]. split; [|reflexivity].
  unfold added. apply filter_all. reflexivity.
Qed.

Lemma diff_reports_nothing_witness :
  added ["m1"; "m2"] ["m2"; "m1"; "m2"] = []
  /\ removed ["m1"; "m2"] ["m2"; "m1"; "m2"] = [].
Proof.
  apply (proj1 (diff_reports_nothing ["m1"; "m2"] ["m2"; "m1"; "m2"])).
  intros x. simpl. intuition.
Defined.

Lemma NoDup_map_filter {A B : Type} (f : A -> B) (p : A -> bool) (l : list A) :
  List.NoDup (map f l) -> List.NoDup (map f (List.filter p l)).
Proof.
  induction l as [|a l IH]; simpl; intros Hnd; [constructor|].
  inversion Hnd as [|? ? Hnot Hnd']; subst.
  destruct (p a); simpl; [|now apply IH].
  constructor; [|now apply IH].
  intros Hin. apply Hnot. apply in_map_iff in Hin. destruct Hin as (x & Hx & Hin).
  apply List.filter_In in Hin. rewrite <- Hx. apply in_map. tauto.
Qed.

Lemma filter_idempotent {A : Type} (p : A -> bool) (l : list A) :
  List.filter p (List.filter p l) = List.filter p l.
Proof.
  apply filter_all. intros a Ha. apply List.filter_In in Ha. tauto.
Qed.

(** The outcome of a warm start over a cached registry without repeated id:
    the current free ids are those of the whole cached registry, with or
    without credential. *)
Lemma warm_start_outcome (env : Env) (net : Net) (w : World) (items : list Json)
    (cachedModels : list ModelConfig) :
  loadModelsFromCache (disk w) = Some items ->
  JSON.asModelConfigs items = Some cachedModels ->
  List.NoDup (map mc_id cachedModels) ->
  let previousFreeIds := loadFreeModelIds (disk w) in
  let currentFreeIds := freeIdsOf cachedModels in
  eval (default env net) w
  = Started (added previousFreeIds currentFreeIds)
            (removed previousFreeIds currentFreeIds)
            ((nonEmpty (added previousFreeIds currentFreeIds)
              || nonEmpty (removed previousFreeIds currentFreeIds))
             && String.eqb (getExtensionSetting (notify_free_model_changes env) "on") "on")
            true.
Proof.
  intros Hload Hcast Hnd previousFreeIds currentFreeIds.
  unfold eval. rewrite (default_warm_run env net w items cachedModels Hload Hcast).
  set (models := if hasApiKeyOf env then cachedModels
                 else List.filter isFreeModel cachedModels).
  assert (Hndm : List.NoDup (map mc_id models)).
  { unfold models. destruct (hasApiKeyOf env); [exact Hnd | now apply NoDup_map_filter]. }
  assert (Hfree : freeIdsOf models = currentFreeIds).
  { unfold models, currentFreeIds, freeIdsOf.
    destruct (hasApiKeyOf env); [reflexivity | now rewrite filter_idempotent]. }
  unfold trackFreeModels, bind, gets, ret. cbn [fst].
  assert (Hvalues : JsMap.values (MODEL_MAP (exec (registerModels models) w)) = models).
  { rewrite (registerModels_exact models w Hndm). unfold JsMap.values.
    rewrite map_map. apply map_id. }
  rewrite Hvalues, Hfree. reflexivity.
Qed.

(** X18: on a warm start the change report does not depend on the
    credential. Over a cached registry without repeated id, the report is
    the diff between the snapshot and the free ids of the whole cached
    registry; so when the snapshot lists the same ids, nothing is reported
    and no notification is armed, whatever the setting. *)
Theorem warm_start_report (env : Env) (net : Net) (w : World) (items : list Json)
    (cachedModels : list ModelConfig) :
  loadModelsFromCache (disk w) = Some items ->
  JSON.asModelConfigs items = Some cachedModels ->
  List.NoDup (map mc_id cachedModels) ->
  (exists notify,
      eval (default env net) w
      = Started (added (loadFreeModelIds (disk w)) (freeIdsOf cachedModels))
                (removed (loadFreeModelIds (disk w)) (freeIdsOf cachedModels))
                notify true)
  /\ ((forall x, In x (loadFreeModelIds (disk w)) <-> In x (freeIdsOf cachedModels)) ->
      eval (default env net) w = Started [] [] false true).
Proof.
  intros Hload Hcast Hnd.
  pose proof (warm_start_outcome env net w items cachedModels Hload Hcast Hnd) as Hout.
  cbv zeta in Hout. split; [eauto|].
  intros Hsame. apply no_change_iff in Hsame. destruct Hsame as [Ha Hr].
  rewrite Hout, Ha, Hr. reflexivity.
Qed.

Lemma warm_start_report_witness :
  eval (default Scenario.withKey Scenario.offline) (initialWorld Scenario.freeStore)
  = Started [] [] false true.
Proof.
  apply (proj2 (warm_start_report Scenario.withKey Scenario.offline
                  (initialWorld Scenario.freeStore)
                  (map JSON.ofModel [defaultModel "f1"]) [defaultModel "f1"]
                  eq_refl eq_refl
                  (List.NoDup_cons "f1" (@in_nil string "f1") (List.NoDup_nil string)))).
  intros x. vm_compute. tauto.
Defined.

Lemma mergeLoop_id_list (ids : list string) (data : option OpencodeData) :
  (forall modelId devModel,
      In modelId ids -> devModelOf data modelId = Some devModel ->
      dm_id devModel = None \/ dm_id devModel = Some ""
      \/ dm_id devModel = Some modelId) ->
  map mc_id (mergeLoop data ids) = ids.
Proof.
  intros Hkeys. rewrite mergeLoop_map, map_map.
  apply (mergeLoop_ids ids data Hkeys). trivial.
Qed.

(** What a successful cold start leaves on a writable cache directory. *)
Lemma cold_start_disk (env : Env) (net : Net) (st : Store) (ids : list string)
    (model : ModelConfig) (rest : list ModelConfig) :
  writable st = true ->
  loadModelsFromCache st = None ->
  zenModelIdsOf (Some COLD_START_TIMEOUT_MS) net = Some ids ->
  eval (fetchFreshModels (hasApiKeyOf env) (Some COLD_START_TIMEOUT_MS) net)
       (initialWorld st) = Some (model :: rest) ->
  disk (exec (session env net) (initialWorld st))
  = {| zen_models_json := Some (Document ids);
       models_json :=
         Some (Document (JSON.stringify
                 (mergeLoop (modelsDevDataOf (Some COLD_START_TIMEOUT_MS) net) ids)));
       free_model_ids_json := Some (Document (freeIdsOf (model :: rest)));
       writable := true |}.
Proof.
  intros Hw Hload Hzen Heval.
  rewrite session_not_warm by (now left).
  rewrite (default_cold_success env net (initialWorld st) model rest Hload Heval).
  rewrite (fetchFreshModels_exec (hasApiKeyOf env) (Some COLD_START_TIMEOUT_MS) net
             (initialWorld st) ids Hw Hzen).
  reflexivity.
Qed.

(** X19: no spurious report after a successful cold start. When the cache
    directory is writable, Zen's list has no repeated and no empty id, and
    every enrichment entry is filed under its own id, the next start of the
    process (with or without credential, with or without network) takes the
    fast path, finds no free model added or removed, and arms no
    notification. *)
Theorem next_start_reports_nothing (env env' : Env) (net net' : Net) (st : Store)
    (ids : list string) (model : ModelConfig) (rest : list ModelConfig) :
  writable st = true ->
  loadModelsFromCache st = None ->
  zenModelIdsOf (Some COLD_START_TIMEOUT_MS) net = Some ids ->
  List.NoDup ids ->
  (forall modelId, In modelId ids -> modelId <> "") ->
  (forall modelId devModel,
      In modelId ids ->
      devModelOf (modelsDevDataOf (Some COLD_START_TIMEOUT_MS) net) modelId
      = Some devModel ->
      dm_id devModel = None \/ dm_id devModel = Some ""
      \/ dm_id devModel = Some modelId) ->
  eval (fetchFreshModels (hasApiKeyOf env) (Some COLD_START_TIMEOUT_MS) net)
       (initialWorld st) = Some (model :: rest) ->
  eval (default env' net')
       (initialWorld (disk (exec (session env net) (initialWorld st))))
  = Started [] [] false true.
Proof.
  intros Hw Hload Hzen Hnd Hne Hkeys Heval.
  set (data := modelsDevDataOf (Some COLD_START_TIMEOUT_MS) net) in *.
  set (merged := mergeLoop data ids).
  rewrite (cold_start_disk env net st ids model rest Hw Hload Hzen Heval).
  fold data. fold merged.
  assert (Hpub : model :: rest = if hasApiKeyOf env then merged
                                 else List.filter isFreeModel merged).
  { rewrite (fetchFreshModels_eval _ _ _ _ _ Hzen) in Heval. now injection Heval. }
  assert (Hfree : freeIdsOf (model :: rest) = freeIdsOf merged).
  { rewrite Hpub. unfold freeIdsOf.
    destruct (hasApiKeyOf env); [reflexivity | now rewrite filter_idempotent]. }
  assert (Hmerged : merged <> []).
  { intros Hnil. rewrite Hnil in Hpub. destruct (hasApiKeyOf env); discriminate. }
  set (st' := {| zen_models_json := Some (Document ids);
                 models_json := Some (Document (JSON.stringify merged));
                 free_model_ids_json := Some (Document (freeIdsOf (model :: rest)));
                 writable := true |}).
  assert (Hload' : loadModelsFromCache (disk (initialWorld st'))
                   = Some (map JSON.ofModel merged)).
  { apply loadModels_stringify; [reflexivity | exact Hmerged |].
    intros m Hm. unfold merged in Hm. rewrite mergeLoop_map in Hm.
    apply in_map_iff in Hm. destruct Hm as (i & <- & Hi).
    apply buildModel_named. now apply Hne. }
  assert (Hndm : List.NoDup (map mc_id merged)).
  { unfold merged. now rewrite (mergeLoop_id_list ids data Hkeys). }
  rewrite <- ids_reloaded in Hndm.
  rewrite (warm_start_outcome env' net' (initialWorld st') (map JSON.ofModel merged)
             (map JSON.reloaded merged) Hload' (asModelConfigs_stringify merged) Hndm).
  cbn [disk initialWorld]. unfold loadFreeModelIds, st'. cbn [free_model_ids_json].
  rewrite Hfree, freeIdsOf_reloaded.
  destruct (proj2 (no_change_iff (freeIdsOf merged) (freeIdsOf merged))) as [Ha Hr];
    [tauto|].
  rewrite Ha, Hr. reflexivity.
Qed.

Lemma next_start_reports_nothing_witness :
  eval (default Scenario.withKey Scenario.offline)
       (initialWorld (disk (exec (session Scenario.withoutKey Scenario.bothAnswer)
                                 (initialWorld Scenario.emptyStore))))
  = Started [] [] false true.
Proof.
  apply (next_start_reports_nothing Scenario.withoutKey Scenario.withKey
           Scenario.bothAnswer Scenario.offline Scenario.emptyStore ["m1"; "m2"]
           (buildModel Scenario.enrichmentB "m2") []).
  - reflexivity.
  - reflexivity.
  - reflexivity.
  - repeat constructor; simpl; intuition discriminate.
  - intros modelId [<- | [<- | []]]; discriminate.
  - intros modelId devModel [<- | [<- | []]] Hdev; vm_compute in Hdev.
    + injection Hdev as <-. right. right. reflexivity.
    + discriminate Hdev.
  - vm_compute. reflexivity.
Defined.

(** ** Dispatch, continued *)

Section DispatchFurther.

Variables Context Event : Type.
Variables anthropicFn responsesFn googleFn completionsFn
  : Request Context -> InnerStream Event.
Variable now : Z.

(** X20: every registered model can be dispatched with a key. After
    [registerModels models], a request that names the id of any registered
    record and carries a non-empty key is refused by neither check: exactly
    one backend call is made, to the backend of the last registered record
    with that id, for the model as given, at the Zen base URL, with that
    key. *)
Theorem registered_model_is_dispatched (models : list ModelConfig) (w : World)
    (m : ModelConfig) (model : Model) (context : Context) (key : string) :
  In m models ->
  model_id model = mc_id m ->
  key <> "" ->
  let d := streamOpenCodeZen anthropicFn responsesFn googleFn completionsFn now
             (MODEL_MAP (exec (registerModels models) w)) model context
             (Some {| apiKey := Some key |}) in
  exists cfg,
    List.find (fun r => String.eqb (mc_id r) (mc_id m)) (rev models) = Some cfg
    /\ In cfg models
    /\ calls d = [(mc_backend cfg,
                   {| req_model := model; req_baseUrl := ZEN_BASE_URL;
                      req_context := context; req_apiKey := Some key |})]
    /\ (List.NoDup (map mc_id models) -> cfg = m).
Proof.
  intros Hin Hid Hkey d.
  destruct (List.find (fun r => String.eqb (mc_id r) (mc_id m)) (rev models))
    as [cfg|] eqn:Hfind.
  - exists cfg. split; [reflexivity|].
    pose proof (List.find_some _ _ Hfind) as [Hcfg Heq].
    apply in_rev in Hcfg. apply String.eqb_eq in Heq.
    split; [exact Hcfg|]. split.
    + subst d. unfold streamOpenCodeZen, route. rewrite Hid, registerModels_get, Hfind.
      simpl. apply truthy_nonempty in Hkey. rewrite Hkey. reflexivity.
    + intros Hnd. clear - Hin Hcfg Heq Hnd.
      induction models as [|x models IH]; [destruct Hin|].
      simpl in Hnd. inversion Hnd as [|? ? Hnot Hnd']; subst.
      destruct Hin as [-> | Hin], Hcfg as [-> | Hcfg]; trivial.
      * exfalso. apply Hnot. rewrite <- Heq. now apply in_map.
      * exfalso. apply Hnot. rewrite Heq. now apply in_map.
      * now apply IH.
  - exfalso. apply in_rev in Hin.
    apply (List.find_none _ _ Hfind) in Hin. rewrite String.eqb_refl in Hin.
    discriminate.
Qed.

(** X21: the shape of every stream [streamOpenCodeZen] hands back. It is
    ended; it consists of the events the backend yielded, in order, followed
    by at most one error event; at most one backend is called; when none is
    called the stream is the error event alone, and when the backend stream
    finishes without throwing there is no error event. *)
Theorem stream_shape (map_ : list (string * ModelConfig)) (model : Model)
    (context : Context) (options : option SimpleStreamOptions) :
  let d := streamOpenCodeZen anthropicFn responsesFn googleFn completionsFn now
             map_ model context options in
  ended d = true
  /\ exists forwarded tail,
       events d = map Forwarded forwarded ++ tail
       /\ (tail = [] \/ exists message, tail = [errorEvent now model message])
       /\ (calls d = [] -> forwarded = [] /\ tail <> [])
       /\ (forall backend request,
             calls d = [(backend, request)] ->
             forwarded
             = yielded (getStreamFunction anthropicFn responsesFn googleFn
                          completionsFn backend request)
             /\ (thrown (getStreamFunction anthropicFn responsesFn googleFn
                           completionsFn backend request) = None -> tail = []))
       /\ (length (calls d) <= 1)%nat.
Proof.
  intros d. subst d. unfold streamOpenCodeZen.
  destruct (route map_ model context options) as [[backend request]|message]; simpl.
  - split; [reflexivity|].
    exists (yielded (getStreamFunction anthropicFn responsesFn googleFn completionsFn
                       backend request)).
    eexists. split; [reflexivity|]. split; [|split; [discriminate|split]].
    + destruct (thrown _); eauto.
    + intros b r [= <- <-]. split; [reflexivity|]. now intros ->.
    + lia.
  - split; [reflexivity|]. exists [], [errorEvent now model message].
    split; [reflexivity|]. split; [eauto|]. split; [|split].
    + intros _. split; [reflexivity | discriminate].
    + intros b r H. discriminate H.
    + lia.
Qed.

End DispatchFurther.

Lemma registered_model_is_dispatched_witness :
  exists cfg,
    List.find (fun r => String.eqb (mc_id r) "m1") (rev Scenario.registryC) = Some cfg
    /\ In cfg Scenario.registryC
    /\ calls (streamOpenCodeZen Scenario.echo Scenario.echo Scenario.echo Scenario.echo 0
                (MODEL_MAP (exec (registerModels Scenario.registryC)
                                 (initialWorld Scenario.emptyStore)))
                (Scenario.request "m1") tt (Some {| apiKey := Some "sk-test-key" |}))
       = [(mc_backend cfg,
           {| req_model := Scenario.request "m1"; req_baseUrl := ZEN_BASE_URL;
              req_context := tt; req_apiKey := Some "sk-test-key" |})]
    /\ (List.NoDup (map mc_id Scenario.registryC)
        -> cfg = buildModel Scenario.enrichmentB "m1").
Proof.
  apply (registered_model_is_dispatched unit string Scenario.echo Scenario.echo
           Scenario.echo Scenario.echo 0 Scenario.registryC
           (initialWorld Scenario.emptyStore) (buildModel Scenario.enrichmentB "m1")
           (Scenario.request "m1") tt "sk-test-key").
  - vm_compute. left. reflexivity.
  - vm_compute. reflexivity.
  - discriminate.
Defined.

Lemma stream_shape_witness :
  ended (streamOpenCodeZen Scenario.echo Scenario.echo Scenario.echo Scenario.echo 0
           Scenario.publishedC (Scenario.request "m3") tt None) = true.
Proof.
  apply (stream_shape unit string Scenario.echo Scenario.echo Scenario.echo
           Scenario.echo 0 Scenario.publishedC (Scenario.request "m3") tt None).
Defined.

(** ** The notification and the handlers *)

Lemma notificationLines_In (added_ removed_ : list string) (x : string) :
  In x (notificationLines added_ removed_)
  <-> x = notificationTitle \/ x = "" \/ x = notificationFooter
      \/ (added_ <> [] /\ (x = "Added:" \/ In x (map (String.append "  + ") added_)))
      \/ (removed_ <> []
          /\ (x = "Removed:" \/ In x (map (String.append "  - ") removed_))).
Proof.
  unfold notificationLines.
  destruct added_ as [|a added_], removed_ as [|r removed_]; cbn [nonEmpty];
    rewrite ?in_app_iff; cbn [In]; intuition (try congruence; auto).
Qed.

Lemma plus_line_inj (x y : string) :
  String.append "  + " x = String.append "  + " y -> x = y.
Proof. cbv. congruence. Qed.

Lemma minus_line_inj (x y : string) :
  String.append "  - " x = String.append "  - " y -> x = y.
Proof. cbv. congruence. Qed.

(** X22: the text of the change notification. The first line is the title
    and the last the dismissal hint; a line ["  + id"] is present exactly for
    the added ids and a line ["  - id"] exactly for the removed ones; the
    heading [Added:] (resp. [Removed:]) is present exactly when something
    was added (resp. removed). *)
Theorem notification_text (added_ removed_ : list string) :
  let lines := notificationLines added_ removed_ in
  hd_error lines = Some notificationTitle
  /\ List.last lines "" = notificationFooter
  /\ (forall modelId, In (String.append "  + " modelId) lines <-> In modelId added_)
  /\ (forall modelId, In (String.append "  - " modelId) lines <-> In modelId removed_)
  /\ (In "Added:" lines <-> added_ <> [])
  /\ (In "Removed:" lines <-> removed_ <> []).
Proof.
  intros lines. split; [|split].
  - unfold lines, notificationLines.
    destruct added_, removed_; reflexivity.
  - unfold lines, notificationLines. rewrite app_assoc. apply List.last_last.
  - unfold lines. split; [|split; [|split]].
    + intros modelId. rewrite notificationLines_In. split.
      * intros [H | [H | [H | [(_ & [H | H]) | (_ & [H | H])]]]];
          try (cbv in H; discriminate H).
        -- apply in_map_iff in H. destruct H as (y & Hy & Hin).
           apply plus_line_inj in Hy. now subst.
        -- apply in_map_iff in H. destruct H as (y & Hy & Hin).
           cbv in Hy. discriminate Hy.
      * intros Hin. right. right. right. left. split.
        -- intros ->. destruct Hin.
        -- right. now apply in_map.
    + intros modelId. rewrite notificationLines_In. split.
      * intros [H | [H | [H | [(_ & [H | H]) | (_ & [H | H])]]]];
          try (cbv in H; discriminate H).
        -- apply in_map_iff in H. destruct H as (y & Hy & Hin).
           cbv in Hy. discriminate Hy.
        -- apply in_map_iff in H. destruct H as (y & Hy & Hin).
           apply minus_line_inj in Hy. now subst.
      * intros Hin. right. right. right. right. split.
        -- intros ->. destruct Hin.
        -- right. now apply in_map.
    + rewrite notificationLines_In. split.
      * intros [H | [H | [H | [(Hne & _) | (_ & [H | H])]]]];
          try (cbv in H; discriminate H); trivial.
        apply in_map_iff in H. destruct H as (y & Hy & _). cbv in Hy. discriminate Hy.
      * intros Hne. right. right. right. left. split; [exact Hne | now left].
    + rewrite notificationLines_In. split.
      * intros [H | [H | [H | [(_ & [H | H]) | (Hne & _)]]]];
          try (cbv in H; discriminate H); trivial.
        apply in_map_iff in H. destruct H as (y & Hy & _). cbv in Hy. discriminate Hy.
      * intros Hne. right. right. right. right. split; [exact Hne | now left].
Qed.

Lemma notification_text_witness :
  In "  + m1" (notificationLines ["m1"] ["m2"]).
Proof.
  apply (proj1 (proj2 (proj2 (notification_text ["m1"] ["m2"]))) "m1").
  now left.
Defined.

(** X23: the notification is attempted once per process. The first
    [input] or [session_start] event whose context has a user interface sets
    the flag for good: every later event leaves the handler state as it is.
    This holds even when that context offers no [setWidget], in which case
    nothing is displayed and the notification is lost; an event without user
    interface changes nothing and leaves the attempt for later. *)
Theorem notification_once (added_ removed_ : list string) (ctx : Ctx) (h : Handlers) :
  notificationShown h = false ->
  (hasUI ctx = true ->
   let h1 := notifyHandler added_ removed_ ctx h in
   notificationShown h1 = true
   /\ (forall added' removed' ctx', notifyHandler added' removed' ctx' h1 = h1)
   /\ (ui_setWidget ctx = true ->
       widget (ui h1) = Some (notificationLines added_ removed_))
   /\ (ui_setWidget ctx = false -> ui h1 = ui h))
  /\ (hasUI ctx = false -> notifyHandler added_ removed_ ctx h = h).
Proof.
  intros Hflag. unfold notifyHandler. rewrite Hflag. simpl. split.
  - intros ->. simpl. split; [reflexivity|]. split; [reflexivity|].
    unfold showFreeModelChangeNotification. split; intros ->; reflexivity.
  - intros ->. reflexivity.
Qed.

Lemma notification_once_witness :
  notificationShown
    (notifyHandler ["m1"] [] Scenario.noWidget Scenario.freshHandlers) = true
  /\ ui (notifyHandler ["m1"] [] Scenario.noWidget Scenario.freshHandlers) = initialUi.
Proof.
  destruct (proj1 (notification_once ["m1"] [] Scenario.noWidget Scenario.freshHandlers
                     eq_refl) eq_refl) as (Hflag & _ & _ & Hlost).
  split; [exact Hflag | exact (Hlost eq_refl)].
Defined.

Lemma clearTimeout_only (handle : nat) (ctx : Ctx) (ui_ : Ui) :
  timers ui_ = [(handle, ctx)] -> timers (clearTimeout handle ui_) = [].
Proof.
  intros H. unfold clearTimeout. simpl. rewrite H. simpl. now rewrite Nat.eqb_refl.
Qed.

Lemma clearWidgetNotification_oneTimer (ctx : Ctx) (ui_ : Ui) :
  oneTimer ui_ ->
  timers (clearWidgetNotification ctx ui_) = []
  /\ widgetDismissTimeout (clearWidgetNotification ctx ui_) = None
  /\ (ui_setWidget ctx = true -> widget (clearWidgetNotification ctx ui_) = None).
Proof.
  intros [[Ht Hw] | (handle & c & Ht & Hw & _)]; unfold clearWidgetNotification;
    rewrite Hw.
  - destruct (ui_setWidget ctx); simpl; auto. repeat split; trivial. discriminate.
  - destruct (ui_setWidget ctx); simpl; rewrite Ht; simpl; rewrite Nat.eqb_refl;
      simpl; repeat split; trivial. discriminate.
Qed.

Lemma show_oneTimer (ctx : Ctx) (added_ removed_ : list string) (ui_ : Ui) :
  oneTimer ui_ -> oneTimer (showFreeModelChangeNotification ctx added_ removed_ ui_).
Proof.
  intros Hinv. unfold showFreeModelChangeNotification.
  destruct (ui_setWidget ctx) eqn:Hset; simpl; [|exact Hinv].
  right. destruct Hinv as [[Ht Hw] | (handle & c & Ht & Hw & _)]; rewrite Hw.
  - exists (nextTimer ui_), ctx. simpl. now rewrite Ht.
  - exists (nextTimer (clearTimeout handle ui_)), ctx. simpl.
    rewrite Ht. simpl. now rewrite Nat.eqb_refl.
Qed.

Lemma fireTimer_armed (handle : nat) (ctx : Ctx) (ui_ : Ui) :
  oneTimer ui_ ->
  In (handle, ctx) (timers ui_) ->
  timers (fireTimer handle ui_) = []
  /\ widgetDismissTimeout (fireTimer handle ui_) = None
  /\ widget (fireTimer handle ui_) = None.
Proof.
  intros [[Ht Hw] | (h0 & c0 & Ht & Hw & Hset)] Hin; rewrite Ht in Hin;
    [destruct Hin|].
  destruct Hin as [[= <- <-] | []].
  unfold fireTimer. rewrite Ht. simpl. rewrite Nat.eqb_refl.
  unfold clearWidgetNotification. simpl. rewrite Hw, Hset. simpl.
  rewrite Ht. simpl. rewrite Nat.eqb_refl. simpl. auto.
Qed.

Lemma fireTimer_oneTimer (handle : nat) (ui_ : Ui) :
  oneTimer ui_ -> oneTimer (fireTimer handle ui_).
Proof.
  intros Hinv.
  destruct (List.find (fun t => Nat.eqb (fst t) handle) (timers ui_)) as [[h c]|]
    eqn:Hfind.
  - pose proof (List.find_some _ _ Hfind) as [Hin Heq].
    simpl in Heq. apply Nat.eqb_eq in Heq. subst h.
    destruct (fireTimer_armed handle c ui_ Hinv Hin) as (Ht & Hw & _).
    left. auto.
  - unfold fireTimer. now rewrite Hfind.
Qed.

Lemma uiStep_oneTimer (ui_ : Ui) (e : UiEvent) : oneTimer ui_ -> oneTimer (uiStep ui_ e).
Proof.
  intros Hinv. destruct e as [ctx a r | ctx | handle]; simpl.
  - now apply show_oneTimer.
  - left. destruct (clearWidgetNotification_oneTimer ctx ui_ Hinv) as (Ht & Hw & _). auto.
  - now apply fireTimer_oneTimer.
Qed.

Lemma uiRun_oneTimer (es : list UiEvent) (ui_ : Ui) :
  oneTimer ui_ -> oneTimer (fold_left uiStep es ui_).
Proof.
  revert ui_. induction es as [|e es IH]; intros ui_ Hinv; simpl; trivial.
  apply IH. now apply uiStep_oneTimer.
Qed.

(** X24: one dismiss timer at most. Whatever notifications are shown,
    widgets cleared and timers fired after start-up, at most one timer is
    armed, namely the one remembered in [widgetDismissTimeout]; when it
    fires, the widget is removed and no timer is left; and a dismissal on
    user input leaves no timer armed either, so a dismissed widget is never
    cleared a second time by a stale timer. *)
Theorem one_dismiss_timer (es : list UiEvent) :
  let ui_ := fold_left uiStep es initialUi in
  oneTimer ui_
  /\ (length (timers ui_) <= 1)%nat
  /\ (forall handle ctx,
        In (handle, ctx) (timers ui_) ->
        widget (fireTimer handle ui_) = None /\ timers (fireTimer handle ui_) = [])
  /\ (forall ctx, timers (clearWidgetNotification ctx ui_) = [])
  /\ (forall handle, ~ In handle (map fst (timers ui_)) -> fireTimer handle ui_ = ui_).
Proof.
  intros ui_.
  assert (Hinv : oneTimer ui_).
  { apply uiRun_oneTimer. left. split; reflexivity. }
  split; [exact Hinv|]. split; [|split; [|split]].
  - destruct Hinv as [[-> _] | (h & c & -> & _)]; simpl; lia.
  - intros handle ctx Hin.
    destruct (fireTimer_armed handle ctx ui_ Hinv Hin) as (Ht & _ & Hwid). auto.
  - intros ctx. apply (clearWidgetNotification_oneTimer ctx ui_ Hinv).
  - intros handle Hnot. unfold fireTimer.
    destruct (List.find _ (timers ui_)) as [[h c]|] eqn:Hfind; trivial.
    exfalso. apply Hnot. pose proof (List.find_some _ _ Hfind) as [Hin Heq].
    simpl in Heq. apply Nat.eqb_eq in Heq. subst h.
    apply (in_map fst) in Hin. exact Hin.
Qed.

Lemma one_dismiss_timer_witness :
  widget (fireTimer 1
            (fold_left uiStep
               [ShowNotification Scenario.interactive ["m1"] [];
                ShowNotification Scenario.interactive ["m1"] []] initialUi)) = None.
Proof.
  apply (proj1 (proj2 (proj2 (one_dismiss_timer
           [ShowNotification Scenario.interactive ["m1"] [];
            ShowNotification Scenario.interactive ["m1"] []]))) 1%nat
           Scenario.interactive).
  vm_compute. left. reflexivity.
Defined.

Lemma registerModels_has (models : list ModelConfig) (w : World) (key : string) :
  JsMap.has (MODEL_MAP (exec (registerModels models) w)) key = true
  <-> In key (map mc_id models).
Proof.
  unfold JsMap.has. rewrite registerModels_get.
  destruct (List.find _ (rev models)) as [m|] eqn:Hfind.
  - split; trivial. intros _. apply List.find_some in Hfind.
    destruct Hfind as [Hin Heq]. apply String.eqb_eq in Heq. subst key.
    apply in_map. now apply in_rev.
  - split; [discriminate|]. intros Hin. apply in_map_iff in Hin.
    destruct Hin as (m & Hm & Hin). apply in_rev in Hin.
    apply (List.find_none _ _ Hfind) in Hin. rewrite Hm, String.eqb_refl in Hin.
    discriminate.
Qed.

(** X25: the warning on model selection. After [registerModels models],
    selecting a model of another provider or a model whose id is among the
    registered ones never warns; selecting an [opencode] model whose id is
    not registered warns exactly once, through [ctx.ui.notify] when the
    context has it and on the console otherwise, and touches nothing else
    of the interface. *)
Theorem model_select_warning (models : list ModelConfig) (w : World) (model : Model)
    (ctx : Ctx) (ui_ : Ui) :
  let ui' := modelSelectHandler (MODEL_MAP (exec (registerModels models) w))
               model ctx ui_ in
  (model_provider model <> "opencode" -> ui' = ui_)
  /\ (In (model_id model) (map mc_id models) -> ui' = ui_)
  /\ (model_provider model = "opencode" ->
      ~ In (model_id model) (map mc_id models) ->
      widget ui' = widget ui_ /\ timers ui' = timers ui_
      /\ widgetDismissTimeout ui' = widgetDismissTimeout ui_
      /\ (ui_notify ctx = true ->
          notified ui' = notified ui_ ++ [noLongerAvailable (model_id model)]
          /\ warned ui' = warned ui_)
      /\ (ui_notify ctx = false ->
          warned ui' = warned ui_ ++ [selectedNoLongerAvailable (model_id model)]
          /\ notified ui' = notified ui_)).
Proof.
  intros ui'. subst ui'. unfold modelSelectHandler.
  pose proof (registerModels_has models w (model_id model)) as Hhas.
  split; [|split].
  - intros Hne. apply String.eqb_neq in Hne. now rewrite Hne.
  - intros Hin. apply Hhas in Hin. rewrite Hin. simpl.
    now destruct (negb (String.eqb (model_provider model) "opencode")).
  - intros Hprov Hnot. rewrite Hprov. simpl.
    destruct (JsMap.has _ (model_id model)) eqn:E; [exfalso; apply Hnot, Hhas; trivial|].
    simpl. destruct (ui_notify ctx); simpl; repeat split; trivial; discriminate.
Qed.

Lemma model_select_warning_witness :
  notified (modelSelectHandler
              (MODEL_MAP (exec (registerModels Scenario.registryC)
                               (initialWorld Scenario.emptyStore)))
              (Scenario.request "m3") Scenario.interactive initialUi)
  = [noLongerAvailable "m3"].
Proof.
  apply (proj2 (proj2 (model_select_warning Scenario.registryC
                         (initialWorld Scenario.emptyStore) (Scenario.request "m3")
                         Scenario.interactive initialUi))).
  - reflexivity.
  - vm_compute. intuition discriminate.
  - reflexivity.
Defined.

(** ** The cold start that succeeds *)

(** X26: a cold start whose fetch returns a non-empty registry registers the
    provider exactly once, with the fetched models in order, publishes
    exactly these records, writes the free-id snapshot of what it published
    (on a writable cache), and launches no background refresh: the session
    ends with the default export. *)
Theorem cold_start_success (env : Env) (net : Net) (st : Store)
    (model : ModelConfig) (rest : list ModelConfig) :
  loadModelsFromCache st = None ->
  eval (fetchFreshModels (hasApiKeyOf env) (Some COLD_START_TIMEOUT_MS) net)
       (initialWorld st) = Some (model :: rest) ->
  let w := exec (default env net) (initialWorld st) in
  (exists added_ removed_ notify,
      eval (default env net) (initialWorld st) = Started added_ removed_ notify false)
  /\ exec (session env net) (initialWorld st) = w
  /\ registered w = [map providerModel (model :: rest)]
  /\ (forall key,
        JsMap.get (MODEL_MAP w) key
        = List.find (fun m => String.eqb (mc_id m) key) (rev (model :: rest)))
  /\ (writable st = true ->
      free_model_ids_json (disk w) = Some (Document (freeIdsOf (model :: rest)))).
Proof.
  intros Hload Heval w.
  destruct (fetchFreshModels_frame (hasApiKeyOf env) (Some COLD_START_TIMEOUT_MS) net
              (initialWorld st)) as (_ & Hreg & _ & Hwr & _).
  assert (Hw : w = exec (saveFreeModelIds (freeIdsOf (model :: rest)))
                     (exec (registerModels (model :: rest))
                        (exec (fetchFreshModels (hasApiKeyOf env)
                                 (Some COLD_START_TIMEOUT_MS) net) (initialWorld st)))).
  { unfold w. now apply default_cold_success. }
  set (wf := exec (fetchFreshModels (hasApiKeyOf env) (Some COLD_START_TIMEOUT_MS) net)
                  (initialWorld st)) in *.
  split; [|split; [|split; [|split]]].
  - unfold eval. rewrite (default_cold_run env net (initialWorld st) model rest Hload Heval).
    unfold trackFreeModels, bind, gets, ret. cbn [fst]. eauto.
  - apply session_not_warm. now left.
  - rewrite Hw, (proj2 (saveFreeModelIds_MODEL_MAP _ _)).
    unfold exec at 1. unfold registerModels, modify. cbn [snd registered].
    now rewrite Hreg.
  - intros key. rewrite Hw, (proj1 (saveFreeModelIds_MODEL_MAP _ _)).
    apply registerModels_get.
  - intros Hwritable. rewrite Hw.
    assert (Hwf : writable (disk wf) = true) by (rewrite Hwr; exact Hwritable).
    unfold exec at 1. unfold saveFreeModelIds, writeFileSync.
    unfold exec at 1. unfold registerModels, modify. cbn [snd disk].
    now rewrite Hwf.
Qed.

Lemma cold_start_success_witness :
  registered (exec (default Scenario.withoutKey Scenario.bothAnswer)
                   (initialWorld Scenario.emptyStore))
  = [[providerModel (buildModel Scenario.enrichmentB "m2")]].
Proof.
  apply (cold_start_success Scenario.withoutKey Scenario.bothAnswer Scenario.emptyStore
           (buildModel Scenario.enrichmentB "m2") []).
  - reflexivity.
  - vm_compute. reflexivity.
Defined.
